(** * MultiModalRAG-frontend: client-side state reconciliation

    A shallow embedding of the two stateful pages of the frontend and the
    properties of their handlers:

    - the chat page ([ProjectChatPage], [handleSendMessage]): optimistic
      append of a [temp-] message, reconciliation with the server's pair on
      success, rollback on failure;
    - the project page ([ProjectPage]): the document polling effect, the
      draft settings updater [handleDraftSettings] and
      [handlePublishSettings];
    - the rest of the code: [apiClient], the other handlers of the two
      pages (loading, chats, documents, uploads, feedback) and the
      dashboard ([DashboardPage]).

    React state is a record, a state setter is a state transformer, and an
    [async] handler is cut at its [await]s into the synchronous segments the
    event loop runs atomically.  Every call that leaves the page (token
    acquisition, [apiClient], toasts, console) is appended to a trace. *)

From stdpp Require Import gmap strings list pretty.

(** ** JavaScript idioms used by the pages *)

Module Js.

(** Truthiness of a [string | null | undefined]: [null], [undefined] and
    the empty string are falsy. *)
Definition truthy (x : option string) : bool :=
  match x with
  | Some s => bool_decide (s ≠ "")
  | None => false
  end.

(** [s.startsWith(p)] *)
Definition startsWith (s p : string) : bool := String.prefix p s.

(** [arr.includes(s)] on an array of strings *)
Definition includes (arr : list string) (s : string) : bool :=
  bool_decide (s ∈ arr).

(** The outcome of an awaited promise. *)
(** What a rejected promise carries: an [Error] with its message, or any
    other thrown value. *)
Inductive Thrown :=
| ErrorObject (message : string)
| OtherValue.

Inductive Settled (A : Type) : Type :=
| Fulfilled (a : A)
| Rejected (err : Thrown).
Global Arguments Fulfilled {A} a.
Global Arguments Rejected {A} err.

(** [err instanceof Error ? err.message : fallback] *)
Definition messageOr (err : Thrown) (fallback : string) : string :=
  match err with
  | ErrorObject m => m
  | OtherValue => fallback
  end.

End Js.

(** ** Entities ([@/types]) *)

Inductive Role := user | assistant.

Module Message.
Record t := mk {
  id : string;
  chat_id : string;
  content : string;
  role : Role;
  clerk_id : string;
  created_at : string;
  citations : list string
}.
End Message.

Module ChatWithMessages.
Record t := mk {
  id : string;
  project_id : string;
  title : string;
  created_at : string;
  messages : list Message.t
}.

(** [{ ...prev, messages: ms }] *)
Definition with_messages (prev : t) (ms : list Message.t) : t :=
  mk (id prev) (project_id prev) (title prev) (created_at prev) ms.
End ChatWithMessages.

Module ProjectDocument.
(** [processing_status] is read through a truthiness guard in the page, so
    it may be absent. *)
Record t := mk {
  id : string;
  project_id : string;
  source : string;
  processing_status : option string
}.
End ProjectDocument.

(** A settings value; [VUndefined] is a key spelled out with no value. *)
Inductive SettingValue :=
| VString (s : string)
| VNumber (n : Z)
| VBool (b : bool)
| VUndefined.

(** [ProjectSettings] and [Partial<ProjectSettings>] are plain objects: finite
  maps from field names to values. *)
Abbreviation ProjectSettings := (gmap string SettingValue).

(** ** The page's view of the outside world *)

Module Api.

Inductive Body :=
| ContentBody (content : string)
| SettingsBody (settings : ProjectSettings).

Inductive Call :=
| Get (endpoint : string) (token : option string)
| Post (endpoint : string) (data : Body) (token : option string)
| Put (endpoint : string) (data : Body) (token : option string)
| Delete (endpoint : string) (token : option string).

(** What a handler does besides returning: the token request, an
    [apiClient] call, a toast, a console line, and a call of the setter of
    one of the two store slots ([currentChatData], [data]). *)
Inductive Effect :=
| GetToken
| ApiClient (c : Call)
| ToastSuccess (message : string)
| ToastError (message : string)
| ConsoleLog (message : string)
| ConsoleWarn (message : string)
| ConsoleError (message : string)
| StoreUpdate (slot : string).

(** What [apiClient] throws on a response that is not [ok]:
    [`HTTP error! status: ${response.status}`] from [get], [post] and
    [delete], [`API Error: ${response.status}`] from [put]. *)
Definition httpError (status : N) : Js.Thrown :=
  Js.ErrorObject ("HTTP error! status: " +:+ pretty status).

Definition apiError (status : N) : Js.Thrown :=
  Js.ErrorObject ("API Error: " +:+ pretty status).

Definition is_remote (e : Effect) : bool :=
  match e with
  | GetToken | ApiClient _ => true
  | _ => false
  end.

Definition is_store_update (slot : string) (e : Effect) : bool :=
  match e with
  | StoreUpdate s => bool_decide (s = slot)
  | _ => false
  end.

Definition is_user_notice (e : Effect) : bool :=
  match e with
  | ToastSuccess _ | ToastError _ => true
  | _ => false
  end.

End Api.

(** ** A state monad for the synchronous segments of a handler *)

Module Act.

Definition t (S A : Type) : Type := S → A * S.

Definition ret {S A} (a : A) : t S A := λ s, (a, s).

Definition bind {S A B} (m : t S A) (k : A → t S B) : t S B :=
  λ s, let (a, s') := m s in k a s'.

Definition exec {S A} (m : t S A) (s : S) : S := snd (m s).

Definition eval {S A} (m : t S A) (s : S) : A := fst (m s).

End Act.

Declare Scope act_scope.
Delimit Scope act_scope with act.
Notation "x <-- m ;; k" := (Act.bind m (λ x, k))
(at level 100, m at next level, right associativity) : act_scope.
Notation "m ;; k" := (Act.bind m (λ _, k))
(at level 100, right associativity) : act_scope.

(** ** The chat page ([ProjectChatPage]) *)

Module ChatPage.

Import Js.

(** The React state the send handler reads and writes, and the trace of
    what left the page. *)
Record State := mkState {
  currentChatData : option ChatWithMessages.t;
  sendMessageError : option string;
  isMessageSending : bool;
  trace : list Api.Effect
}.

(** What a handler closes over: the values of the render it was created in. *)
Record Closure := mkClosure {
  projectId : string;
  renderedChatData : option ChatWithMessages.t;
  userId : option string
}.

(** The two clock reads of one call: [Date.now()] in milliseconds and
    [new Date().toISOString()]. *)
Record Clock := mkClock {
  now : N;
  iso : string
}.

(** The body of the create-message response: [response.data]. *)
Record CreateMessageData := mkData {
  userMessage : Message.t;
  aiResponse : Message.t
}.

Record Response := mkResponse {
  data : option CreateMessageData
}.

Definition emit (e : Api.Effect) : Act.t State unit :=
  λ st, (tt, mkState (currentChatData st) (sendMessageError st)
               (isMessageSending st) (trace st ++ [e])).

Definition setSendMessageError (v : option string) : Act.t State unit :=
  λ st, (tt, mkState (currentChatData st) v (isMessageSending st) (trace st)).

Definition setIsMessageSending (v : bool) : Act.t State unit :=
  λ st, (tt, mkState (currentChatData st) (sendMessageError st) v (trace st)).

(** [setCurrentChatData((prev) => ...)]: a functional update of the store. *)
Definition setCurrentChatData
    (updater : option ChatWithMessages.t → option ChatWithMessages.t)
    : Act.t State unit :=
  λ st, (tt, mkState (updater (currentChatData st)) (sendMessageError st)
               (isMessageSending st)
               (trace st ++ [Api.StoreUpdate "currentChatData"])).

Definition tempPrefix : string := "temp-".

(** [`temp-${Date.now()}`] *)
Definition tempId (clk : Clock) : string := tempPrefix +:+ pretty (now clk).

(** [msg.id.startsWith("temp-")] *)
Definition isTemp (msg : Message.t) : bool :=
  startsWith (Message.id msg) tempPrefix.

Definition optimisticUserMessage
    (chat : ChatWithMessages.t) (uid content : string) (clk : Clock)
    : Message.t :=
  Message.mk (tempId clk) (ChatWithMessages.id chat) content user uid
    (iso clk) [].

(** The three updaters handed to [setCurrentChatData]. *)
Definition appendOptimistic (optimistic : Message.t)
    (prev : option ChatWithMessages.t) : option ChatWithMessages.t :=
  match prev with
  | None => None
  | Some p =>
      Some (ChatWithMessages.with_messages p
              (ChatWithMessages.messages p ++ [optimistic]))
  end.

Definition replaceOptimistic (optimistic : Message.t)
    (d : CreateMessageData)
    (prev : option ChatWithMessages.t) : option ChatWithMessages.t :=
  match prev with
  | None => None
  | Some p =>
      Some (ChatWithMessages.with_messages p
              (filter (λ msg, Message.id msg ≠ Message.id optimistic)
                 (ChatWithMessages.messages p)
               ++ [userMessage d; aiResponse d]))
  end.

Definition removeOptimistic
    (prev : option ChatWithMessages.t) : option ChatWithMessages.t :=
  match prev with
  | None => None
  | Some p =>
      Some (ChatWithMessages.with_messages p
              (filter (λ msg, isTemp msg = false)
                 (ChatWithMessages.messages p)))
  end.

Local Open Scope act_scope.

(** The [catch] and [finally] blocks of [handleSendMessage]. *)
Definition catchBlock : Act.t State unit :=
  setSendMessageError (Some "Failed to send message") ;;
  emit (Api.ToastError "Failed to send message") ;;
  setCurrentChatData removeOptimistic.

Definition finallyBlock : Act.t State unit :=
  setIsMessageSending false.

Definition createEndpoint (cl : Closure) (chat : ChatWithMessages.t) : string :=
  "/api/chat/" +:+ projectId cl +:+ "/chats/" +:+ ChatWithMessages.id chat
    +:+ "/messages/create".

(** A call suspended at an [await]: what its continuation still needs. *)
Record Pending := mkPending {
  optimistic : Message.t;
  endpoint : string;
  sentContent : string
}.

(** The guard's early exit: the error is set, [return] runs [finally]. *)
Definition guardExit : Act.t State (option Pending) :=
  setSendMessageError (Some "Chat or user not found") ;;
  setIsMessageSending false ;;
  finallyBlock ;;
  Act.ret None.

(** Segment 1: from the call to [await getToken()]. [None]: the call has
    returned at the guard [!currentChatData || !userId]. *)
Definition handleSendMessage_begin
    (cl : Closure) (clk : Clock) (content : string)
    : Act.t State (option Pending) :=
  setSendMessageError None ;;
  setIsMessageSending true ;;
  match renderedChatData cl, userId cl with
  | Some chat, Some uid =>
      if truthy (userId cl) then
        let optimisticUserMessage :=
          optimisticUserMessage chat uid content clk in
        setCurrentChatData (appendOptimistic optimisticUserMessage) ;;
        emit Api.GetToken ;;
        Act.ret (Some (mkPending optimisticUserMessage
                         (createEndpoint cl chat) content))
      else guardExit
  | _, _ => guardExit
  end.

(** Segment 2: [getToken()] has settled; on a token the request is issued
    and the call waits for it. [None]: the call has ended in [catch]. *)
Definition handleSendMessage_token
    (p : Pending) (token : Settled (option string))
    : Act.t State (option Pending) :=
  match token with
  | Fulfilled tok =>
      emit (Api.ApiClient
              (Api.Post (endpoint p) (Api.ContentBody (sentContent p)) tok)) ;;
      Act.ret (Some p)
  | Rejected _ =>
      catchBlock ;; finallyBlock ;; Act.ret None
  end.

(** Segment 3: the request has settled. *)
Definition handleSendMessage_reply
    (p : Pending) (reply : Settled Response) : Act.t State unit :=
  match reply with
  | Fulfilled response =>
      match data response with
      | Some d =>
          setCurrentChatData (replaceOptimistic (optimistic p) d) ;;
          emit (Api.ToastSuccess "Message sent") ;;
          finallyBlock
      | None => catchBlock ;; finallyBlock
      end
  | Rejected _ => catchBlock ;; finallyBlock
  end.

(** One call run to completion with nothing interleaved at its [await]s. *)
Record RoundTrip := mkRoundTrip {
  tokenResult : Settled (option string);
  replyResult : Settled Response
}.

Definition handleSendMessage
    (cl : Closure) (clk : Clock) (content : string) (net : RoundTrip)
    : Act.t State unit :=
  started <-- handleSendMessage_begin cl clk content ;;
  match started with
  | None => Act.ret tt
  | Some p =>
      issued <-- handleSendMessage_token p (tokenResult net) ;;
      match issued with
      | None => Act.ret tt
      | Some p' => handleSendMessage_reply p' (replyResult net)
      end
  end.

(** The message sequence of the store ([[]] while no chat is loaded), and
    the one the page shows. *)
Definition messagesOf (cur : option ChatWithMessages.t) : list Message.t :=
  match cur with
  | Some chat => ChatWithMessages.messages chat
  | None => []
  end.

Definition shown (st : State) : list Message.t :=
  messagesOf (currentChatData st).

(** A message sequence without [temp-] entries. *)
Definition NoTemp (ms : list Message.t) : Prop :=
  Forall (λ msg, isTemp msg = false) ms.

(** What a segment appended to the trace. *)
Definition emitted (before after : State) : list Api.Effect :=
  drop (length (trace before)) (trace after).

(** The round trip of a call came back with both messages. *)
Definition succeeded (net : RoundTrip) : option CreateMessageData :=
  match tokenResult net, replyResult net with
  | Fulfilled _, Fulfilled response => data response
  | _, _ => None
  end.

(** The guard [!currentChatData || !userId] lets the call through. *)
Definition passesGuard (cl : Closure) : bool :=
  bool_decide (is_Some (renderedChatData cl)) && truthy (userId cl).

(** The pair a successful call appends. *)
Definition pair (d : CreateMessageData) : list Message.t :=
  [userMessage d; aiResponse d].

Definition Durable (d : CreateMessageData) : Prop :=
  isTemp (userMessage d) = false ∧ isTemp (aiResponse d) = false.

End ChatPage.

(** ** The project page ([ProjectPage]) *)

Module Project.
Record t := mk {
  id : string;
  name : string;
  description : string;
  clerk_id : string;
  created_at : string
}.
End Project.

Module Chat.
Record t := mk {
  id : string;
  project_id : string;
  title : string;
  created_at : string
}.
End Chat.

Module ProjectPage.

Import Js.

Record ProjectData := mkData {
  project : option Project.t;
  chats : list Chat.t;
  documents : list ProjectDocument.t;
  settings : option ProjectSettings
}.

(** The React state of the page, the browser's active intervals with the
    cleanup the polling effect last registered, the poll callbacks
    suspended at each of their two [await]s, and the trace. *)
Record State := mkState {
  data : ProjectData;
  loading : bool;
  error : option string;
  intervals : list nat;
  nextIntervalId : nat;
  pollCleanup : option nat;
  awaitingToken : nat;
  awaitingReply : nat;
  trace : list Api.Effect
}.

Definition emit (e : Api.Effect) : Act.t State unit :=
  λ st, (tt, mkState (data st) (loading st) (error st) (intervals st)
               (nextIntervalId st) (pollCleanup st) (awaitingToken st)
               (awaitingReply st) (trace st ++ [e])).

(** [setData((prev) => ...)] *)
Definition setData (updater : ProjectData → ProjectData) : Act.t State unit :=
  λ st, (tt, mkState (updater (data st)) (loading st) (error st)
               (intervals st) (nextIntervalId st) (pollCleanup st)
               (awaitingToken st) (awaitingReply st)
               (trace st ++ [Api.StoreUpdate "data"])).

Definition setLoading (v : bool) : Act.t State unit :=
  λ st, (tt, mkState (data st) v (error st) (intervals st)
               (nextIntervalId st) (pollCleanup st) (awaitingToken st)
               (awaitingReply st) (trace st)).

Definition setError (v : option string) : Act.t State unit :=
  λ st, (tt, mkState (data st) (loading st) v (intervals st)
               (nextIntervalId st) (pollCleanup st) (awaitingToken st)
               (awaitingReply st) (trace st)).

(** [setInterval(callback, 2000)]: a fresh handle joins the active ones. *)
Definition setInterval : Act.t State nat :=
  λ st, (nextIntervalId st,
         mkState (data st) (loading st) (error st)
           (nextIntervalId st :: intervals st) (S (nextIntervalId st))
           (pollCleanup st) (awaitingToken st) (awaitingReply st) (trace st)).

(** [clearInterval(handle)] *)
Definition clearInterval (handle : nat) : Act.t State unit :=
  λ st, (tt, mkState (data st) (loading st) (error st)
               (filter (λ h, h ≠ handle) (intervals st)) (nextIntervalId st)
               (pollCleanup st) (awaitingToken st) (awaitingReply st)
               (trace st)).

(** What React keeps of an effect run: the cleanup it returned, if any. *)
Definition registerCleanup (c : option nat) : Act.t State unit :=
  λ st, (tt, mkState (data st) (loading st) (error st) (intervals st)
               (nextIntervalId st) c (awaitingToken st) (awaitingReply st)
               (trace st)).

Definition suspendAtToken (delta : nat → nat) : Act.t State unit :=
  λ st, (tt, mkState (data st) (loading st) (error st) (intervals st)
               (nextIntervalId st) (pollCleanup st) (delta (awaitingToken st))
               (awaitingReply st) (trace st)).

Definition suspendAtReply (delta : nat → nat) : Act.t State unit :=
  λ st, (tt, mkState (data st) (loading st) (error st) (intervals st)
               (nextIntervalId st) (pollCleanup st) (awaitingToken st)
               (delta (awaitingReply st)) (trace st)).

Definition terminalStatuses : list string := ["completed"; "failed"].

(** [doc.processing_status &&
     !["completed", "failed"].includes(doc.processing_status)] *)
Definition isProcessing (doc : ProjectDocument.t) : bool :=
  match ProjectDocument.processing_status doc with
  | Some status =>
      truthy (Some status) && negb (includes terminalStatuses status)
  | None => false
  end.

(** [data.documents.some(...)] *)
Definition hasProcessingDocuments (docs : list ProjectDocument.t) : bool :=
  existsb isProcessing docs.

Local Open Scope act_scope.

(** The body of the polling effect: nothing when no document is being
    processed, else one interval whose clearing is the effect's cleanup. *)
Definition pollingEffect : Act.t State unit :=
  λ st,
    (if hasProcessingDocuments (documents (data st)) then
       pollInterval <-- setInterval ;;
       registerCleanup (Some pollInterval)
     else registerCleanup None) st.

(** React runs the previous cleanup before it runs the effect again, and
    at unmount. *)
Definition runCleanup : Act.t State unit :=
  λ st,
    (match pollCleanup st with
     | Some pollInterval =>
         clearInterval pollInterval ;; registerCleanup None
     | None => Act.ret tt
     end) st.

(** A commit in which [data.documents] is a new array: the dependency has
    changed, the effect is cleaned up and run again. *)
Definition documentsChanged : Act.t State unit :=
  runCleanup ;; pollingEffect.

Definition filesEndpoint (projectId : string) : string :=
  "/api/project/" +:+ projectId +:+ "/files".

(** The interval's callback, cut at its two [await]s. *)
Definition pollCallback_begin : Act.t State unit :=
  emit Api.GetToken ;; suspendAtToken S.

Definition pollCallback_token (projectId : string)
    (token : Settled (option string)) : Act.t State unit :=
  suspendAtToken pred ;;
  match token with
  | Fulfilled tok =>
      emit (Api.ApiClient (Api.Get (filesEndpoint projectId) tok)) ;;
      suspendAtReply S
  | Rejected _ => emit (Api.ConsoleError "Polling error:")
  end.

(** [{ ...prev, documents: docs }] *)
Definition with_documents (docs : list ProjectDocument.t)
    (prev : ProjectData) : ProjectData :=
  mkData (project prev) (chats prev) docs (settings prev).

Definition pollCallback_reply
    (reply : Settled (list ProjectDocument.t)) : Act.t State unit :=
  suspendAtReply pred ;;
  match reply with
  | Fulfilled docs =>
      setData (with_documents docs) ;; documentsChanged
  | Rejected _ => emit (Api.ConsoleError "Polling error:")
  end.

(** The other writers of [data.documents]: the last [setData] of
    [handleDocumentUpload], [handleDocumentDelete] and [handleUrlAdd]. *)
Definition documentsUploaded (newlyUploadedDocuments : list ProjectDocument.t)
    : Act.t State unit :=
  setData (λ previousData,
    with_documents (documents previousData ++ newlyUploadedDocuments)
      previousData) ;;
  emit (Api.ToastSuccess
          ("Successfully uploaded "
             +:+ pretty (length newlyUploadedDocuments) +:+ " file(s)")) ;;
  documentsChanged.

Definition documentDeleted (documentId : string) : Act.t State unit :=
  setData (λ previousData,
    with_documents
      (filter (λ doc, ProjectDocument.id doc ≠ documentId)
         (documents previousData))
      previousData) ;;
  emit (Api.ToastSuccess "Document deleted successfully") ;;
  documentsChanged.

Definition urlAdded (document_creation_result : ProjectDocument.t)
    : Act.t State unit :=
  setData (λ previousData,
    with_documents (document_creation_result :: documents previousData)
      previousData) ;;
  emit (Api.ToastSuccess "Website is being processed...") ;;
  documentsChanged.

(** [loadProjectData] has fetched the bundle: [setData({ ... })], then
    [setLoading(false)] in [finally]. *)
Definition projectLoaded (bundle : ProjectData) : Act.t State unit :=
  setData (λ _, bundle) ;; setLoading false ;; documentsChanged.

(** [{ ...prev.settings, ...updates }]: the later spread wins. *)
Definition mergeSettings (prev updates : ProjectSettings) : ProjectSettings :=
  updates ∪ prev.

(** The updater of [handleDraftSettings]. *)
Definition draftUpdater (updates : ProjectSettings)
    (prev : ProjectData) : ProjectData :=
  match settings prev with
  | Some current =>
      mkData (project prev) (chats prev) (documents prev)
        (Some (mergeSettings current updates))
  | None => prev
  end.

(** [handleDraftSettings(updates)]: the log line, then the call of
    [setData]. [console.warn] is inside the updater handed to the setter,
    so the warning is printed when the updater runs on a [prev] without
    settings, after the setter was called. *)
Definition handleDraftSettings (updates : ProjectSettings)
    : Act.t State unit :=
  emit (Api.ConsoleLog "Update local state with draft settings") ;;
  λ prev,
    (setData (draftUpdater updates) ;;
     match settings (data prev) with
     | Some _ => Act.ret tt
     | None => emit (Api.ConsoleWarn "No existing settings found to update")
     end) prev.

(** What [handlePublishSettings] closes over. *)
Record Closure := mkClosure {
  userId : option string;
  renderedData : ProjectData
}.

Definition settingsEndpoint (projectId : string) : string :=
  "/api/project/" +:+ projectId +:+ "/settings/update".

(** The [catch] block of [handlePublishSettings]. *)
Definition publishCatch (err : Thrown) : Act.t State unit :=
  let errorMessage := messageOr err "Failed to publish settings" in
  setError (Some errorMessage) ;;
  emit (Api.ToastError errorMessage).

(** Segment 1: the log line, the guard [!userId || !data.settings], and
    [await getToken()]. [None]: returned at the guard. *)
Definition handlePublishSettings_begin (cl : Closure)
    : Act.t State (option ProjectSettings) :=
  emit (Api.ConsoleLog "Make API call to publish settings") ;;
  match settings (renderedData cl) with
  | Some draft =>
      if truthy (userId cl) then
        emit Api.GetToken ;; Act.ret (Some draft)
      else Act.ret None
  | None => Act.ret None
  end.

(** Segment 2: the token has settled; [apiClient.put] takes [data.settings]
    whole. [false]: ended in [catch]. *)
Definition handlePublishSettings_token (projectId : string)
    (draft : ProjectSettings) (token : Settled (option string))
    : Act.t State bool :=
  match token with
  | Fulfilled tok =>
      emit (Api.ApiClient
              (Api.Put (settingsEndpoint projectId) (Api.SettingsBody draft)
                 tok)) ;;
      Act.ret true
  | Rejected err => publishCatch err ;; Act.ret false
  end.

(** Segment 3: the request has settled. *)
Definition handlePublishSettings_reply (reply : Settled unit)
    : Act.t State unit :=
  match reply with
  | Fulfilled _ => emit (Api.ToastSuccess "Settings published successfully")
  | Rejected err => publishCatch err
  end.

Record RoundTrip := mkRoundTrip {
  tokenResult : Settled (option string);
  replyResult : Settled unit
}.

(** What made the round trip fail, if it did: no token, or a rejected
    request. *)
Definition failure (net : RoundTrip) : option Thrown :=
  match tokenResult net, replyResult net with
  | Rejected err, _ => Some err
  | Fulfilled _, Rejected err => Some err
  | Fulfilled _, Fulfilled _ => None
  end.

(** One [handlePublishSettings] call run to completion. *)
Definition handlePublishSettings (projectId : string) (cl : Closure)
    (net : RoundTrip) : Act.t State unit :=
  started <-- handlePublishSettings_begin cl ;;
  match started with
  | None => Act.ret tt
  | Some draft =>
      issued <-- handlePublishSettings_token projectId draft
                   (tokenResult net) ;;
      if issued then handlePublishSettings_reply (replyResult net)
      else Act.ret tt
  end.

(** *** The page as a transition system *)

(** What can happen to a mounted page, as far as the document poller is
    concerned. A settlement is only delivered to a suspended callback, and
    only active intervals fire. *)
Inductive Event :=
| IntervalFires (handle : nat)
| PollTokenSettles (token : Settled (option string))
| PollReplySettles (reply : Settled (list ProjectDocument.t))
| ProjectLoaded (bundle : ProjectData)
| DocumentsUploaded (docs : list ProjectDocument.t)
| DocumentDeleted (documentId : string)
| UrlAdded (doc : ProjectDocument.t)
| DraftEdited (updates : ProjectSettings).

Definition step (projectId : string) (ev : Event) (st : State) : State :=
  match ev with
  | IntervalFires handle =>
      if bool_decide (handle ∈ intervals st)
      then Act.exec pollCallback_begin st else st
  | PollTokenSettles token =>
      match awaitingToken st with
      | O => st
      | S _ => Act.exec (pollCallback_token projectId token) st
      end
  | PollReplySettles reply =>
      match awaitingReply st with
      | O => st
      | S _ => Act.exec (pollCallback_reply reply) st
      end
  | ProjectLoaded bundle => Act.exec (projectLoaded bundle) st
  | DocumentsUploaded docs =>
      match docs with
      | [] => st
      | _ :: _ => Act.exec (documentsUploaded docs) st
      end
  | DocumentDeleted documentId => Act.exec (documentDeleted documentId) st
  | UrlAdded doc => Act.exec (urlAdded doc) st
  | DraftEdited updates => Act.exec (handleDraftSettings updates) st
  end.

Definition run (projectId : string) (evs : list Event) (st : State) : State :=
  foldl (λ s ev, step projectId ev s) st evs.

(** The first commit: the initial [useState] values, then the effects. *)
Definition initialData : ProjectData := mkData None [] [] None.

Definition mount : State :=
  Act.exec pollingEffect (mkState initialData true None [] 0 None 0 0 []).

(** The poller's two states, read off the browser's timers. *)
Definition Idle (st : State) : Prop := intervals st = [].

Definition Polling (st : State) : Prop :=
  ∃ handle, intervals st = [handle] ∧ pollCleanup st = Some handle.

(** What a firing timer adds to the trace. *)
Definition effectsOf (projectId : string) (ev : Event) (st : State)
    : list Api.Effect :=
  drop (length (trace st)) (trace (step projectId ev st)).

(** A document whose processing has ended: [completed] or [failed]. *)
Definition Terminal (doc : ProjectDocument.t) : Prop :=
  ProjectDocument.processing_status doc = Some "completed"
  ∨ ProjectDocument.processing_status doc = Some "failed".

(** The intervals the browser holds are exactly the one the effect has
    registered for cleanup, and there is one exactly when a document is
    being processed. *)
Definition PollerInv (st : State) : Prop :=
  intervals st = option_list (pollCleanup st)
  ∧ bool_decide (is_Some (pollCleanup st))
    = hasProcessingDocuments (documents (data st)).

(** What a run of events, or a handler, appended to the trace. *)
Definition emitted (before after : State) : list Api.Effect :=
  drop (length (trace before)) (trace after).

(** One tick whose token and request both succeed. *)
Definition refresh (handle : nat) (tok : option string)
    (docs : list ProjectDocument.t) : list Event :=
  [IntervalFires handle; PollTokenSettles (Fulfilled tok);
   PollReplySettles (Fulfilled docs)].

End ProjectPage.

(** ** Two [handleSendMessage] calls in flight on one chat

  The event loop runs one segment of one call at a time; a schedule is
  the order in which the segments of the two calls run. *)

Module Interleaving.

Import Js ChatPage.

Inductive Caller := First | Second.

#[global] Instance Caller_eq_dec : EqDecision Caller.
Proof. solve_decision. Defined.

Inductive Segment := Begin | TokenSettles | ReplySettles.

#[global] Instance Segment_eq_dec : EqDecision Segment.
Proof. solve_decision. Defined.

(** Where a call stands between segments. *)
Inductive Stage :=
| NotStarted
| AtToken (p : Pending)
| AtReply (p : Pending)
| Returned.

(** The inputs of one call. *)
Record Call := mkCall {
  closure : Closure;
  clock : Clock;
  text : string;
  net : RoundTrip
}.

Record Session := mkSession {
  page : State;
  firstStage : Stage;
  secondStage : Stage
}.

(** Run the next segment of a call; a segment out of turn does not run. *)
Definition advance (call : Call) (seg : Segment) (stage : Stage) (st : State)
    : Stage * State :=
  match seg, stage with
  | Begin, NotStarted =>
      let (started, st') :=
        handleSendMessage_begin (closure call) (clock call) (text call) st in
      (match started with Some p => AtToken p | None => Returned end, st')
  | TokenSettles, AtToken p =>
      let (issued, st') :=
        handleSendMessage_token p (tokenResult (net call)) st in
      (match issued with Some p' => AtReply p' | None => Returned end, st')
  | ReplySettles, AtReply p =>
      (Returned, Act.exec (handleSendMessage_reply p (replyResult (net call))) st)
  | _, _ => (stage, st)
  end.

Definition move (a b : Call) (m : Caller * Segment) (s : Session) : Session :=
  match m with
  | (First, seg) =>
      let (stage, st) := advance a seg (firstStage s) (page s) in
      mkSession st stage (secondStage s)
  | (Second, seg) =>
      let (stage, st) := advance b seg (secondStage s) (page s) in
      mkSession st (firstStage s) stage
  end.

Definition play (a b : Call) (schedule : list (Caller * Segment))
    (st : State) : Session :=
  foldl (λ s m, move a b m s) (mkSession st NotStarted NotStarted) schedule.

(** The segments of one call, in program order. *)
Definition program (c : Caller) : list (Caller * Segment) :=
  [(c, Begin); (c, TokenSettles); (c, ReplySettles)].

(** Every merge of two sequences that keeps the order within each. *)
Fixpoint interleavings {A} (xs ys : list A) : list (list A) :=
  match xs with
  | [] => [ys]
  | x :: xs' =>
      (fix merge_with (ys : list A) : list (list A) :=
         match ys with
         | [] => [x :: xs']
         | y :: ys' =>
             map (cons x) (interleavings xs' (y :: ys'))
               ++ map (cons y) (merge_with ys')
         end) ys
  end.

Definition schedules : list (list (Caller * Segment)) :=
  interleavings (program First) (program Second).

(** Whose reply settles first in a schedule. *)
Fixpoint firstReply (schedule : list (Caller * Segment)) : option Caller :=
  match schedule with
  | [] => None
  | (c, ReplySettles) :: _ => Some c
  | _ :: rest => firstReply rest
  end.

(** Both calls are in flight at once: each begins before the other's reply
    settles. *)
Fixpoint beginsBeforeReplyOf (c other : Caller)
    (schedule : list (Caller * Segment)) : bool :=
  match schedule with
  | [] => false
  | (c', seg) :: rest =>
      match seg with
      | Begin =>
          if bool_decide (c' = c) then true
          else beginsBeforeReplyOf c other rest
      | ReplySettles =>
          if bool_decide (c' = other) then false
          else beginsBeforeReplyOf c other rest
      | TokenSettles => beginsBeforeReplyOf c other rest
      end
  end.

Definition overlapping (schedule : list (Caller * Segment)) : bool :=
  beginsBeforeReplyOf First Second schedule
    && beginsBeforeReplyOf Second First schedule.

(** *** The store under two interleaved calls

    Only the store matters for what the page shows, and each segment of a
    successful call acts on it through one of the three updaters.  The
    phases below are the stages of a call with its pending data left out. *)

Inductive Phase := Waiting | TokenWait | ReplyWait | Finished.

Definition stageAt (p : Pending) (ph : Phase) : Stage :=
  match ph with
  | Waiting => NotStarted
  | TokenWait => AtToken p
  | ReplyWait => AtReply p
  | Finished => Returned
  end.

Definition storeAdvance (opt : Message.t) (d : CreateMessageData)
    (seg : Segment) (ph : Phase) (cur : option ChatWithMessages.t)
    : Phase * option ChatWithMessages.t :=
  match seg, ph with
  | Begin, Waiting => (TokenWait, appendOptimistic opt cur)
  | TokenSettles, TokenWait => (ReplyWait, cur)
  | ReplySettles, ReplyWait => (Finished, replaceOptimistic opt d cur)
  | _, _ => (ph, cur)
  end.

Record Store := mkStore {
  chatData : option ChatWithMessages.t;
  firstPhase : Phase;
  secondPhase : Phase
}.

Definition storeMove (optA optB : Message.t) (dA dB : CreateMessageData)
    (m : Caller * Segment) (s : Store) : Store :=
  match m with
  | (First, seg) =>
      let (ph, cur) := storeAdvance optA dA seg (firstPhase s) (chatData s) in
      mkStore cur ph (secondPhase s)
  | (Second, seg) =>
      let (ph, cur) := storeAdvance optB dB seg (secondPhase s) (chatData s) in
      mkStore cur (firstPhase s) ph
  end.

Definition storePlay (optA optB : Message.t) (dA dB : CreateMessageData)
    (schedule : list (Caller * Segment)) (s : Store) : Store :=
  foldl (λ s m, storeMove optA optB dA dB m s) s schedule.

(** A call that passes the guard and whose round trip succeeds with [d]. *)
Definition Succeeds (c : Call) (d : CreateMessageData) : Prop :=
  passesGuard (closure c) = true ∧ succeeded (net c) = Some d.

End Interleaving.

(** ** Concrete values used in the examples *)

Module Sample.

Import Js.

Definition chat : ChatWithMessages.t :=
  ChatWithMessages.mk "chat1" "p1" "Chat #1" "2025-01-01T00:00:00.000Z" [].

Definition closure : ChatPage.Closure :=
  ChatPage.mkClosure "p1" (Some chat) (Some "user_1").

Definition loaded : ChatPage.State :=
  ChatPage.mkState (Some chat) None false [].

Definition at_ms (n : N) : ChatPage.Clock :=
  ChatPage.mkClock n "2025-01-01T00:00:01.000Z".

Definition confirmed (id content : string) : Message.t :=
  Message.mk id "chat1" content user "user_1" "2025-01-01T00:00:02.000Z" [].

Definition answer (id content : string) : Message.t :=
  Message.mk id "chat1" content assistant "" "2025-01-01T00:00:03.000Z" [].

Definition reply (uid aid content : string) : ChatPage.CreateMessageData :=
  ChatPage.mkData (confirmed uid content) (answer aid "ok").

Definition succeeds (uid aid content : string) : ChatPage.RoundTrip :=
  ChatPage.mkRoundTrip (Fulfilled (Some "jwt"))
    (Fulfilled (ChatPage.mkResponse (Some (reply uid aid content)))).

Definition fails : ChatPage.RoundTrip :=
  ChatPage.mkRoundTrip (Fulfilled (Some "jwt"))
    (Rejected (Api.httpError 500)).

Definition doc (id : string) (status : option string) : ProjectDocument.t :=
  ProjectDocument.mk id "p1" (id +:+ ".pdf") status.

Definition settings : ProjectSettings :=
  {[ "chunk_size" := VNumber 512; "rag_strategy" := VString "basic" ]}.

Definition projectData (docs : list ProjectDocument.t)
    (s : option ProjectSettings) : ProjectPage.ProjectData :=
  ProjectPage.mkData None [] docs s.

(** A project with one document in processing has been loaded, the interval
    has ticked once and the refresh request is in flight. *)
Definition refreshing : ProjectPage.State :=
  ProjectPage.run "p1"
    [ProjectPage.ProjectLoaded (projectData [doc "d1" (Some "processing")] None);
     ProjectPage.IntervalFires 0;
     ProjectPage.PollTokenSettles (Fulfilled (Some "jwt"))]
    ProjectPage.mount.

(** Settings have been loaded and edited; nothing else. *)
Definition editing : ProjectPage.State :=
  ProjectPage.mkState (projectData [] (Some settings)) false None [] 0 None
    0 0 [].

End Sample.

(** ** The rest of the code: [apiClient] and the other handlers *)

(** The flat objects handed to [JSON.stringify]: field names with scalar
    values ([Undefined] for an optional field left out by the caller). *)
Module Json.
Inductive Value :=
| Undefined
| Null
| Bool (b : bool)
| Num (n : N)
| Str (s : string).

Definition t : Type := list (string * Value).
End Json.

(** *** [apiClient] ([lib/index.ts]) *)

Module ApiClient.

Import Js.

(** What the client reads of a [File]. *)
Record File := mkFile {
  name : string;
  size : N;
  type : string
}.

Inductive Method := GET | POST | PUT | DELETE.

Inductive Body :=
| JsonBody (data : Json.t)
| FileBody (file : File).

(** The arguments of a [fetch] call. *)
Record Request := mkRequest {
  url : string;
  method : Method;
  headers : list (string * string);
  body : option Body
}.

(** [if (token) headers["Authorization"] = `Bearer ${token}`] *)
Definition withAuthorization (token : option string)
    (headers : list (string * string)) : list (string * string) :=
  match token with
  | Some tok =>
      if truthy token then headers ++ [("Authorization", "Bearer " +:+ tok)]
      else headers
  | None => headers
  end.

Definition jsonHeaders : list (string * string) :=
  [("Content-Type", "application/json")].

(** The four JSON methods; [get] passes no method and so fetches with GET. *)
Definition get (BASE_URL endpoint : string) (token : option string)
    : Request :=
  mkRequest (BASE_URL +:+ endpoint) GET (withAuthorization token []) None.

Definition post (BASE_URL endpoint : string) (data : Json.t)
    (token : option string) : Request :=
  mkRequest (BASE_URL +:+ endpoint) POST
    (withAuthorization token jsonHeaders) (Some (JsonBody data)).

Definition delete (BASE_URL endpoint : string) (token : option string)
    : Request :=
  mkRequest (BASE_URL +:+ endpoint) DELETE (withAuthorization token []) None.

Definition put (BASE_URL endpoint : string) (data : Json.t)
    (token : option string) : Request :=
  mkRequest (BASE_URL +:+ endpoint) PUT
    (withAuthorization token jsonHeaders) (Some (JsonBody data)).

Definition uploadToS3 (presignedUrl : string) (file : File) : Request :=
  mkRequest presignedUrl PUT [("Content-Type", type file)]
    (Some (FileBody file)).

(** What [fetch] resolves to: [ok], [status], and what [json()] settles
    to. *)
Record Response (J : Type) := mkResponse {
  ok : bool;
  status : N;
  json : Settled J
}.
Global Arguments mkResponse {J} ok status json.
Global Arguments ok {J} r.
Global Arguments status {J} r.
Global Arguments json {J} r.

(** What a method settles to, given what its [fetch] settled to: a
    response that is not [ok] is thrown, an [ok] one is read as JSON. *)
Definition settle {J} (thrown : N → Thrown) (fetched : Settled (Response J))
    : Settled J :=
  match fetched with
  | Fulfilled response =>
      if ok response then json response else Rejected (thrown (status response))
  | Rejected err => Rejected err
  end.

(** [get], [post] and [delete] *)
Definition returned {J} (fetched : Settled (Response J)) : Settled J :=
  settle Api.httpError fetched.

(** [put] *)
Definition returnedByPut {J} (fetched : Settled (Response J)) : Settled J :=
  settle Api.apiError fetched.

Definition s3Error (status : N) : Thrown :=
  ErrorObject ("S3 Upload Error: " +:+ pretty status).

(** [uploadToS3] returns the response itself. *)
Definition uploaded {J} (fetched : Settled (Response J))
    : Settled (Response J) :=
  match fetched with
  | Fulfilled response =>
      if ok response then Fulfilled response
      else Rejected (s3Error (status response))
  | Rejected err => Rejected err
  end.

End ApiClient.

(** *** What the other handlers send and receive *)

Module Wire.

(** The [data] of a response, or no [data] at all: reading a field of it
    then throws the engine's [TypeError], whose message is the engine's. *)
Inductive Payload (A : Type) : Type :=
| Present (a : A)
| Absent (typeError : string).
Global Arguments Present {A} a.
Global Arguments Absent {A} typeError.

Inductive Call :=
| Get (endpoint : string) (token : option string)
| Post (endpoint : string) (data : Json.t) (token : option string)
| Put (endpoint : string) (data : Json.t) (token : option string)
| Delete (endpoint : string) (token : option string)
| UploadToS3 (presignedUrl : string) (file : ApiClient.File).

(** The [fetch] a call makes. *)
Definition request (BASE_URL : string) (c : Call) : ApiClient.Request :=
  match c with
  | Get endpoint token => ApiClient.get BASE_URL endpoint token
  | Post endpoint data token => ApiClient.post BASE_URL endpoint data token
  | Put endpoint data token => ApiClient.put BASE_URL endpoint data token
  | Delete endpoint token => ApiClient.delete BASE_URL endpoint token
  | UploadToS3 presignedUrl file => ApiClient.uploadToS3 presignedUrl file
  end.

(** The token a call hands to [apiClient], if it takes one. *)
Definition tokenOf (c : Call) : option string :=
  match c with
  | Get _ token | Post _ _ token | Put _ _ token | Delete _ token => token
  | UploadToS3 _ _ => None
  end.

(** What a handler does besides returning, in the order it does it: the
    token request, an [apiClient] call, a toast, a console line, a
    navigation, and a call of a state setter. *)
Inductive Effect :=
| GetToken
| ApiClient (c : Call)
| ToastSuccess (message : string)
| ToastError (message : string)
| ConsoleLog (message : string)
| ConsoleError (message : string)
| RouterPush (href : string)
| StoreUpdate (slot : string).

Definition is_call (e : Effect) : bool :=
  match e with
  | ApiClient _ => true
  | _ => false
  end.

Definition is_toast (e : Effect) : bool :=
  match e with
  | ToastSuccess _ | ToastError _ => true
  | _ => false
  end.

(** The toasts among what was sent, in order. *)
Definition toasts (es : list Effect) : list Effect := List.filter is_toast es.

(** The [apiClient] calls among what was sent, in order. *)
Definition calls (es : list Effect) : list Effect := List.filter is_call es.

Definition is_navigation (e : Effect) : bool :=
  match e with
  | RouterPush _ => true
  | _ => false
  end.

End Wire.

(** *** The rest of the project page ([ProjectPage]) *)

Module ProjectPageFull.

Import Js.

(** The state [ProjectPage.State] of the poller and the settings, the two
    pieces of React state it leaves out, and what the handlers below send
    out. *)
Record State := mkState {
  page : ProjectPage.State;
  selectedDocumentId : option string;
  isCreatingChat : bool;
  outbox : list Wire.Effect
}.

(** What the handlers close over. *)
Record Closure := mkClosure {
  userId : option string;
  projectId : string
}.

(** Run an action of [ProjectPage] on the page. *)
Definition onPage {A} (m : Act.t ProjectPage.State A) : Act.t State A :=
  λ st, let (a, p) := m (page st) in
        (a, mkState p (selectedDocumentId st) (isCreatingChat st) (outbox st)).

Definition send (e : Wire.Effect) : Act.t State unit :=
  λ st, (tt, mkState (page st) (selectedDocumentId st) (isCreatingChat st)
               (outbox st ++ [e])).

(** [setData((prev) => ...)] as the chat handlers below call it: the
    update of the data, entered in the outbox as well, which orders it
    with what the handler sends. *)
Definition setData
    (updater : ProjectPage.ProjectData → ProjectPage.ProjectData)
    : Act.t State unit :=
  Act.bind (onPage (ProjectPage.setData updater))
    (λ _, send (Wire.StoreUpdate "data")).

Definition setSelectedDocumentId (v : option string) : Act.t State unit :=
  λ st, (tt, mkState (page st) v (isCreatingChat st) (outbox st)).

Definition setIsCreatingChat (v : bool) : Act.t State unit :=
  λ st, (tt, mkState (page st) (selectedDocumentId st) v (outbox st)).

Local Open Scope act_scope.

(** **** [loadProjectData] *)

Definition projectEndpoint (cl : Closure) (suffix : string) : string :=
  "/api/project/" +:+ projectId cl +:+ suffix.

Definition loadCatch (err : Thrown) : Act.t State unit :=
  let errorMessage := messageOr err "Failed to fetch data" in
  onPage (ProjectPage.setError (Some errorMessage)) ;;
  send (Wire.ToastError errorMessage).

Definition loadFinally : Act.t State unit :=
  onPage (ProjectPage.setLoading false).

(** Segment 1: the guard [!userId], then up to [await getToken()].
    [false]: returned at the guard. *)
Definition loadProjectData_begin (cl : Closure) : Act.t State bool :=
  if truthy (userId cl) then
    onPage (ProjectPage.setLoading true) ;;
    onPage (ProjectPage.setError None) ;;
    send Wire.GetToken ;;
    Act.ret true
  else Act.ret false.

(** Segment 2: the four requests of [Promise.all], issued in this order. *)
Definition loadProjectData_token (cl : Closure)
    (token : Settled (option string)) : Act.t State bool :=
  match token with
  | Fulfilled tok =>
      send (Wire.ApiClient (Wire.Get (projectEndpoint cl "") tok)) ;;
      send (Wire.ApiClient (Wire.Get (projectEndpoint cl "/chats") tok)) ;;
      send (Wire.ApiClient (Wire.Get (projectEndpoint cl "/files") tok)) ;;
      send (Wire.ApiClient (Wire.Get (projectEndpoint cl "/settings") tok)) ;;
      Act.ret true
  | Rejected err => loadCatch err ;; loadFinally ;; Act.ret false
  end.

(** Segment 3: [Promise.all] has settled, with the four [data] or with the
    first rejection. *)
Definition loadProjectData_reply (reply : Settled ProjectPage.ProjectData)
    : Act.t State unit :=
  match reply with
  | Fulfilled bundle => onPage (ProjectPage.projectLoaded bundle)
  | Rejected err => loadCatch err ;; loadFinally
  end.

Record LoadTrip := mkLoadTrip {
  loadToken : Settled (option string);
  loadReply : Settled ProjectPage.ProjectData
}.

(** What made the load fail, if it did. *)
Definition loadFailure (net : LoadTrip) : option Thrown :=
  match loadToken net, loadReply net with
  | Rejected err, _ => Some err
  | Fulfilled _, Rejected err => Some err
  | Fulfilled _, Fulfilled _ => None
  end.

(** One run of the loading effect to completion. *)
Definition loadProjectData (cl : Closure) (net : LoadTrip) : Act.t State unit :=
  started <-- loadProjectData_begin cl ;;
  if started then
    issued <-- loadProjectData_token cl (loadToken net) ;;
    if issued then loadProjectData_reply (loadReply net) else Act.ret tt
  else Act.ret tt.

(** **** [handleCreateNewChat] *)

(** [`Chat #${Date.now() % 10000}`] *)
Definition chatTitle (now : N) : string :=
  "Chat #" +:+ pretty (now `mod` 10000)%N.

Definition chatHref (cl : Closure) (chatId : string) : string :=
  "/projects/" +:+ projectId cl +:+ "/chats/" +:+ chatId.

(** [{ ...prev, chats }] *)
Definition with_chats (chats : list Chat.t) (prev : ProjectPage.ProjectData)
    : ProjectPage.ProjectData :=
  ProjectPage.mkData (ProjectPage.project prev) chats
    (ProjectPage.documents prev) (ProjectPage.settings prev).

Definition createChatCatch (err : Thrown) : Act.t State unit :=
  let errorMessage := messageOr err "Failed to create chat" in
  onPage (ProjectPage.setError (Some errorMessage)) ;;
  send (Wire.ToastError errorMessage).

Definition createChatFinally : Act.t State unit :=
  setIsCreatingChat false.

Definition handleCreateNewChat_begin (cl : Closure) : Act.t State bool :=
  if truthy (userId cl) then
    setIsCreatingChat true ;;
    send Wire.GetToken ;;
    Act.ret true
  else Act.ret false.

(** Segment 2 reads the clock for the title. *)
Definition handleCreateNewChat_token (cl : Closure) (now : N)
    (token : Settled (option string)) : Act.t State bool :=
  match token with
  | Fulfilled tok =>
      send (Wire.ApiClient
              (Wire.Post "/api/chat/create"
                 [("title", Json.Str (chatTitle now));
                  ("project_id", Json.Str (projectId cl))] tok)) ;;
      Act.ret true
  | Rejected err => createChatCatch err ;; createChatFinally ;; Act.ret false
  end.

(** Segment 3: [response?.data], then [router.push] before the store is
    updated. Without [data], reading [savedChat.id] throws. *)
Definition handleCreateNewChat_reply (cl : Closure)
    (reply : Settled (Wire.Payload Chat.t)) : Act.t State unit :=
  match reply with
  | Fulfilled (Wire.Present savedChat) =>
      send (Wire.RouterPush (chatHref cl (Chat.id savedChat))) ;;
      setData (λ prev,
        with_chats (savedChat :: ProjectPage.chats prev) prev) ;;
      send (Wire.ToastSuccess "Chat Created successfully") ;;
      createChatFinally
  | Fulfilled (Wire.Absent typeError) =>
      createChatCatch (ErrorObject typeError) ;; createChatFinally
  | Rejected err => createChatCatch err ;; createChatFinally
  end.

Record CreateChatTrip := mkCreateChatTrip {
  createNow : N;
  createToken : Settled (option string);
  createReply : Settled (Wire.Payload Chat.t)
}.

(** What made the creation fail, if it did: no token, a rejected request,
    or a response without [data]. *)
Definition createFailure (net : CreateChatTrip) : option Thrown :=
  match createToken net, createReply net with
  | Rejected err, _ => Some err
  | Fulfilled _, Rejected err => Some err
  | Fulfilled _, Fulfilled (Wire.Absent typeError) =>
      Some (ErrorObject typeError)
  | Fulfilled _, Fulfilled (Wire.Present _) => None
  end.

Definition handleCreateNewChat (cl : Closure) (net : CreateChatTrip)
    : Act.t State unit :=
  started <-- handleCreateNewChat_begin cl ;;
  if started then
    issued <-- handleCreateNewChat_token cl (createNow net) (createToken net) ;;
    if issued then handleCreateNewChat_reply cl (createReply net)
    else Act.ret tt
  else Act.ret tt.

(** **** [handleDeleteChat] *)

Definition handleDeleteChat_begin (cl : Closure) : Act.t State bool :=
  if truthy (userId cl) then send Wire.GetToken ;; Act.ret true
  else Act.ret false.

Definition deleteChatCatch (err : Thrown) : Act.t State unit :=
  send (Wire.ToastError (messageOr err "Failed to delete chat")).

Definition handleDeleteChat_token (chatId : string)
    (token : Settled (option string)) : Act.t State bool :=
  match token with
  | Fulfilled tok =>
      send (Wire.ApiClient (Wire.Delete ("/api/chat/delete/" +:+ chatId) tok)) ;;
      Act.ret true
  | Rejected err => deleteChatCatch err ;; Act.ret false
  end.

Definition handleDeleteChat_reply (chatId : string) (reply : Settled unit)
    : Act.t State unit :=
  match reply with
  | Fulfilled _ =>
      setData (λ prev,
        with_chats
          (filter (λ chat, Chat.id chat ≠ chatId) (ProjectPage.chats prev))
          prev) ;;
      send (Wire.ToastSuccess "Chat deleted successfully")
  | Rejected err => deleteChatCatch err
  end.

Record Trip := mkTrip {
  tripToken : Settled (option string);
  tripReply : Settled unit
}.

Definition tripFailure (net : Trip) : option Thrown :=
  match tripToken net, tripReply net with
  | Rejected err, _ => Some err
  | Fulfilled _, Rejected err => Some err
  | Fulfilled _, Fulfilled _ => None
  end.

Definition handleDeleteChat (cl : Closure) (chatId : string) (net : Trip)
    : Act.t State unit :=
  started <-- handleDeleteChat_begin cl ;;
  if started then
    issued <-- handleDeleteChat_token chatId (tripToken net) ;;
    if issued then handleDeleteChat_reply chatId (tripReply net)
    else Act.ret tt
  else Act.ret tt.

(** **** [handleDocumentDelete] *)

(** The log line comes before the guard. *)
Definition handleDocumentDelete_begin (cl : Closure) : Act.t State bool :=
  send (Wire.ConsoleLog "Document Deleted") ;;
  if truthy (userId cl) then send Wire.GetToken ;; Act.ret true
  else Act.ret false.

Definition documentDeleteCatch (err : Thrown) : Act.t State unit :=
  send (Wire.ToastError (messageOr err "Failed to delete document")).

Definition handleDocumentDelete_token (cl : Closure) (documentId : string)
    (token : Settled (option string)) : Act.t State bool :=
  match token with
  | Fulfilled tok =>
      send (Wire.ApiClient
              (Wire.Delete
                 (projectEndpoint cl ("/files/delete/" +:+ documentId)) tok)) ;;
      Act.ret true
  | Rejected err => documentDeleteCatch err ;; Act.ret false
  end.

(** On success: the transition [ProjectPage.documentDeleted] (the
    filter, the toast, the polling effect run again). *)
Definition handleDocumentDelete_reply (documentId : string)
    (reply : Settled unit) : Act.t State unit :=
  match reply with
  | Fulfilled _ => onPage (ProjectPage.documentDeleted documentId)
  | Rejected err => documentDeleteCatch err
  end.

Definition handleDocumentDelete (cl : Closure) (documentId : string)
    (net : Trip) : Act.t State unit :=
  started <-- handleDocumentDelete_begin cl ;;
  if started then
    issued <-- handleDocumentDelete_token cl documentId (tripToken net) ;;
    if issued then handleDocumentDelete_reply documentId (tripReply net)
    else Act.ret tt
  else Act.ret tt.

(** **** [handleUrlAdd] *)

Definition handleUrlAdd_begin (cl : Closure) : Act.t State bool :=
  send (Wire.ConsoleLog "Add URL") ;;
  if truthy (userId cl) then send Wire.GetToken ;; Act.ret true
  else Act.ret false.

Definition urlAddCatch (err : Thrown) : Act.t State unit :=
  send (Wire.ToastError (messageOr err "Failed to process URL")).

Definition handleUrlAdd_token (cl : Closure) (url : string)
    (token : Settled (option string)) : Act.t State bool :=
  match token with
  | Fulfilled tok =>
      send (Wire.ApiClient
              (Wire.Post (projectEndpoint cl "/files/process-url")
                 [("url", Json.Str url);
                  ("project_id", Json.Str (projectId cl))] tok)) ;;
      Act.ret true
  | Rejected err => urlAddCatch err ;; Act.ret false
  end.

(** On success: the transition [ProjectPage.urlAdded]. *)
Definition handleUrlAdd_reply
    (reply : Settled (Wire.Payload ProjectDocument.t)) : Act.t State unit :=
  match reply with
  | Fulfilled (Wire.Present document_creation_result) =>
      onPage (ProjectPage.urlAdded document_creation_result)
  | Fulfilled (Wire.Absent typeError) => urlAddCatch (ErrorObject typeError)
  | Rejected err => urlAddCatch err
  end.

Record UrlTrip := mkUrlTrip {
  urlToken : Settled (option string);
  urlReply : Settled (Wire.Payload ProjectDocument.t)
}.

Definition urlFailure (net : UrlTrip) : option Thrown :=
  match urlToken net, urlReply net with
  | Rejected err, _ => Some err
  | Fulfilled _, Rejected err => Some err
  | Fulfilled _, Fulfilled (Wire.Absent typeError) =>
      Some (ErrorObject typeError)
  | Fulfilled _, Fulfilled (Wire.Present _) => None
  end.

Definition handleUrlAdd (cl : Closure) (url : string) (net : UrlTrip)
    : Act.t State unit :=
  started <-- handleUrlAdd_begin cl ;;
  if started then
    issued <-- handleUrlAdd_token cl url (urlToken net) ;;
    if issued then handleUrlAdd_reply (urlReply net) else Act.ret tt
  else Act.ret tt.

(** **** [handleDocumentUpload] *)

(** [presignedUrlResponse.data] *)
Record Presigned := mkPresigned {
  presigned_url : string;
  s3_key : string
}.

(** What the three requests made for one file settle to; for the upload
    to S3, what its [fetch] settles to. A [data] that is present carries
    the fields the handler destructures. *)
Record FileTrip := mkFileTrip {
  presignReply : Settled (Wire.Payload Presigned);
  s3Fetched : Settled (ApiClient.Response unit);
  confirmReply : Settled (Wire.Payload ProjectDocument.t)
}.

(** Where the async function mapped over one file stands: at one of its
    three [await]s, or settled. *)
Inductive FileStage :=
| Presigning
| Storing (fileS3Key : string)
| Confirming
| Uploaded
| Failed (reason : Thrown).

Definition settled (stage : FileStage) : bool :=
  match stage with
  | Uploaded | Failed _ => true
  | _ => false
  end.

Definition presignEndpoint (cl : Closure) : string :=
  projectEndpoint cl "/files/get-presigned-url".

Definition confirmEndpoint (cl : Closure) : string :=
  projectEndpoint cl "/files/confirm-upload-to-s3".

Definition presignedUrlPayload (selectedFile : ApiClient.File) : Json.t :=
  [("file_name", Json.Str (ApiClient.name selectedFile));
   ("file_size", Json.Num (ApiClient.size selectedFile));
   ("file_type", Json.Str (ApiClient.type selectedFile))].

Definition s3DirectUploadFailed (status : N) : Thrown :=
  ErrorObject ("S3 direct upload failed: " +:+ pretty status).

(** One step of the function mapped over a file, run when the request it
    awaits settles: the next stage, what it sends, and the document it
    pushes onto [newlyUploadedDocuments]. *)
Definition fileStep (cl : Closure) (authToken : option string)
    (selectedFile : ApiClient.File) (trip : FileTrip) (stage : FileStage)
    : FileStage * list Wire.Effect * option ProjectDocument.t :=
  match stage with
  | Presigning =>
      match presignReply trip with
      | Fulfilled (Wire.Present presignedUrlResponse) =>
          (Storing (s3_key presignedUrlResponse),
           [Wire.ConsoleLog "S3 Presigned URL received:";
            Wire.ConsoleLog "File S3 Key assigned:";
            Wire.ApiClient
              (Wire.UploadToS3 (presigned_url presignedUrlResponse)
                 selectedFile)],
           None)
      | Fulfilled (Wire.Absent typeError) =>
          (Failed (ErrorObject typeError), [], None)
      | Rejected err => (Failed err, [], None)
      end
  | Storing fileS3Key =>
      match ApiClient.uploaded (s3Fetched trip) with
      | Fulfilled s3DirectUploadResponse =>
          if ApiClient.ok s3DirectUploadResponse then
            (Confirming,
             [Wire.ApiClient
                (Wire.Post (confirmEndpoint cl)
                   [("s3_key", Json.Str fileS3Key)] authToken)],
             None)
          else
            (Failed
               (s3DirectUploadFailed (ApiClient.status s3DirectUploadResponse)),
             [], None)
      | Rejected err => (Failed err, [], None)
      end
  | Confirming =>
      match confirmReply trip with
      | Fulfilled (Wire.Present file_update_result) =>
          (Uploaded, [], Some file_update_result)
      | Fulfilled (Wire.Absent typeError) =>
          (Failed (ErrorObject typeError), [], None)
      | Rejected err => (Failed err, [], None)
      end
  | Uploaded => (Uploaded, [], None)
  | Failed reason => (Failed reason, [], None)
  end.

(** One [handleDocumentUpload] call between [getToken] and
    [Promise.allSettled]: the page, the stage of each file's function, and
    the array the functions share. *)
Record Upload := mkUpload {
  host : State;
  stages : list FileStage;
  newlyUploadedDocuments : list ProjectDocument.t
}.

Fixpoint sendAll (es : list Wire.Effect) : Act.t State unit :=
  match es with
  | [] => Act.ret tt
  | e :: es => send e ;; sendAll es
  end.

Definition uploadCatch (uploadError : Thrown) : Act.t State unit :=
  let errorMessage := messageOr uploadError "Failed to upload files" in
  send (Wire.ConsoleError "File upload error:") ;;
  send (Wire.ToastError errorMessage).

(** Segment 1: the log line, the guard, the second log line,
    [await getToken()]. *)
Definition handleDocumentUpload_begin (cl : Closure) : Act.t State bool :=
  send (Wire.ConsoleLog "Upload files") ;;
  if truthy (userId cl) then
    send (Wire.ConsoleLog "Uploading files") ;;
    send Wire.GetToken ;;
    Act.ret true
  else Act.ret false.

(** Segment 2: [files.map] runs every function up to its first [await]:
    one presign request per file, in the order of [files]. *)
Definition handleDocumentUpload_token (cl : Closure)
    (files : list ApiClient.File) (authToken : Settled (option string))
    : Act.t State bool :=
  match authToken with
  | Fulfilled tok =>
      sendAll
        (map (λ selectedFile,
                Wire.ApiClient
                  (Wire.Post (presignEndpoint cl)
                     (presignedUrlPayload selectedFile) tok))
           files) ;;
      Act.ret true
  | Rejected err => uploadCatch err ;; Act.ret false
  end.

Definition uploadStarted (st : State) (files : list ApiClient.File)
    : Upload :=
  mkUpload st (replicate (length files) Presigning) [].

(** The request awaited by the function of file [i] settles. *)
Definition fileSettles (cl : Closure) (authToken : option string)
    (jobs : list (ApiClient.File * FileTrip)) (i : nat) (u : Upload)
    : Upload :=
  match jobs !! i, stages u !! i with
  | Some (selectedFile, trip), Some stage =>
      let '(stage', effects, pushed) :=
        fileStep cl authToken selectedFile trip stage in
      mkUpload (Act.exec (sendAll effects) (host u))
        (<[i := stage']> (stages u))
        (newlyUploadedDocuments u ++ option_list pushed)
  | _, _ => u
  end.

(** The settlements in the order the network delivers them. *)
Definition uploadPlay (cl : Closure) (authToken : option string)
    (jobs : list (ApiClient.File * FileTrip)) (schedule : list nat)
    (u : Upload) : Upload :=
  foldl (λ u i, fileSettles cl authToken jobs i u) u schedule.

(** [Promise.allSettled] resolves once every function has settled. *)
Definition allSettled (u : Upload) : bool := forallb settled (stages u).

(** Segment 3, after [Promise.allSettled]: on a non-empty array, the
    transition [ProjectPage.documentsUploaded]. *)
Definition handleDocumentUpload_settled
    (newlyUploadedDocuments : list ProjectDocument.t) : Act.t State unit :=
  match newlyUploadedDocuments with
  | [] => Act.ret tt
  | _ :: _ => onPage (ProjectPage.documentsUploaded newlyUploadedDocuments)
  end.

(** One call with a token, its settlements delivered in the order of
    [schedule]; [None] while [Promise.allSettled] is still pending. *)
Definition handleDocumentUpload (cl : Closure)
    (jobs : list (ApiClient.File * FileTrip)) (tok : option string)
    (schedule : list nat) (st : State) : option State :=
  let (started, st1) := handleDocumentUpload_begin cl st in
  if started then
    let st2 :=
      Act.exec (handleDocumentUpload_token cl (jobs.*1) (Fulfilled tok)) st1 in
    let u := uploadPlay cl tok jobs schedule (uploadStarted st2 (jobs.*1)) in
    if allSettled u then
      Some (Act.exec
              (handleDocumentUpload_settled (newlyUploadedDocuments u))
              (host u))
    else None
  else Some st1.

(** What a file's function ends with when every step of it is served. *)
Definition fileOutcome (trip : FileTrip) : option ProjectDocument.t :=
  match presignReply trip, ApiClient.uploaded (s3Fetched trip),
        confirmReply trip with
  | Fulfilled (Wire.Present _), Fulfilled _,
    Fulfilled (Wire.Present file_update_result) => Some file_update_result
  | _, _, _ => None
  end.

(** The invariant of an upload in progress: the stages a file's function
    can stand at given what its requests settle to, and what it has pushed
    by then. *)
Definition reachableStage (trip : FileTrip) (stage : FileStage) : Prop :=
  match stage with
  | Presigning => True
  | Storing _ => ∃ p, presignReply trip = Fulfilled (Wire.Present p)
  | Confirming =>
      (∃ p, presignReply trip = Fulfilled (Wire.Present p))
      ∧ ∃ r, ApiClient.uploaded (s3Fetched trip) = Fulfilled r
  | Uploaded => is_Some (fileOutcome trip)
  | Failed _ => fileOutcome trip = None
  end.

Definition pushedAt (trip : FileTrip) (stage : FileStage)
    : option ProjectDocument.t :=
  match stage with
  | Uploaded => fileOutcome trip
  | _ => None
  end.

(** How many of its three requests a file's function is past. *)
Definition progress (stage : FileStage) : nat :=
  match stage with
  | Presigning => 0
  | Storing _ => 1
  | Confirming => 2
  | Uploaded | Failed _ => 3
  end.

(** **** The two click handlers and the value derived for the modal *)

Definition handleChatClick (cl : Closure) (chatId : string)
    : Act.t State unit :=
  send (Wire.ConsoleLog "Navigate to chat:") ;;
  send (Wire.RouterPush (chatHref cl chatId)).

Definition handleOpenDocument (documentId : string) : Act.t State unit :=
  send (Wire.ConsoleLog "Open document") ;;
  setSelectedDocumentId (Some documentId).

(** The modal's [onClose] *)
Definition closeDocument : Act.t State unit := setSelectedDocumentId None.

(** [arr.find(pred)] *)
Definition find {A} (pred : A → bool) (arr : list A) : option A :=
  head (base.filter (λ a, pred a = true) arr).

(** [selectedDocumentId ? data.documents.find(...) : null] *)
Definition selectedDocument (st : State) : option ProjectDocument.t :=
  match selectedDocumentId st with
  | Some wanted =>
      if truthy (Some wanted) then
        find (λ doc, bool_decide (ProjectDocument.id doc = wanted))
          (ProjectPage.documents (ProjectPage.data (page st)))
      else None
  | None => None
  end.

(** **** What the page renders *)

Inductive View :=
| LoadingSpinner (message : string)
| NotFound (message : string)
| Workspace (data : ProjectPage.ProjectData)
    (modal : option ProjectDocument.t).

Definition view (st : State) : View :=
  if ProjectPage.loading (page st) then
    LoadingSpinner "Loading Project Data..."
  else
    match ProjectPage.error (page st) with
    | Some message =>
        if truthy (Some message) then NotFound message
        else Workspace (ProjectPage.data (page st)) (selectedDocument st)
    | None => Workspace (ProjectPage.data (page st)) (selectedDocument st)
    end.

(** **** The whole page as a transition system

  Every synchronous segment of every handler is an event, next to the
  events of [ProjectPage]; the segments of different calls run in any
  order. *)

Inductive Event :=
| Page (ev : ProjectPage.Event)
| LoadBegins (cl : Closure)
| LoadTokenSettles (cl : Closure) (token : Settled (option string))
| LoadReplySettles (reply : Settled ProjectPage.ProjectData)
| CreateChatBegins (cl : Closure)
| CreateChatTokenSettles (cl : Closure) (now : N)
    (token : Settled (option string))
| CreateChatReplySettles (cl : Closure)
    (reply : Settled (Wire.Payload Chat.t))
| DeleteChatBegins (cl : Closure)
| DeleteChatTokenSettles (chatId : string) (token : Settled (option string))
| DeleteChatReplySettles (chatId : string) (reply : Settled unit)
| DocumentDeleteBegins (cl : Closure)
| DocumentDeleteTokenSettles (cl : Closure) (documentId : string)
    (token : Settled (option string))
| DocumentDeleteReplySettles (documentId : string) (reply : Settled unit)
| UrlAddBegins (cl : Closure)
| UrlAddTokenSettles (cl : Closure) (url : string)
    (token : Settled (option string))
| UrlAddReplySettles (reply : Settled (Wire.Payload ProjectDocument.t))
| UploadBegins (cl : Closure)
| UploadTokenSettles (cl : Closure) (files : list ApiClient.File)
    (token : Settled (option string))
| UploadFileSettles (cl : Closure) (authToken : option string)
    (selectedFile : ApiClient.File) (trip : FileTrip) (stage : FileStage)
| UploadSettles (docs : list ProjectDocument.t)
| PublishBegins (cl : ProjectPage.Closure)
| PublishTokenSettles (draft : ProjectSettings)
    (token : Settled (option string))
| PublishReplySettles (reply : Settled unit)
| ChatClicked (cl : Closure) (chatId : string)
| DocumentOpened (documentId : string)
| DocumentClosed.

Definition step (projectId : string) (ev : Event) (st : State) : State :=
  match ev with
  | Page ev =>
      Act.exec (onPage (λ p, (tt, ProjectPage.step projectId ev p))) st
  | LoadBegins cl => Act.exec (loadProjectData_begin cl) st
  | LoadTokenSettles cl token => Act.exec (loadProjectData_token cl token) st
  | LoadReplySettles reply => Act.exec (loadProjectData_reply reply) st
  | CreateChatBegins cl => Act.exec (handleCreateNewChat_begin cl) st
  | CreateChatTokenSettles cl now token =>
      Act.exec (handleCreateNewChat_token cl now token) st
  | CreateChatReplySettles cl reply =>
      Act.exec (handleCreateNewChat_reply cl reply) st
  | DeleteChatBegins cl => Act.exec (handleDeleteChat_begin cl) st
  | DeleteChatTokenSettles chatId token =>
      Act.exec (handleDeleteChat_token chatId token) st
  | DeleteChatReplySettles chatId reply =>
      Act.exec (handleDeleteChat_reply chatId reply) st
  | DocumentDeleteBegins cl => Act.exec (handleDocumentDelete_begin cl) st
  | DocumentDeleteTokenSettles cl documentId token =>
      Act.exec (handleDocumentDelete_token cl documentId token) st
  | DocumentDeleteReplySettles documentId reply =>
      Act.exec (handleDocumentDelete_reply documentId reply) st
  | UrlAddBegins cl => Act.exec (handleUrlAdd_begin cl) st
  | UrlAddTokenSettles cl url token =>
      Act.exec (handleUrlAdd_token cl url token) st
  | UrlAddReplySettles reply => Act.exec (handleUrlAdd_reply reply) st
  | UploadBegins cl => Act.exec (handleDocumentUpload_begin cl) st
  | UploadTokenSettles cl files token =>
      Act.exec (handleDocumentUpload_token cl files token) st
  | UploadFileSettles cl authToken selectedFile trip stage =>
      Act.exec
        (sendAll (fileStep cl authToken selectedFile trip stage).1.2) st
  | UploadSettles docs => Act.exec (handleDocumentUpload_settled docs) st
  | PublishBegins cl =>
      Act.exec (onPage (ProjectPage.handlePublishSettings_begin cl)) st
  | PublishTokenSettles draft token =>
      Act.exec
        (onPage (ProjectPage.handlePublishSettings_token projectId draft token))
        st
  | PublishReplySettles reply =>
      Act.exec (onPage (ProjectPage.handlePublishSettings_reply reply)) st
  | ChatClicked cl chatId => Act.exec (handleChatClick cl chatId) st
  | DocumentOpened documentId => Act.exec (handleOpenDocument documentId) st
  | DocumentClosed => Act.exec closeDocument st
  end.

Definition run (projectId : string) (evs : list Event) (st : State) : State :=
  foldl (λ s ev, step projectId ev s) st evs.

(** The first commit. *)
Definition mount : State := mkState ProjectPage.mount None false [].

(** The events that can clear the page error: a load that starts. *)
Definition startsLoad (ev : Event) : bool :=
  match ev with
  | LoadBegins _ => true
  | _ => false
  end.

(** What a handler appended to the outbox. *)
Definition sent (before after : State) : list Wire.Effect :=
  drop (length (outbox before)) (outbox after).

End ProjectPageFull.

(** *** The rest of the chat page ([ProjectChatPage]) *)

Module ChatPageFull.

Import Js.

Inductive FeedbackType := like | dislike.

Definition ratingName (r : FeedbackType) : string :=
  match r with
  | like => "like"
  | dislike => "dislike"
  end.

Record FeedbackModal := mkModal {
  messageId : string;
  type : FeedbackType
}.

(** The argument of [handleFeedbackSubmit]. *)
Record Feedback := mkFeedback {
  rating : FeedbackType;
  comment : option string;
  category : option string
}.

(** The state [ChatPage.State] of the send handler, the two pieces of
    React state it leaves out, and what the handlers below send out. *)
Record State := mkState {
  chat : ChatPage.State;
  isLoadingChatData : bool;
  feedbackModal : option FeedbackModal;
  outbox : list Wire.Effect
}.

(** What [handleFeedbackSubmit] and [loadChat] close over. *)
Record Closure := mkClosure {
  userId : option string;
  chatId : string;
  renderedFeedbackModal : option FeedbackModal
}.

Definition onChat {A} (m : Act.t ChatPage.State A) : Act.t State A :=
  λ st, let (a, c) := m (chat st) in
        (a, mkState c (isLoadingChatData st) (feedbackModal st) (outbox st)).

Definition send (e : Wire.Effect) : Act.t State unit :=
  λ st, (tt, mkState (chat st) (isLoadingChatData st) (feedbackModal st)
               (outbox st ++ [e])).

Definition setIsLoadingChatData (v : bool) : Act.t State unit :=
  λ st, (tt, mkState (chat st) v (feedbackModal st) (outbox st)).

Definition setFeedbackModal (v : option FeedbackModal) : Act.t State unit :=
  λ st, (tt, mkState (chat st) (isLoadingChatData st) v (outbox st)).

Local Open Scope act_scope.

(** **** [handleFeedbackOpen] and [handleFeedbackSubmit] *)

Definition handleFeedbackOpen (messageId : string) (type : FeedbackType)
    : Act.t State unit :=
  setFeedbackModal (Some (mkModal messageId type)).

(** The modal's [onCancel] *)
Definition cancelFeedback : Act.t State unit := setFeedbackModal None.

(** An optional field of the argument: [undefined] when left out. *)
Definition optionalField (v : option string) : Json.Value :=
  match v with
  | Some s => Json.Str s
  | None => Json.Undefined
  end.

Definition feedbackPayload (modal : FeedbackModal) (feedback : Feedback)
    : Json.t :=
  [("message_id", Json.Str (messageId modal));
   ("rating", Json.Str (ratingName (rating feedback)));
   ("comment", optionalField (comment feedback));
   ("category", optionalField (category feedback))].

Definition feedbackCatch : Act.t State unit :=
  send (Wire.ToastError "Failed to submit feedback. Please try again.").

Definition feedbackFinally : Act.t State unit := setFeedbackModal None.

(** Segment 1: the guard [!userId || !feedbackModal] and
    [await getToken()]. [None]: returned at the guard. *)
Definition handleFeedbackSubmit_begin (cl : Closure)
    : Act.t State (option FeedbackModal) :=
  match renderedFeedbackModal cl with
  | Some modal =>
      if truthy (userId cl) then send Wire.GetToken ;; Act.ret (Some modal)
      else Act.ret None
  | None => Act.ret None
  end.

Definition handleFeedbackSubmit_token (modal : FeedbackModal)
    (feedback : Feedback) (token : Settled (option string))
    : Act.t State bool :=
  match token with
  | Fulfilled tok =>
      send (Wire.ApiClient
              (Wire.Post "/api/feedback" (feedbackPayload modal feedback)
                 tok)) ;;
      Act.ret true
  | Rejected _ => feedbackCatch ;; feedbackFinally ;; Act.ret false
  end.

Definition handleFeedbackSubmit_reply (reply : Settled unit)
    : Act.t State unit :=
  match reply with
  | Fulfilled _ =>
      send (Wire.ToastSuccess "Thanks for your feedback!") ;; feedbackFinally
  | Rejected _ => feedbackCatch ;; feedbackFinally
  end.

Record Trip := mkTrip {
  tripToken : Settled (option string);
  tripReply : Settled unit
}.

Definition handleFeedbackSubmit (cl : Closure) (feedback : Feedback)
    (net : Trip) : Act.t State unit :=
  started <-- handleFeedbackSubmit_begin cl ;;
  match started with
  | None => Act.ret tt
  | Some modal =>
      issued <-- handleFeedbackSubmit_token modal feedback (tripToken net) ;;
      if issued then handleFeedbackSubmit_reply (tripReply net)
      else Act.ret tt
  end.

(** **** [loadChat] *)

Definition chatEndpoint (cl : Closure) : string := "/api/chat/" +:+ chatId cl.

Definition loadChatCatch : Act.t State unit :=
  send (Wire.ToastError "Failed to load chat. Please try again.").

Definition loadChatFinally : Act.t State unit := setIsLoadingChatData false.

Definition loadChat_begin (cl : Closure) : Act.t State bool :=
  if truthy (userId cl) then
    setIsLoadingChatData true ;;
    send Wire.GetToken ;;
    Act.ret true
  else Act.ret false.

Definition loadChat_token (cl : Closure) (token : Settled (option string))
    : Act.t State bool :=
  match token with
  | Fulfilled tok =>
      send (Wire.ApiClient (Wire.Get (chatEndpoint cl) tok)) ;;
      Act.ret true
  | Rejected _ => loadChatCatch ;; loadChatFinally ;; Act.ret false
  end.

(** Segment 3. [Present None]: a result without [data], which is stored
    as it is; [Absent]: no result to read [data] from. *)
Definition loadChat_reply
    (reply : Settled (Wire.Payload (option ChatWithMessages.t)))
    : Act.t State unit :=
  match reply with
  | Fulfilled (Wire.Present chatData) =>
      onChat (ChatPage.setCurrentChatData (λ _, chatData)) ;;
      send (Wire.ToastSuccess "Chat loaded") ;;
      loadChatFinally
  | Fulfilled (Wire.Absent _) => loadChatCatch ;; loadChatFinally
  | Rejected _ => loadChatCatch ;; loadChatFinally
  end.

Record LoadTrip := mkLoadTrip {
  loadToken : Settled (option string);
  loadReply : Settled (Wire.Payload (option ChatWithMessages.t))
}.

Definition loadChat (cl : Closure) (net : LoadTrip) : Act.t State unit :=
  started <-- loadChat_begin cl ;;
  if started then
    issued <-- loadChat_token cl (loadToken net) ;;
    if issued then loadChat_reply (loadReply net) else Act.ret tt
  else Act.ret tt.

(** What the load delivers, if it delivers. *)
Definition delivered (net : LoadTrip) : option (option ChatWithMessages.t) :=
  match loadToken net, loadReply net with
  | Fulfilled _, Fulfilled (Wire.Present chatData) => Some chatData
  | _, _ => None
  end.

(** **** What the page renders *)

Inductive View :=
| LoadingSpinner (message : string)
| NotFound (message : string)
| ChatInterface (chat : ChatWithMessages.t) (isLoading : bool)
    (error : option string) (modalOpen : bool).

Definition view (st : State) : View :=
  if isLoadingChatData st then LoadingSpinner "Loading chat..."
  else
    match ChatPage.currentChatData (chat st) with
    | None => NotFound "Chat not found"
    | Some c =>
        ChatInterface c (ChatPage.isMessageSending (chat st))
          (ChatPage.sendMessageError (chat st))
          (bool_decide (is_Some (feedbackModal st)))
    end.

(** The first render: the initial [useState] values. *)
Definition initial : State :=
  mkState (ChatPage.mkState None None false []) true None [].

Definition sent (before after : State) : list Wire.Effect :=
  drop (length (outbox before)) (outbox after).

End ChatPageFull.

(** *** The dashboard ([DashboardPage]) *)

Module DashboardPage.

Import Js.

(** An element of [response.data] as it arrives: any field may be missing
    or empty. *)
Record RawProject := mkRaw {
  raw_id : option string;
  raw_name : option string;
  raw_description : option string;
  raw_created_at : option string;
  raw_clerk_id : option string
}.

Record State := mkState {
  userProjectsList : list Project.t;
  isLoadingProjects : bool;
  errorMessage : option string;
  searchQuery : string;
  showCreateModal : bool;
  isCreatingProject : bool;
  outbox : list Wire.Effect
}.

Definition send (e : Wire.Effect) : Act.t State unit :=
  λ st, (tt, mkState (userProjectsList st) (isLoadingProjects st)
               (errorMessage st) (searchQuery st) (showCreateModal st)
               (isCreatingProject st) (outbox st ++ [e])).

Definition setUserProjectsList (updater : list Project.t → list Project.t)
    : Act.t State unit :=
  λ st, (tt, mkState (updater (userProjectsList st)) (isLoadingProjects st)
               (errorMessage st) (searchQuery st) (showCreateModal st)
               (isCreatingProject st) (outbox st)).

Definition setIsLoadingProjects (v : bool) : Act.t State unit :=
  λ st, (tt, mkState (userProjectsList st) v (errorMessage st)
               (searchQuery st) (showCreateModal st) (isCreatingProject st)
               (outbox st)).

Definition setErrorMessage (v : option string) : Act.t State unit :=
  λ st, (tt, mkState (userProjectsList st) (isLoadingProjects st) v
               (searchQuery st) (showCreateModal st) (isCreatingProject st)
               (outbox st)).

Definition setSearchQuery (v : string) : Act.t State unit :=
  λ st, (tt, mkState (userProjectsList st) (isLoadingProjects st)
               (errorMessage st) v (showCreateModal st)
               (isCreatingProject st) (outbox st)).

Definition setShowCreateModal (v : bool) : Act.t State unit :=
  λ st, (tt, mkState (userProjectsList st) (isLoadingProjects st)
               (errorMessage st) (searchQuery st) v (isCreatingProject st)
               (outbox st)).

Definition setIsCreatingProject (v : bool) : Act.t State unit :=
  λ st, (tt, mkState (userProjectsList st) (isLoadingProjects st)
               (errorMessage st) (searchQuery st) (showCreateModal st) v
               (outbox st)).

Local Open Scope act_scope.

(** **** [loadUserProjects] *)

(** [x || fallback] on a [string | null | undefined] *)
Definition orElse (x : option string) (fallback : string) : string :=
  match x with
  | Some s => if truthy x then s else fallback
  | None => fallback
  end.

(** The object built for one element; [isoNow] is what
    [new Date().toISOString()] gives at that element. *)
Definition validProject (userId : option string) (isoNow : string)
    (project : RawProject) : Project.t :=
  Project.mk
    (orElse (raw_id project) "")
    (orElse (raw_name project) "Untitled Project")
    (orElse (raw_description project) "")
    (orElse (raw_clerk_id project) (orElse userId ""))
    (orElse (raw_created_at project) isoNow).

(** [projectsData.map(...)]; [clock i] is the clock read at element [i]. *)
Definition validProjects (userId : option string) (clock : nat → string)
    (projectsData : list RawProject) : list Project.t :=
  imap (λ i project, validProject userId (clock i) project) projectsData.

Definition loadFailed : string := "Failed to load projects. Please try again.".

Definition loadCatch : Act.t State unit :=
  send (Wire.ConsoleError "Error while loading projects:") ;;
  send (Wire.ToastError loadFailed) ;;
  setErrorMessage (Some loadFailed).

Definition loadFinally : Act.t State unit := setIsLoadingProjects false.

Definition loadUserProjects_begin : Act.t State unit :=
  setIsLoadingProjects true ;;
  setErrorMessage None ;;
  send Wire.GetToken.

Definition loadUserProjects_token (token : Settled (option string))
    : Act.t State bool :=
  match token with
  | Fulfilled tok =>
      send (Wire.ApiClient (Wire.Get "/api/project/list" tok)) ;;
      Act.ret true
  | Rejected _ => loadCatch ;; loadFinally ;; Act.ret false
  end.

(** Segment 3. [Present None]: [response.data] is not an array. *)
Definition loadUserProjects_reply (userId : option string)
    (clock : nat → string)
    (reply : Settled (Wire.Payload (option (list RawProject))))
    : Act.t State unit :=
  match reply with
  | Fulfilled (Wire.Present (Some projectsData)) =>
      setUserProjectsList (λ _, validProjects userId clock projectsData) ;;
      setIsLoadingProjects false ;;
      loadFinally
  | Fulfilled (Wire.Present None) =>
      setUserProjectsList (λ _, []) ;;
      setIsLoadingProjects false ;;
      loadFinally
  | Fulfilled (Wire.Absent _) => loadCatch ;; loadFinally
  | Rejected _ => loadCatch ;; loadFinally
  end.

Record LoadTrip := mkLoadTrip {
  loadClock : nat → string;
  loadToken : Settled (option string);
  loadReply : Settled (Wire.Payload (option (list RawProject)))
}.

(** One call to completion; the promise it returns is always fulfilled. *)
Definition loadUserProjects (userId : option string) (net : LoadTrip)
    : Act.t State unit :=
  loadUserProjects_begin ;;
  issued <-- loadUserProjects_token (loadToken net) ;;
  if issued then loadUserProjects_reply userId (loadClock net) (loadReply net)
  else Act.ret tt.

(** Whether the call replaced the list. *)
Definition loaded (net : LoadTrip) : bool :=
  match loadToken net, loadReply net with
  | Fulfilled _, Fulfilled (Wire.Present _) => true
  | _, _ => false
  end.

(** The effect that loads the list at mount: [if (userId)]. *)
Definition loadEffect (userId : option string) (net : LoadTrip)
    : Act.t State unit :=
  if truthy userId then loadUserProjects userId net else Act.ret tt.

(** **** [createNewProject] *)

Definition createFailed : string :=
  "Failed to create project. Please try again.".

Definition createCatch : Act.t State unit :=
  send (Wire.ConsoleError "Error while creating project:") ;;
  setErrorMessage (Some createFailed) ;;
  send (Wire.ToastError createFailed).

Definition createFinally : Act.t State unit := setIsCreatingProject false.

Definition createNewProject_begin : Act.t State unit :=
  setErrorMessage None ;;
  setIsCreatingProject true ;;
  send Wire.GetToken.

Definition createNewProject_token (name description : string)
    (token : Settled (option string)) : Act.t State bool :=
  match token with
  | Fulfilled tok =>
      send (Wire.ApiClient
              (Wire.Post "/api/project/create"
                 [("name", Json.Str name);
                  ("description", Json.Str description)] tok)) ;;
      Act.ret true
  | Rejected _ => createCatch ;; createFinally ;; Act.ret false
  end.

(** Segment 3: on success [await loadUserProjects()], which is run here to
    its end, then the rest of the [try] block. *)
Definition createNewProject_reply (userId : option string)
    (reply : Settled unit) (reload : LoadTrip) : Act.t State unit :=
  match reply with
  | Fulfilled _ =>
      loadUserProjects userId reload ;;
      setShowCreateModal false ;;
      send (Wire.ToastSuccess "Project created successfully") ;;
      createFinally
  | Rejected _ => createCatch ;; createFinally
  end.

Record CreateTrip := mkCreateTrip {
  createToken : Settled (option string);
  createReply : Settled unit;
  reload : LoadTrip
}.

Definition createNewProject (userId : option string)
    (name description : string) (net : CreateTrip) : Act.t State unit :=
  createNewProject_begin ;;
  issued <-- createNewProject_token name description (createToken net) ;;
  if issued then createNewProject_reply userId (createReply net) (reload net)
  else Act.ret tt.

(** Whether the server created the project. *)
Definition created (net : CreateTrip) : bool :=
  match createToken net, createReply net with
  | Fulfilled _, Fulfilled _ => true
  | _, _ => false
  end.

(** **** [removeProject] *)

Definition removeFailed : string :=
  "Failed to remove project. Please try again.".

Definition removeCatch : Act.t State unit :=
  send (Wire.ConsoleError "Error while removing project:") ;;
  setErrorMessage (Some removeFailed) ;;
  send (Wire.ToastError removeFailed).

Definition removeProject_begin : Act.t State unit :=
  setErrorMessage None ;;
  send Wire.GetToken.

Definition removeProject_token (_projectId : string)
    (token : Settled (option string)) : Act.t State bool :=
  match token with
  | Fulfilled tok =>
      send (Wire.ApiClient
              (Wire.Delete ("/api/project/delete/" +:+ _projectId) tok)) ;;
      Act.ret true
  | Rejected _ => removeCatch ;; Act.ret false
  end.

Definition removeProject_reply (_projectId : string) (reply : Settled unit)
    : Act.t State unit :=
  match reply with
  | Fulfilled _ =>
      setUserProjectsList (λ prevProjects,
        filter (λ project, Project.id project ≠ _projectId) prevProjects) ;;
      send (Wire.ToastSuccess "Project removed successfully")
  | Rejected _ => removeCatch
  end.

Record Trip := mkTrip {
  tripToken : Settled (option string);
  tripReply : Settled unit
}.

Definition removeProject (_projectId : string) (net : Trip)
    : Act.t State unit :=
  removeProject_begin ;;
  issued <-- removeProject_token _projectId (tripToken net) ;;
  if issued then removeProject_reply _projectId (tripReply net)
  else Act.ret tt.

Definition removed (net : Trip) : bool :=
  match tripToken net, tripReply net with
  | Fulfilled _, Fulfilled _ => true
  | _, _ => false
  end.

(** **** The other handlers *)

Definition navigateToProject (projectId : string) : Act.t State unit :=
  send (Wire.RouterPush ("/projects/" +:+ projectId)).

Definition openCreateModal : Act.t State unit := setShowCreateModal true.

Definition closeCreateModal : Act.t State unit := setShowCreateModal false.

Definition initial : State := mkState [] false None "" false false [].

(** A project as the server sends it when no field is missing. *)
Definition sentBy (p : Project.t) : RawProject :=
  mkRaw (Some (Project.id p)) (Some (Project.name p))
    (Some (Project.description p)) (Some (Project.created_at p))
    (Some (Project.clerk_id p)).

Definition sent (before after : State) : list Wire.Effect :=
  drop (length (outbox before)) (outbox after).

End DashboardPage.

(** *** Sample data for the handlers above *)

Module Fixture.

Import Js.

Definition signedIn : ProjectPageFull.Closure :=
  ProjectPageFull.mkClosure (Some "user_1") "p1".

Definition signedOut : ProjectPageFull.Closure :=
  ProjectPageFull.mkClosure None "p1".

Definition chatRow (id : string) : Chat.t :=
  Chat.mk id "p1" "Chat #42" "2025-01-01T00:00:00.000Z".

(** A project with two chats and two documents, one still in processing,
    has been loaded. *)
Definition bundle : ProjectPage.ProjectData :=
  ProjectPage.mkData None [chatRow "c1"; chatRow "c2"]
    [Sample.doc "d1" (Some "processing"); Sample.doc "d2" (Some "completed")]
    (Some Sample.settings).

Definition shown : ProjectPageFull.State :=
  ProjectPageFull.run "p1"
    [ProjectPageFull.LoadBegins signedIn;
     ProjectPageFull.LoadTokenSettles signedIn (Fulfilled (Some "jwt"));
     ProjectPageFull.LoadReplySettles (Fulfilled bundle)]
    ProjectPageFull.mount.

Definition notOk (status : N) : ApiClient.Response unit :=
  ApiClient.mkResponse false status (Fulfilled tt).

Definition okay {J} (j : J) : ApiClient.Response J :=
  ApiClient.mkResponse true 200 (Fulfilled j).

Definition pdf (name : string) : ApiClient.File :=
  ApiClient.mkFile name 1024 "application/pdf".

(** A file whose three requests are all served. *)
Definition served (id : string) : ProjectPageFull.FileTrip :=
  ProjectPageFull.mkFileTrip
    (Fulfilled
       (Wire.Present
          (ProjectPageFull.mkPresigned ("https://s3/" +:+ id) ("key/" +:+ id))))
    (Fulfilled (okay tt))
    (Fulfilled (Wire.Present (Sample.doc id (Some "processing")))).

(** A file that S3 refuses. *)
Definition refused (id : string) : ProjectPageFull.FileTrip :=
  ProjectPageFull.mkFileTrip
    (Fulfilled
       (Wire.Present
          (ProjectPageFull.mkPresigned ("https://s3/" +:+ id) ("key/" +:+ id))))
    (Fulfilled (notOk 403))
    (Fulfilled (Wire.Present (Sample.doc id (Some "processing")))).

Definition chatting : ChatPageFull.State :=
  ChatPageFull.mkState Sample.loaded false
    (Some (ChatPageFull.mkModal "m1" ChatPageFull.dislike)) [].

Definition rating : ChatPageFull.Closure :=
  ChatPageFull.mkClosure (Some "user_1") "chat1"
    (Some (ChatPageFull.mkModal "m1" ChatPageFull.dislike)).

Definition projectRow (id name : string) : Project.t :=
  Project.mk id name "" "user_1" "2025-01-01T00:00:00.000Z".

Definition listed : DashboardPage.State :=
  DashboardPage.mkState [projectRow "p1" "Alpha"; projectRow "p2" "Beta"]
    false None "" true false [].

Definition failedLoad : DashboardPage.LoadTrip :=
  DashboardPage.mkLoadTrip (λ _, "2025-01-02T00:00:00.000Z")
    (Fulfilled (Some "jwt")) (Rejected (Api.httpError 500)).

End Fixture.

(** * Properties of the chat page *)

Module ChatPageSpec.

Import Js ChatPage.

(** Unfold a segment down to the record it builds. *)
Ltac run_segment :=
  cbv [handleSendMessage handleSendMessage_begin handleSendMessage_token
       handleSendMessage_reply guardExit catchBlock finallyBlock
       setCurrentChatData setSendMessageError setIsMessageSending emit
       Act.bind Act.ret Act.exec Act.eval];
  cbn.

Lemma temp_prefixed s : startsWith (tempPrefix +:+ s) tempPrefix = true.
Proof.
  unfold startsWith, tempPrefix. lazy [String.append]. simpl.
  destruct s; reflexivity.
Qed.

Lemma tempId_inj c1 c2 : tempId c1 = tempId c2 → now c1 = now c2.
Proof.
  unfold tempId. intros H.
  apply (inj (String.append tempPrefix)) in H.
  by apply (inj pretty) in H.
Qed.

Lemma optimistic_isTemp chat uid content clk :
  isTemp (optimisticUserMessage chat uid content clk) = true.
Proof. apply temp_prefixed. Qed.

Lemma chat_emitted_app st st' es : trace st' = trace st ++ es → emitted st st' = es.
Proof. unfold emitted. intros ->. by rewrite drop_app_length. Qed.

(** The passing guard, unfolded. *)
Lemma passesGuard_inv cl :
  passesGuard cl = true →
  ∃ chat uid, renderedChatData cl = Some chat ∧ userId cl = Some uid
              ∧ truthy (userId cl) = true.
Proof.
  unfold passesGuard. intros [Hc Hu]%andb_prop.
  apply bool_decide_eq_true in Hc as [chat Hc].
  destruct (userId cl) as [uid|] eqn:E; [|discriminate].
  by exists chat, uid.
Qed.

(** Segment 1 on a passing guard: one append and the token request. The
    pending data does not depend on the state the call finds. *)
Lemma begin_passes cl clk content :
  passesGuard cl = true →
  ∃ p, Message.id (optimistic p) = tempId clk
     ∧ isTemp (optimistic p) = true
     ∧ ∀ st, handleSendMessage_begin cl clk content st =
         (Some p,
          mkState (appendOptimistic (optimistic p) (currentChatData st)) None
            true
            (trace st ++ [Api.StoreUpdate "currentChatData"; Api.GetToken])).
Proof.
  intros (chat & uid & Hc & Hu & Ht)%passesGuard_inv.
  eexists (mkPending (optimisticUserMessage chat uid content clk) _ _).
  split; [reflexivity|]. split; [apply optimistic_isTemp|]. intros st.
  unfold handleSendMessage_begin. cbn. rewrite Hc. rewrite Ht, Hu. cbn.
  by rewrite <- app_assoc.
Qed.

Lemma begin_blocked cl clk content st :
  passesGuard cl = false →
  handleSendMessage_begin cl clk content st =
    (None,
     mkState (currentChatData st) (Some "Chat or user not found") false
       (trace st)).
Proof.
  unfold passesGuard, handleSendMessage_begin. intros H. cbn.
  destruct (renderedChatData cl) as [chat|]; [|reflexivity].
  destruct (userId cl) as [uid|] eqn:E; [|reflexivity].
  rewrite bool_decide_true in H by eauto. cbn in H. cbn. by rewrite H.
Qed.

Lemma messagesOf_append opt cur :
  is_Some cur → messagesOf (appendOptimistic opt cur) = messagesOf cur ++ [opt].
Proof. by intros [chat ->]. Qed.

Lemma appendOptimistic_is_Some opt cur :
  is_Some cur → is_Some (appendOptimistic opt cur).
Proof. intros [chat ->]. cbn. eauto. Qed.

(** The two filters on a sequence that one optimistic message was appended
    to. *)
Lemma filter_own_appended (opt : Message.t) (ms : list Message.t) :
  filter (λ msg, Message.id msg ≠ Message.id opt) (ms ++ [opt])
  = filter (λ msg, Message.id msg ≠ Message.id opt) ms.
Proof.
  rewrite filter_app, filter_cons_False, filter_nil, app_nil_r; [done|].
  by intros H.
Qed.

Lemma filter_temp_appended (opt : Message.t) (ms : list Message.t) :
  isTemp opt = true →
  filter (λ msg, isTemp msg = false) (ms ++ [opt])
  = filter (λ msg, isTemp msg = false) ms.
Proof.
  intros H.
  rewrite filter_app, filter_cons_False, filter_nil, app_nil_r; [done|].
  by rewrite H.
Qed.

Lemma filter_NoTemp ms : NoTemp ms → filter (λ msg, isTemp msg = false) ms = ms.
Proof.
  induction 1 as [|m ms Hm _ IH]; [done|].
  by rewrite filter_cons_True, IH.
Qed.

Lemma NoTemp_filter ms : NoTemp (filter (λ msg, isTemp msg = false) ms).
Proof. apply Forall_forall. by intros m [H _]%list_elem_of_filter. Qed.

Lemma filter_id_NoTemp (t : Message.t) ms :
  isTemp t = true → NoTemp ms →
  filter (λ msg, Message.id msg ≠ Message.id t) ms = ms.
Proof.
  intros Ht. induction 1 as [|m ms Hm _ IH]; [done|].
  rewrite filter_cons_True, IH; [done|].
  intros E. unfold isTemp in *. rewrite E in Hm. congruence.
Qed.

(** Segment 3 with the server's pair: the single [setCurrentChatData] of the
    success path, at whatever state the reply finds. *)
Lemma reply_fulfilled p d st :
  handleSendMessage_reply p (Fulfilled (mkResponse (Some d))) st =
    (tt,
     mkState (replaceOptimistic (optimistic p) d (currentChatData st))
       (sendMessageError st) false
       (trace st ++ [Api.StoreUpdate "currentChatData";
                     Api.ToastSuccess "Message sent"])).
Proof. run_segment. by rewrite <- app_assoc. Qed.

Lemma catchBlock_run st :
  catchBlock st =
    (tt,
     mkState (removeOptimistic (currentChatData st))
       (Some "Failed to send message") (isMessageSending st)
       (trace st ++ [Api.ToastError "Failed to send message";
                     Api.StoreUpdate "currentChatData"])).
Proof. run_segment. by rewrite <- app_assoc. Qed.

Lemma messagesOf_replace opt d cur :
  is_Some cur →
  messagesOf (replaceOptimistic opt d cur)
  = filter (λ msg, Message.id msg ≠ Message.id opt) (messagesOf cur)
      ++ [userMessage d; aiResponse d].
Proof. by intros [chat ->]. Qed.

Lemma messagesOf_remove cur :
  messagesOf (removeOptimistic cur)
  = filter (λ msg, isTemp msg = false) (messagesOf cur).
Proof. by destruct cur. Qed.

Import Interleaving.

Lemma succeeded_inv net d :
  succeeded net = Some d →
  ∃ tok, net = mkRoundTrip (Fulfilled tok) (Fulfilled (mkResponse (Some d))).
Proof.
  destruct net as [[tok|?] [[[d'|]]|?]]; cbn; intros [= <-]. by exists tok.
Qed.

(** Each segment of a successful call acts on the store as [storeAdvance]
    says. *)
Lemma advance_store c d :
  Succeeds c d →
  ∃ p, Message.id (optimistic p) = tempId (clock c) ∧
    ∀ seg ph st,
      let r := advance c seg (stageAt p ph) st in
      let r' := storeAdvance (optimistic p) d seg ph (currentChatData st) in
      r.1 = stageAt p r'.1 ∧ currentChatData r.2 = r'.2.
Proof.
  intros [Hguard [tok Hnet]%succeeded_inv].
  destruct (begin_passes (closure c) (clock c) (text c) Hguard)
    as (p & Hid & _ & Hbegin).
  exists p. split; [done|]. intros seg ph st.
  destruct seg, ph; cbv [advance stageAt storeAdvance]; try done.
  - by rewrite Hbegin.
  - by rewrite Hnet.
  - by rewrite Hnet.
Qed.

(** The page under a schedule and the store under it agree, move by move. *)
Lemma play_store a b dA dB :
  Succeeds a dA → Succeeds b dB →
  ∃ pA pB,
    Message.id (optimistic pA) = tempId (clock a) ∧
    Message.id (optimistic pB) = tempId (clock b) ∧
    ∀ schedule st,
      let s := play a b schedule st in
      let s' := storePlay (optimistic pA) (optimistic pB) dA dB schedule
                  (mkStore (currentChatData st) Waiting Waiting) in
      firstStage s = stageAt pA (firstPhase s') ∧
      secondStage s = stageAt pB (secondPhase s') ∧
      currentChatData (page s) = chatData s'.
Proof.
  intros (pA & HidA & HA)%advance_store (pB & HidB & HB)%advance_store.
  exists pA, pB. do 2 (split; [done|]). intros schedule st.
  unfold play, storePlay.
  set (s0 := mkSession st NotStarted NotStarted).
  set (s0' := mkStore (currentChatData st) Waiting Waiting).
  assert (firstStage s0 = stageAt pA (firstPhase s0') ∧
          secondStage s0 = stageAt pB (secondPhase s0') ∧
          currentChatData (page s0) = chatData s0') as Hrel by done.
  clearbody s0 s0'. revert s0 s0' Hrel.
  induction schedule as [|[who seg] rest IH]; intros s s' (H1 & H2 & H3);
    [done|].
  cbn [foldl]. apply IH. clear IH.
  destruct who; cbn [move storeMove].
  - rewrite H1, <- H3. specialize (HA seg (firstPhase s') (page s)).
    cbv zeta in HA.
    destruct (advance a seg _ _) as [stage st'], (storeAdvance _ _ _ _ _).
    cbn in *. by destruct HA.
  - rewrite H2, <- H3. specialize (HB seg (secondPhase s') (page s)).
    cbv zeta in HB.
    destruct (advance b seg _ _) as [stage st'], (storeAdvance _ _ _ _ _).
    cbn in *. by destruct HB.
Qed.

Lemma temp_not_durable (t m : Message.t) :
  isTemp t = true → isTemp m = false → Message.id m ≠ Message.id t.
Proof. unfold isTemp. intros Ht Hm E. rewrite E in Hm. congruence. Qed.

Lemma isTemp_of_id (m : Message.t) clk :
  Message.id m = tempId clk → isTemp m = true.
Proof. unfold isTemp. intros ->. apply temp_prefixed. Qed.

(** Push the filters of the reconciliations through an explicit sequence. *)
Ltac sift :=
  repeat first
    [ rewrite filter_app
    | rewrite filter_nil
    | rewrite app_nil_r
    | match goal with H : filter _ ?b = ?b |- _ => rewrite H end
    | rewrite filter_cons_True by (first [assumption | congruence])
    | rewrite filter_cons_False by (intros ?; first [contradiction | congruence]) ];
  rewrite <- ?app_assoc.

Lemma begin_eval cl clk content st p :
  Act.eval (handleSendMessage_begin cl clk content) st = Some p →
  Message.id (optimistic p) = tempId clk ∧ isTemp (optimistic p) = true.
Proof.
  unfold Act.eval. destruct (passesGuard cl) eqn:G.
  - destruct (begin_passes cl clk content G) as (p' & Hid & Ht & E).
    rewrite E. by intros [= <-].
  - by rewrite begin_blocked.
Qed.

(** A whole call whose round trip succeeds, from any state. *)
Lemma handleSendMessage_succeeded cl clk content net d st :
  passesGuard cl = true → succeeded net = Some d →
  ∃ p tok, Message.id (optimistic p) = tempId clk ∧
    isTemp (optimistic p) = true ∧
    net = mkRoundTrip (Fulfilled tok) (Fulfilled (mkResponse (Some d))) ∧
    Act.exec (handleSendMessage cl clk content net) st =
      mkState
        (replaceOptimistic (optimistic p) d
           (appendOptimistic (optimistic p) (currentChatData st)))
        None false
        (trace st ++ [Api.StoreUpdate "currentChatData"; Api.GetToken;
                      Api.ApiClient
                        (Api.Post (endpoint p) (Api.ContentBody (sentContent p))
                           tok);
                      Api.StoreUpdate "currentChatData";
                      Api.ToastSuccess "Message sent"]).
Proof.
  intros (p & Hid & Ht & E)%(begin_passes cl clk content)
         [tok ->]%succeeded_inv.
  exists p, tok. do 3 (split; [done|]).
  unfold handleSendMessage, Act.exec, Act.bind. rewrite E.
  run_segment. by rewrite <- !app_assoc.
Qed.

(** A whole call whose round trip fails, from any state: the store after the
    rollback, the error, and the one toast. *)
Lemma handleSendMessage_failed cl clk content net st :
  passesGuard cl = true → succeeded net = None →
  let st' := Act.exec (handleSendMessage cl clk content net) st in
  ∃ p, isTemp (optimistic p) = true ∧
    currentChatData st' =
      removeOptimistic (appendOptimistic (optimistic p) (currentChatData st)) ∧
    sendMessageError st' = Some "Failed to send message" ∧
    isMessageSending st' = false ∧
    filter Api.is_user_notice (emitted st st')
      = [Api.ToastError "Failed to send message"].
Proof.
  intros (p & Hid & Ht & E)%(begin_passes cl clk content) Hnet.
  exists p. split; [done|].
  unfold handleSendMessage, Act.exec, Act.bind. rewrite E.
  unfold emitted.
  destruct net as [[tok|err] [[[d|]]|err']]; try discriminate Hnet;
    run_segment; rewrite <- ?app_assoc, drop_app_length; done.
Qed.

(** C1 (amended). A [handleSendMessage] call that passes the guard and whose
    round trip returns the server's pair reconciles in one store update:
    the segment that runs on the reply calls [setCurrentChatData] once, and
    that update drops the entries carrying the [temp-] identifier this call
    minted, keeps every other entry in order, and appends the confirmed
    user message followed by the assistant reply.  Afterwards no entry
    carries this call's [temp-] identifier.  With nothing interleaved the
    sequence is the one before the call, less entries with that identifier,
    plus the pair; when the sequence before the call held no [temp-] entry,
    it is that sequence plus the pair and holds no [temp-] entry. *)
Theorem send_success_reconciles cl clk content net d st :
  passesGuard cl = true →
  is_Some (currentChatData st) →
  succeeded net = Some d →
  Durable d →
  let own := tempId clk in
  let st' := Act.exec (handleSendMessage cl clk content net) st in
  (∀ p st1,
     Message.id (optimistic p) = own → is_Some (currentChatData st1) →
     let st2 := Act.exec (handleSendMessage_reply p (replyResult net)) st1 in
     filter (Api.is_store_update "currentChatData") (emitted st1 st2)
       = [Api.StoreUpdate "currentChatData"] ∧
     shown st2
       = filter (λ msg, Message.id msg ≠ own) (shown st1) ++ pair d ∧
     Forall (λ msg, Message.id msg ≠ own) (shown st2)) ∧
  shown st' = filter (λ msg, Message.id msg ≠ own) (shown st) ++ pair d ∧
  (NoTemp (shown st) →
   shown st' = shown st ++ pair d ∧ NoTemp (shown st')).
Proof.
  intros Hguard Hsome Hnet [Hu Ha] own st'. subst own.
  assert (∀ p st1,
     Message.id (optimistic p) = tempId clk → is_Some (currentChatData st1) →
     shown (Act.exec (handleSendMessage_reply p
                        (Fulfilled (mkResponse (Some d)))) st1)
       = filter (λ msg, Message.id msg ≠ tempId clk) (shown st1) ++ pair d)
    as Hreply.
  { intros p st1 Hid Hst1. unfold Act.exec. rewrite reply_fulfilled.
    unfold shown. cbn [snd currentChatData].
    by rewrite messagesOf_replace, Hid. }
  destruct (handleSendMessage_succeeded cl clk content net d st Hguard Hnet)
    as (p & tok & Hid & Ht & -> & Hrun).
  split; [|split].
  - intros q st1 Hq Hst1 st2. subst st2. cbn [replyResult].
    split; [|split].
    + unfold Act.exec. rewrite reply_fulfilled. cbn [snd].
      by erewrite chat_emitted_app by reflexivity.
    + by apply Hreply.
    + rewrite Hreply by done. apply Forall_app. split.
      * apply Forall_forall. by intros msg [H _]%list_elem_of_filter.
      * assert (isTemp (optimistic q) = true) as Hq'
          by by eapply isTemp_of_id.
        rewrite <- Hq. unfold pair.
        repeat constructor; by apply temp_not_durable.
  - subst st'. rewrite Hrun. unfold shown. cbn [currentChatData].
    rewrite messagesOf_replace by by apply appendOptimistic_is_Some.
    rewrite messagesOf_append by done.
    by rewrite <- Hid, filter_own_appended.
  - intros Hbase. subst st'. rewrite Hrun. unfold shown. cbn [currentChatData].
    rewrite messagesOf_replace by by apply appendOptimistic_is_Some.
    rewrite messagesOf_append by done.
    rewrite !filter_own_appended, !filter_id_NoTemp by done.
    split; [done|]. apply Forall_app. split; [done|].
    unfold pair. by repeat constructor.
Qed.

(** C1, an instance: a first message sent at millisecond 5 on a loaded,
    empty chat. *)
Lemma send_success_reconciles_witness :
  let st' := Act.exec (handleSendMessage Sample.closure (Sample.at_ms 5) "hi"
                         (Sample.succeeds "m1" "m2" "hi")) Sample.loaded in
  shown st'
  = filter (λ msg, Message.id msg ≠ tempId (Sample.at_ms 5))
      (shown Sample.loaded) ++ pair (Sample.reply "m1" "m2" "hi").
Proof.
  refine (proj1 (proj2 (send_success_reconciles Sample.closure (Sample.at_ms 5)
            "hi" (Sample.succeeds "m1" "m2" "hi") (Sample.reply "m1" "m2" "hi")
            Sample.loaded _ _ _ _))).
  - reflexivity.
  - by eexists.
  - reflexivity.
  - by split.
Defined.

(** C1 as stated fails: the request of a first call (millisecond 1) is in
    flight when a second call (millisecond 2) is made, succeeds and
    reconciles; the sequence then still holds the first call's [temp-1]
    entry. *)
Lemma reconciliation_keeps_foreign_temp :
  let a := mkCall Sample.closure (Sample.at_ms 1) "a"
             (Sample.succeeds "m1" "m2" "a") in
  let b := mkCall Sample.closure (Sample.at_ms 2) "b"
             (Sample.succeeds "m3" "m4" "b") in
  let s := play a b
             [(First, Begin); (First, TokenSettles); (Second, Begin);
              (Second, TokenSettles); (Second, ReplySettles)]
             Sample.loaded in
  secondStage s = Returned ∧
  Message.id <$> shown (page s) = ["temp-1"; "m3"; "m4"] ∧
  ¬ NoTemp (shown (page s)).
Proof.
  cbv zeta. split; [reflexivity|]. split; [reflexivity|].
  intros H. apply Forall_inv in H. vm_compute in H. discriminate.
Qed.

(** C2 (amended). A [handleSendMessage] call that passes the guard and whose
    round trip fails (no token, a rejected request, or a reply without
    data) rolls back in the segment that runs on the failure, whatever has
    run since the call began: that segment updates the store once, and the
    update removes every [temp-] entry from the sequence it finds and
    keeps every other message in order; the error "Failed to send message"
    is set and shown as the one toast, and the sending flag is cleared.
    When the sequence that segment finds is the one the call's first
    segment left (nothing else has changed it since the call began), and
    so when nothing is interleaved at all, the result is the sequence
    before the call with every [temp-] entry removed, so without any
    [temp-] entry; it is the sequence before the call when that held no
    [temp-] entry.  The error is one the page recovers from: a following
    call that passes the guard starts by clearing it. *)
Theorem send_failure_rolls_back cl clk content net st :
  passesGuard cl = true →
  succeeded net = None →
  let st' := Act.exec (handleSendMessage cl clk content net) st in
  let rolledBack (st1 st2 : State) : Prop :=
    shown st2 = filter (λ msg, isTemp msg = false) (shown st1) ∧
    NoTemp (shown st2) ∧
    filter (Api.is_store_update "currentChatData") (emitted st1 st2)
      = [Api.StoreUpdate "currentChatData"] ∧
    sendMessageError st2 = Some "Failed to send message" ∧
    isMessageSending st2 = false ∧
    filter Api.is_user_notice (emitted st1 st2)
      = [Api.ToastError "Failed to send message"] in
  (∀ p st1,
     rolledBack st1
       (match tokenResult net with
        | Fulfilled _ =>
            Act.exec (handleSendMessage_reply p (replyResult net)) st1
        | Rejected _ =>
            Act.exec (handleSendMessage_token p (tokenResult net)) st1
        end)) ∧
  (∀ p st1,
     shown st1
     = shown (Act.exec (handleSendMessage_begin cl clk content) st) →
     let st2 :=
       match tokenResult net with
       | Fulfilled _ =>
           Act.exec (handleSendMessage_reply p (replyResult net)) st1
       | Rejected _ =>
           Act.exec (handleSendMessage_token p (tokenResult net)) st1
       end in
     shown st2 = filter (λ msg, isTemp msg = false) (shown st) ∧
     (NoTemp (shown st) → shown st2 = shown st)) ∧
  shown st' = filter (λ msg, isTemp msg = false) (shown st) ∧
  NoTemp (shown st') ∧
  (NoTemp (shown st) → shown st' = shown st) ∧
  sendMessageError st' = Some "Failed to send message" ∧
  isMessageSending st' = false ∧
  filter Api.is_user_notice (emitted st st')
    = [Api.ToastError "Failed to send message"] ∧
  (∀ cl' clk' content' st1,
     passesGuard cl' = true →
     sendMessageError
       (Act.exec (handleSendMessage_begin cl' clk' content') st1) = None).
Proof.
  intros Hguard Hnet st' rolledBack.
  assert (∀ st1 st2,
            st2 = mkState (removeOptimistic (currentChatData st1))
                    (Some "Failed to send message") false
                    (trace st1 ++ [Api.ToastError "Failed to send message";
                                   Api.StoreUpdate "currentChatData"]) →
            rolledBack st1 st2) as Hrolled.
  { intros st1 st2 ->. unfold rolledBack, shown, emitted.
    cbn [currentChatData sendMessageError isMessageSending trace].
    rewrite messagesOf_remove, drop_app_length.
    repeat split; try done. apply NoTemp_filter. }
  assert (∀ p st1,
            rolledBack st1
              (match tokenResult net with
               | Fulfilled _ =>
                   Act.exec (handleSendMessage_reply p (replyResult net)) st1
               | Rejected _ =>
                   Act.exec (handleSendMessage_token p (tokenResult net)) st1
               end)) as Hany.
  { intros p st1. apply Hrolled.
    destruct net as [[tok|err] [[[d|]]|err']]; try discriminate Hnet;
      cbn [tokenResult replyResult]; run_segment;
      by rewrite <- ?app_assoc. }
  split; [exact Hany|]. split.
  - intros p st1 Hfound st2.
    destruct (Hany p st1) as (Hshown & _). fold st2 in Hshown.
    assert (shown st2 = filter (λ msg, isTemp msg = false) (shown st)) as E.
    { rewrite Hshown, Hfound.
      destruct (begin_passes cl clk content Hguard) as (q & _ & Hq & Hrun).
      unfold Act.exec, shown. rewrite Hrun. cbn [snd currentChatData].
      destruct (currentChatData st) as [chat|] eqn:Hst; [|done].
      rewrite messagesOf_append by eauto.
      by rewrite filter_temp_appended. }
    split; [done|]. rewrite E. apply filter_NoTemp.
  - destruct (handleSendMessage_failed cl clk content net st Hguard Hnet)
      as (p & Ht & Hcur & Herr & Hbusy & Htoast).
    fold st' in Hcur, Herr, Hbusy, Htoast.
    assert (shown st' = filter (λ msg, isTemp msg = false) (shown st)) as E.
    { unfold shown. rewrite Hcur, messagesOf_remove.
      destruct (currentChatData st) as [chat|] eqn:Hst; [|done].
      rewrite messagesOf_append by eauto.
      by rewrite filter_temp_appended. }
    split; [done|]. rewrite E.
    split; [apply NoTemp_filter|].
    split; [apply filter_NoTemp|].
    do 3 (split; [done|]).
    intros cl' clk' content' st1 Hg.
    destruct (begin_passes cl' clk' content' Hg) as (q & _ & _ & Hq).
    unfold Act.exec. by rewrite Hq.
Qed.

(** C2, an instance: the request of a first message is answered with 500. *)
Lemma send_failure_rolls_back_witness :
  let st' := Act.exec (handleSendMessage Sample.closure (Sample.at_ms 5) "hi"
                         Sample.fails) Sample.loaded in
  shown st' = shown Sample.loaded ∧
  sendMessageError st' = Some "Failed to send message".
Proof.
  cbv zeta.
  pose proof (send_failure_rolls_back Sample.closure (Sample.at_ms 5) "hi"
                Sample.fails Sample.loaded eq_refl eq_refl) as H.
  cbv zeta in H. destruct H as (_ & _ & _ & _ & Hsame & Herr & _).
  split; [apply Hsame; constructor | exact Herr].
Defined.

(** C2 as stated fails, in two ways.  The request of a first call
    (millisecond 1) is in flight when a second call (millisecond 2) is
    made, and the second call's request is rejected: the sequence just
    before the second call held the first call's [temp-1] entry; after
    the rollback it is empty.  And a call (millisecond 1) made on an empty
    chat whose request is rejected after a second call (millisecond 2)
    was made and reconciled: after the rollback the sequence is the
    second call's pair, not the empty sequence before the call. *)
Lemma rollback_differs_from_sequence_before_call :
  let a := mkCall Sample.closure (Sample.at_ms 1) "a"
             (Sample.succeeds "m1" "m2" "a") in
  let b := mkCall Sample.closure (Sample.at_ms 2) "b" Sample.fails in
  let before := play a b [(First, Begin); (First, TokenSettles)]
                  Sample.loaded in
  let after := play a b
                 [(First, Begin); (First, TokenSettles); (Second, Begin);
                  (Second, TokenSettles); (Second, ReplySettles)]
                 Sample.loaded in
  let c := mkCall Sample.closure (Sample.at_ms 1) "a" Sample.fails in
  let d := mkCall Sample.closure (Sample.at_ms 2) "b"
             (Sample.succeeds "m3" "m4" "b") in
  let later := play c d
                 [(First, Begin); (First, TokenSettles); (Second, Begin);
                  (Second, TokenSettles); (Second, ReplySettles);
                  (First, ReplySettles)]
                 Sample.loaded in
  (Message.id <$> shown (page before) = ["temp-1"] ∧
   secondStage after = Returned ∧
   sendMessageError (page after) = Some "Failed to send message" ∧
   shown (page after) = [] ∧
   shown (page after) ≠ shown (page before)) ∧
  (shown Sample.loaded = [] ∧
   firstStage later = Returned ∧
   sendMessageError (page later) = Some "Failed to send message" ∧
   Message.id <$> shown (page later) = ["m3"; "m4"] ∧
   shown (page later) ≠ shown Sample.loaded).
Proof. cbv zeta. by repeat split. Qed.

(** C5. A [handleSendMessage] call made from a render without chat data or
    without a user identifier stops at the guard: the store and the trace
    are as before (no optimistic append, no token request, no [apiClient]
    call), "Chat or user not found" is the error, and the sending flag is
    cleared. *)
Theorem send_without_context_aborts cl clk content net st :
  renderedChatData cl = None ∨ truthy (userId cl) = false →
  let st' := Act.exec (handleSendMessage cl clk content net) st in
  currentChatData st' = currentChatData st ∧
  trace st' = trace st ∧
  sendMessageError st' = Some "Chat or user not found" ∧
  isMessageSending st' = false.
Proof.
  intros H st'.
  assert (passesGuard cl = false) as G.
  { unfold passesGuard. destruct H as [-> | ->]; [done|].
    apply andb_false_r. }
  subst st'. unfold handleSendMessage, Act.exec, Act.bind.
  by rewrite begin_blocked.
Qed.

(** C5, an instance: the user is signed out. *)
Lemma send_without_context_aborts_witness :
  let cl := mkClosure "p1" (Some Sample.chat) None in
  let st' := Act.exec (handleSendMessage cl (Sample.at_ms 5) "hi"
                         (Sample.succeeds "m1" "m2" "hi")) Sample.loaded in
  currentChatData st' = currentChatData Sample.loaded ∧
  trace st' = trace Sample.loaded ∧
  sendMessageError st' = Some "Chat or user not found" ∧
  isMessageSending st' = false.
Proof.
  apply (send_without_context_aborts (mkClosure "p1" (Some Sample.chat) None)).
  right. reflexivity.
Defined.

(** C9 (amended). The identifier a call mints is [temp-] followed by the
    millisecond clock read of the call, whatever the state it is made in:
    two calls that read different milliseconds mint different identifiers,
    and each identifier carries the [temp-] prefix, which the page's own
    test recognises and which sets it apart from every durable
    identifier: it differs from every identifier that does not start with
    [temp-], so from the identifier of every message that is not
    tentative. *)
Theorem tempId_distinct_across_milliseconds
    cl1 cl2 clk1 clk2 content1 content2 st1 st2 p1 p2 :
  Act.eval (handleSendMessage_begin cl1 clk1 content1) st1 = Some p1 →
  Act.eval (handleSendMessage_begin cl2 clk2 content2) st2 = Some p2 →
  (now clk1 ≠ now clk2 →
   Message.id (optimistic p1) ≠ Message.id (optimistic p2)) ∧
  isTemp (optimistic p1) = true ∧ isTemp (optimistic p2) = true ∧
  (∀ durable : string,
     startsWith durable tempPrefix = false →
     durable ≠ Message.id (optimistic p1)
     ∧ durable ≠ Message.id (optimistic p2)) ∧
  (∀ m : Message.t,
     isTemp m = false →
     Message.id m ≠ Message.id (optimistic p1)
     ∧ Message.id m ≠ Message.id (optimistic p2)).
Proof.
  intros [E1 T1]%begin_eval [E2 T2]%begin_eval.
  split; [|split; [done|split; [done|split]]].
  - rewrite E1, E2. intros Hne E. by apply Hne, tempId_inj.
  - intros durable Hd. unfold isTemp in T1, T2.
    split; intros ->; congruence.
  - intros m Hm. split; by apply temp_not_durable.
Qed.

(** C9, an instance: two calls one millisecond apart. *)
Lemma tempId_distinct_across_milliseconds_witness :
  ∃ p1 p2,
    Act.eval (handleSendMessage_begin Sample.closure (Sample.at_ms 1) "a")
      Sample.loaded = Some p1 ∧
    Act.eval (handleSendMessage_begin Sample.closure (Sample.at_ms 2) "b")
      Sample.loaded = Some p2 ∧
    Message.id (optimistic p1) ≠ Message.id (optimistic p2) ∧
    isTemp (optimistic p1) = true ∧ isTemp (optimistic p2) = true ∧
    "m1" ≠ Message.id (optimistic p1).
Proof.
  do 2 eexists. split; [reflexivity|]. split; [reflexivity|].
  pose proof (tempId_distinct_across_milliseconds Sample.closure
                Sample.closure (Sample.at_ms 1) (Sample.at_ms 2) "a" "b"
                Sample.loaded Sample.loaded _ _ eq_refl eq_refl)
    as (Hne & T1 & T2 & Hd & _).
  split; [by apply Hne|]. split; [exact T1|]. split; [exact T2|].
  exact (proj1 (Hd "m1" eq_refl)).
Defined.

(** C9 as stated fails: two different calls that read the same millisecond
    mint the same identifier. *)
Lemma same_millisecond_same_tempId :
  let clk := Sample.at_ms 1700000000000 in
  let first := handleSendMessage_begin Sample.closure clk "first"
                 Sample.loaded in
  let second := handleSendMessage_begin Sample.closure clk "second"
                  first.2 in
  ∃ p1 p2, first.1 = Some p1 ∧ second.1 = Some p2 ∧ p1 ≠ p2 ∧
           Message.id (optimistic p1) = Message.id (optimistic p2).
Proof. cbv zeta. do 2 eexists. by repeat split. Qed.

(** C3 (amended). With two [handleSendMessage] calls in flight on one chat:
    the optimistic append of a call keeps every entry already there and
    adds its own at the end; the reconciliation of a call keeps every
    message whose identifier is not the [temp-] identifier that call
    minted, so the other call's tentative entry (when the two were minted
    in different milliseconds) and every confirmed message stay; the
    rollback of a failed call keeps
    exactly the messages without the [temp-] prefix, so it keeps every
    confirmed message and removes every tentative entry, the other call's
    included; and when both calls succeed, in every order in which their
    segments can run, the chat ends with exactly four new messages: the
    two user/assistant pairs, in the order the replies arrived. *)
Theorem concurrent_sends a b da db st :
  Succeeds a da → Succeeds b db → Durable da → Durable db →
  is_Some (currentChatData st) →
  NoTemp (shown st) →
  (∀ c st1, c = a ∨ c = b → is_Some (currentChatData st1) →
     ∃ p, Message.id (optimistic p) = tempId (clock c) ∧
       shown (Act.exec (handleSendMessage_begin (closure c) (clock c)
                          (text c)) st1)
       = shown st1 ++ [optimistic p]) ∧
  (∀ p d st1 msg,
     msg ∈ shown st1 → Message.id msg ≠ Message.id (optimistic p) →
     msg ∈ shown (Act.exec (handleSendMessage_reply p
                              (Fulfilled (mkResponse (Some d)))) st1)) ∧
  (∀ p err st1,
     shown (Act.exec (handleSendMessage_reply p (Rejected err)) st1)
     = filter (λ msg, isTemp msg = false) (shown st1)) ∧
  (∀ schedule, schedule ∈ schedules →
     let s := play a b schedule st in
     firstStage s = Returned ∧ secondStage s = Returned ∧
     shown (page s) =
       shown st ++
         match firstReply schedule with
         | Some Second => pair db ++ pair da
         | _ => pair da ++ pair db
         end).
Proof.
  intros Ha Hb [Hua Haa] [Hub Hab] [chat Hst] Hbase.
  split; [|split; [|split]].
  - intros c st1 Hc Hst1.
    assert (passesGuard (closure c) = true) as Hguard
      by (destruct Hc as [-> | ->]; [apply Ha | apply Hb]).
    destruct (begin_passes (closure c) (clock c) (text c) Hguard)
      as (p & Hid & _ & E).
    exists p. split; [done|]. unfold Act.exec. rewrite E.
    unfold shown. cbn [snd currentChatData]. by apply messagesOf_append.
  - intros p d st1 msg Hin Hne. unfold Act.exec. rewrite reply_fulfilled.
    unfold shown in *. cbn [snd currentChatData].
    destruct (currentChatData st1) as [c|] eqn:E; [|by apply elem_of_nil in Hin].
    rewrite messagesOf_replace by eauto.
    apply elem_of_app. left. by apply list_elem_of_filter.
  - intros p err st1. unfold Act.exec, handleSendMessage_reply, Act.bind.
    rewrite catchBlock_run. unfold shown. cbn.
    apply messagesOf_remove.
  - intros schedule Hin.
    destruct (play_store a b da db Ha Hb) as (pA & pB & HidA & HidB & Hsim).
    destruct (Hsim schedule st) as (H1 & H2 & H3). clear Hsim.
    cbv zeta. rewrite H1, H2. unfold shown at 1. rewrite H3.
    unfold shown, messagesOf in *. rewrite Hst in *. clear H1 H2 H3.
    apply isTemp_of_id in HidA, HidB.
    pose proof (filter_id_NoTemp _ _ HidA Hbase) as HbA.
    pose proof (filter_id_NoTemp _ _ HidB Hbase) as HbB.
    pose proof (temp_not_durable _ _ HidA Hua).
    pose proof (temp_not_durable _ _ HidA Haa).
    pose proof (temp_not_durable _ _ HidA Hub).
    pose proof (temp_not_durable _ _ HidA Hab).
    pose proof (temp_not_durable _ _ HidB Hua).
    pose proof (temp_not_durable _ _ HidB Haa).
    pose proof (temp_not_durable _ _ HidB Hub).
    pose proof (temp_not_durable _ _ HidB Hab).
    set (base := ChatWithMessages.messages chat) in *.
    unfold pair.
    vm_compute in Hin.
    destruct (decide (Message.id (optimistic pA) = Message.id (optimistic pB)))
      as [Esame|Ediff];
    repeat (apply elem_of_cons in Hin as [-> | Hin]);
    try (by apply elem_of_nil in Hin);
    cbv [storePlay foldl storeMove storeAdvance firstPhase secondPhase chatData
         appendOptimistic replaceOptimistic ChatWithMessages.with_messages
         stageAt firstReply];
    cbn [ChatWithMessages.messages]; fold base;
    (split; [done|]); (split; [done|]);
    sift; done.
Qed.

(** C3, an instance: both calls begin, then the second call's reply arrives
    before the first call's. *)
Lemma concurrent_sends_witness :
  let a := mkCall Sample.closure (Sample.at_ms 1) "a"
             (Sample.succeeds "m1" "m2" "a") in
  let b := mkCall Sample.closure (Sample.at_ms 2) "b"
             (Sample.succeeds "m3" "m4" "b") in
  let schedule := [(First, Begin); (Second, Begin); (Second, TokenSettles);
                   (First, TokenSettles); (Second, ReplySettles);
                   (First, ReplySettles)] in
  overlapping schedule = true ∧
  let s := play a b schedule Sample.loaded in
  firstStage s = Returned ∧ secondStage s = Returned ∧
  shown (page s) =
    shown Sample.loaded ++
      pair (Sample.reply "m3" "m4" "b") ++ pair (Sample.reply "m1" "m2" "a").
Proof.
  cbv zeta. split; [reflexivity|].
  refine (proj2 (proj2 (proj2 (concurrent_sends
            (mkCall Sample.closure (Sample.at_ms 1) "a"
               (Sample.succeeds "m1" "m2" "a"))
            (mkCall Sample.closure (Sample.at_ms 2) "b"
               (Sample.succeeds "m3" "m4" "b"))
            (Sample.reply "m1" "m2" "a") (Sample.reply "m3" "m4" "b")
            Sample.loaded _ _ _ _ _ _)))
          [(First, Begin); (Second, Begin); (Second, TokenSettles);
           (First, TokenSettles); (Second, ReplySettles);
           (First, ReplySettles)] _).
  - by split.
  - by split.
  - by split.
  - by split.
  - by eexists.
  - constructor.
  - apply (bool_decide_unpack _). by vm_compute.
Defined.

(** C3 as stated fails: the requests of two calls (milliseconds 1 and 2)
    are in flight and the first one is rejected. Its rollback removes the
    [temp-2] entry the second call minted, while the second call still
    waits for its reply. *)
Lemma rollback_removes_foreign_temp :
  let a := mkCall Sample.closure (Sample.at_ms 1) "a" Sample.fails in
  let b := mkCall Sample.closure (Sample.at_ms 2) "b"
             (Sample.succeeds "m3" "m4" "b") in
  let before := play a b
                  [(First, Begin); (First, TokenSettles); (Second, Begin);
                   (Second, TokenSettles)] Sample.loaded in
  let after := play a b
                 [(First, Begin); (First, TokenSettles); (Second, Begin);
                  (Second, TokenSettles); (First, ReplySettles)]
                 Sample.loaded in
  Message.id <$> shown (page before) = ["temp-1"; "temp-2"] ∧
  firstStage after = Returned ∧
  (∃ p, secondStage after = AtReply p ∧
        Message.id (optimistic p) = "temp-2") ∧
  shown (page after) = [].
Proof.
  cbv zeta. split; [reflexivity|]. split; [reflexivity|].
  split; [|reflexivity]. eexists. split; reflexivity.
Qed.

End ChatPageSpec.

(** * Properties of the project page *)

Module ProjectPageSpec.

Import Js ProjectPage.

(** Unfold a handler down to the record it builds. *)
Ltac run_handler :=
  cbv [step run foldl effectsOf emitted
       pollCallback_begin pollCallback_token pollCallback_reply
       documentsUploaded documentDeleted urlAdded projectLoaded
       handleDraftSettings handlePublishSettings handlePublishSettings_begin
       handlePublishSettings_token handlePublishSettings_reply publishCatch
       failure
       emit setData setLoading setError suspendAtToken suspendAtReply
       Act.bind Act.ret Act.exec Act.eval];
  cbn.

Lemma project_emitted_app st st' es : trace st' = trace st ++ es → emitted st st' = es.
Proof. unfold emitted. intros ->. by rewrite drop_app_length. Qed.

Lemma isProcessing_terminal doc : Terminal doc → isProcessing doc = false.
Proof. unfold isProcessing. by intros [-> | ->]. Qed.

Lemma isProcessing_spec doc :
  isProcessing doc = true ↔
  ∃ status, ProjectDocument.processing_status doc = Some status
            ∧ status ≠ "" ∧ status ≠ "completed" ∧ status ≠ "failed".
Proof.
  unfold isProcessing.
  destruct (ProjectDocument.processing_status doc) as [status|]; [|split].
  - unfold truthy, includes, terminalStatuses.
    rewrite andb_true_iff, negb_true_iff, bool_decide_eq_true,
      bool_decide_eq_false, !not_elem_of_cons.
    split.
    + intros (? & ? & ? & _). by exists status.
    + intros (? & [= <-] & ? & ? & ?). repeat split; try done.
      apply not_elem_of_nil.
  - discriminate.
  - by intros (? & ? & _).
Qed.

Lemma hasProcessing_terminal docs :
  Forall Terminal docs → hasProcessingDocuments docs = false.
Proof.
  unfold hasProcessingDocuments. induction 1 as [|doc docs H _ IH]; [done|].
  cbn. by rewrite isProcessing_terminal.
Qed.

Lemma hasProcessing_spec docs :
  hasProcessingDocuments docs = true ↔ Exists (λ doc, isProcessing doc = true) docs.
Proof.
  unfold hasProcessingDocuments. rewrite existsb_exists, Exists_exists.
  by setoid_rewrite list_elem_of_In.
Qed.

(** The effect after a change of [data.documents]: the old interval is
    cleared, and a new one is set exactly when a document is being
    processed. Nothing but the timers changes. *)
Lemma documentsChanged_spec st :
  intervals st = option_list (pollCleanup st) →
  let st' := Act.exec documentsChanged st in
  PollerInv st' ∧ data st' = data st ∧ trace st' = trace st ∧
  loading st' = loading st ∧ error st' = error st ∧
  awaitingToken st' = awaitingToken st ∧
  awaitingReply st' = awaitingReply st.
Proof.
  intros Hreg. unfold PollerInv, documentsChanged, Act.exec, Act.bind.
  unfold runCleanup.
  destruct st as [d l e ivs next [h|] at_ ar tr]; cbn in Hreg; subst ivs; cbn.
  - case_decide; [done|].
    unfold pollingEffect. cbn.
    destruct (hasProcessingDocuments (documents d)) eqn:E; cbn; rewrite E; done.
  - unfold pollingEffect. cbn.
    destruct (hasProcessingDocuments (documents d)) eqn:E; cbn; rewrite E; done.
Qed.

Lemma step_inv projectId ev st :
  PollerInv st → PollerInv (step projectId ev st).
Proof.
  intros Hinv. pose proof Hinv as [Hreg Hdocs].
  destruct ev as [h|tok|reply|bundle|docs|documentId|doc|updates];
    cbn [step].
  - destruct (bool_decide (h ∈ intervals st)); [|done]. by split.
  - destruct (awaitingToken st); [done|]. by destruct tok.
  - destruct (awaitingReply st); [done|].
    destruct reply as [docs|err]; [|done].
    by apply documentsChanged_spec.
  - by apply documentsChanged_spec.
  - destruct docs; [done|]. by apply documentsChanged_spec.
  - by apply documentsChanged_spec.
  - by apply documentsChanged_spec.
  - unfold PollerInv. run_handler.
    destruct (settings (data st)) eqn:E; cbn; unfold draftUpdater;
      rewrite ?E; cbn; done.
Qed.

Lemma mount_inv : PollerInv mount.
Proof. by split. Qed.

(** Every state a mounted page reaches satisfies the poller invariant. *)
Lemma run_inv projectId evs st :
  PollerInv st → PollerInv (run projectId evs st).
Proof.
  unfold run. revert st.
  induction evs as [|ev evs IH]; intros st H; [done|].
  cbn [foldl]. by apply IH, step_inv.
Qed.

Lemma inv_Idle st :
  PollerInv st →
  (Idle st ↔ hasProcessingDocuments (documents (data st)) = false).
Proof.
  intros [Hreg Hdocs]. unfold Idle. rewrite Hreg, <- Hdocs.
  rewrite bool_decide_eq_false.
  destruct (pollCleanup st) as [h|]; cbn; split; try done.
  intros H. destruct H. eauto.
Qed.

Lemma inv_Polling st :
  PollerInv st →
  (Polling st ↔ hasProcessingDocuments (documents (data st)) = true).
Proof.
  intros [Hreg Hdocs]. unfold Polling. rewrite Hreg, <- Hdocs.
  rewrite bool_decide_eq_true.
  destruct (pollCleanup st) as [h|]; cbn; split; eauto.
  - by intros (? & ? & ?).
  - by intros [? ?].
Qed.

(** A refresh that succeeds: the collection is replaced, the effect runs
    again. *)
Lemma reply_replaces projectId docs st :
  0 < awaitingReply st →
  intervals st = option_list (pollCleanup st) →
  let st' := step projectId (PollReplySettles (Fulfilled docs)) st in
  PollerInv st' ∧ data st' = with_documents docs (data st)
  ∧ trace st' = trace st ++ [Api.StoreUpdate "data"].
Proof.
  intros Har Hreg. cbn [step].
  destruct st as [d l e ivs next c at_ [|ar] tr]; cbn in Har; [lia|].
  cbn in Hreg.
  unfold pollCallback_reply, Act.exec, Act.bind. cbn.
  match goal with
  | |- context [documentsChanged ?s] =>
      destruct (documentsChanged_spec s Hreg) as (Hinv & Hd & Ht & _)
  end.
  unfold Act.exec in *. by rewrite Hd, Ht.
Qed.

(** A refresh that fails: one line on the console. *)
Lemma reply_rejected projectId err st :
  0 < awaitingReply st →
  let st' := step projectId (PollReplySettles (Rejected err)) st in
  trace st' = trace st ++ [Api.ConsoleError "Polling error:"]
  ∧ data st' = data st ∧ intervals st' = intervals st
  ∧ pollCleanup st' = pollCleanup st
  ∧ nextIntervalId st' = nextIntervalId st.
Proof.
  intros Har. cbn [step].
  destruct (awaitingReply st) eqn:E; [lia|]. by run_handler.
Qed.

(** A tick of the active interval followed by its token: the two calls that
    leave the page, and nothing else but the suspension counters. *)
Lemma tick_requests projectId h tok st :
  h ∈ intervals st →
  let st' := run projectId
               [IntervalFires h; PollTokenSettles (Fulfilled tok)] st in
  trace st' = trace st ++ [Api.GetToken;
                           Api.ApiClient (Api.Get (filesEndpoint projectId) tok)]
  ∧ data st' = data st ∧ intervals st' = intervals st
  ∧ pollCleanup st' = pollCleanup st
  ∧ awaitingReply st' = S (awaitingReply st).
Proof.
  intros Hin. cbn [run foldl step]. rewrite bool_decide_true by done.
  run_handler. by rewrite <- app_assoc.
Qed.

(** C4 (amended). In every state the page reaches: when the document
    collection is empty or every status is [completed] or [failed], no
    document counts as processing; when no document counts as processing,
    the poller is idle: no interval is active and a timer that fires does
    nothing, so no tick starts a refresh (what a callback already started
    by an earlier tick still does is not part of this statement); a
    document counts as processing exactly when its status is present, not
    empty, and neither [completed] nor [failed] (a document without a
    status, or with an empty one, is not polled for); when some document
    counts as processing, exactly one interval is active, each of its ticks
    asks for a token and then requests the project's files, and a refresh
    that succeeds replaces the document collection wholesale and leaves
    the poller idle exactly when no document of the new collection counts
    as processing. *)
Theorem poller_follows_documents projectId evs :
  let st := run projectId evs mount in
  let docs := documents (data st) in
  (docs = [] ∨ Forall Terminal docs → hasProcessingDocuments docs = false) ∧
  (hasProcessingDocuments docs = false →
     Idle st ∧ ∀ h, step projectId (IntervalFires h) st = st) ∧
  (hasProcessingDocuments docs = true ↔
     Exists (λ doc, ∃ status,
               ProjectDocument.processing_status doc = Some status
               ∧ status ≠ "" ∧ status ≠ "completed" ∧ status ≠ "failed")
       docs) ∧
  (hasProcessingDocuments docs = true →
     ∃ h, intervals st = [h] ∧ pollCleanup st = Some h ∧
       effectsOf projectId (IntervalFires h) st = [Api.GetToken] ∧
       ∀ tok docs',
         let st' := run projectId (refresh h tok docs') st in
         emitted st st'
           = [Api.GetToken;
              Api.ApiClient (Api.Get (filesEndpoint projectId) tok);
              Api.StoreUpdate "data"] ∧
         data st' = with_documents docs' (data st) ∧
         (Idle st' ↔ hasProcessingDocuments docs' = false) ∧
         (Polling st' ↔ hasProcessingDocuments docs' = true)).
Proof.
  intros st docs.
  assert (PollerInv st) as Hinv by apply run_inv, mount_inv.
  split; [|split; [|split]].
  - intros [-> | H]; [done|]. by apply hasProcessing_terminal.
  - intros E. apply inv_Idle in E as Hidle; [|done].
    split; [done|]. intros h. cbn [step]. rewrite Hidle.
    rewrite bool_decide_false; [done|]. apply not_elem_of_nil.
  - rewrite hasProcessing_spec, !Exists_exists.
    by setoid_rewrite isProcessing_spec.
  - intros E. apply inv_Polling in E as (h & Hivs & Hc); [|done].
    exists h. do 2 (split; [done|]).
    assert (h ∈ intervals st) as Hin
      by (rewrite Hivs; apply list_elem_of_here).
    split.
    + unfold effectsOf. cbn [step]. rewrite bool_decide_true by done.
      run_handler. by rewrite drop_app_length.
    + intros tok docs' st'.
      destruct (tick_requests projectId h tok st Hin)
        as (Htr & Hdata & Hivs' & Hc' & Har).
      set (st1 := run projectId
                    [IntervalFires h; PollTokenSettles (Fulfilled tok)] st)
        in *.
      assert (st' = step projectId (PollReplySettles (Fulfilled docs')) st1)
        as -> by done.
      clearbody st1.
      destruct (reply_replaces projectId docs' st1) as (Hinv' & Hd & Ht).
      { lia. }
      { rewrite Hivs', Hc'. apply Hinv. }
      split; [|split; [|split]].
      * unfold emitted. by rewrite Ht, Htr, <- app_assoc, drop_app_length.
      * by rewrite Hd, Hdata.
      * rewrite inv_Idle by done. by rewrite Hd.
      * rewrite inv_Polling by done. by rewrite Hd.
Qed.

(** C4 as stated fails, in two ways.  A project is loaded whose only
    document has no status, or an empty one: its status is not terminal,
    yet the poller is idle and no timer fires.  And a callback that a tick
    has started is not cancelled with the interval: here a second tick fires
    while the first refresh is in flight, that refresh then reports the
    only document as [completed] and the poller goes idle, and the second
    callback still issues its request, with every document terminal and no
    interval active. *)
Lemma poller_not_as_stated :
  Forall (λ status,
    let st := run "p1"
                [ProjectLoaded
                   (Sample.projectData [Sample.doc "d1" status] None)]
                mount in
    Exists (λ doc, ¬ Terminal doc) (documents (data st))
    ∧ Idle st ∧ ¬ Polling st
    ∧ ∀ h, step "p1" (IntervalFires h) st = st)
    [None; Some ""]
  ∧
  let st := run "p1"
              [ProjectLoaded
                 (Sample.projectData [Sample.doc "d1" (Some "processing")]
                    None);
               IntervalFires 0; PollTokenSettles (Fulfilled (Some "jwt"));
               IntervalFires 0;
               PollReplySettles
                 (Fulfilled [Sample.doc "d1" (Some "completed")])]
              mount in
  Forall Terminal (documents (data st)) ∧ Idle st ∧
  effectsOf "p1" (PollTokenSettles (Fulfilled (Some "jwt"))) st
    = [Api.ApiClient (Api.Get "/api/project/p1/files" (Some "jwt"))].
Proof.
  split.
  - repeat constructor; try by intros [? | ?].
    all: by intros (? & ? & ?).
  - cbv zeta. split; [|by split]. repeat constructor.
Qed.

(** The same happens when the only document is deleted while the callback
    waits for its token. *)
Remark started_callback_outlives_interval :
  let st := run "p1"
              [ProjectLoaded
                 (Sample.projectData [Sample.doc "d1" (Some "processing")]
                    None);
               IntervalFires 0; DocumentDeleted "d1"] mount in
  Idle st ∧ documents (data st) = [] ∧
  effectsOf "p1" (PollTokenSettles (Fulfilled (Some "jwt"))) st
    = [Api.ApiClient (Api.Get "/api/project/p1/files" (Some "jwt"))].
Proof. by repeat split. Qed.

(** C8. While the poller is polling, a refresh request that fails changes
    nothing but the console: one "Polling error:" line is logged, the
    document collection and the rest of the data are as before, the same
    single interval stays active (the poller is still polling, not idle),
    and its next tick asks for a token and requests the files again,
    still with that one interval. *)
Theorem failed_refresh_keeps_polling projectId err st :
  Polling st →
  0 < awaitingReply st →
  let st' := step projectId (PollReplySettles (Rejected err)) st in
  emitted st st' = [Api.ConsoleError "Polling error:"] ∧
  data st' = data st ∧
  intervals st' = intervals st ∧
  pollCleanup st' = pollCleanup st ∧
  Polling st' ∧ ¬ Idle st' ∧
  ∃ h, intervals st' = [h] ∧
    ∀ tok,
      let next := run projectId
                    [IntervalFires h; PollTokenSettles (Fulfilled tok)] st' in
      emitted st' next
        = [Api.GetToken;
           Api.ApiClient (Api.Get (filesEndpoint projectId) tok)] ∧
      intervals next = [h].
Proof.
  intros (h & Hivs & Hc) Har st'.
  destruct (reply_rejected projectId err st Har) as (Htr & Hd & Hi & Hcl & _).
  fold st' in Htr, Hd, Hi, Hcl.
  split; [by apply project_emitted_app|]. do 3 (split; [done|]).
  split; [exists h; by rewrite Hi, Hcl|].
  split; [unfold Idle; by rewrite Hi, Hivs|].
  exists h. split; [by rewrite Hi|]. intros tok next.
  destruct (tick_requests projectId h tok st') as (Htr' & _ & Hi' & _).
  { rewrite Hi, Hivs. apply list_elem_of_here. }
  fold next in Htr', Hi'.
  split; [by apply project_emitted_app|]. by rewrite Hi', Hi.
Qed.

(** C8, an instance: a project with one document in processing is loaded,
    the interval ticks, the request is issued and answered with 500. *)
Lemma failed_refresh_keeps_polling_witness :
  let st' := step "p1"
               (PollReplySettles
                  (Rejected (Api.httpError 500)))
               Sample.refreshing in
  Polling st' ∧ ¬ Idle st'.
Proof.
  cbv zeta.
  refine (let H := failed_refresh_keeps_polling "p1"
                     (Api.httpError 500)
                     Sample.refreshing _ _ in
          conj (proj1 (proj2 (proj2 (proj2 (proj2 H)))))
               (proj1 (proj2 (proj2 (proj2 (proj2 (proj2 H))))))).
  - by exists 0.
  - vm_compute. lia.
Defined.

(** C6. [handleDraftSettings(updates)] issues no network call and touches no
    timer.  With settings loaded, the draft becomes the merge: every field
    named in [updates] takes its value from there, every other field keeps
    the value it had, and project, chats and documents are untouched.
    With no settings loaded the data is unchanged (the settings stay
    absent); the console gets the log line and, from the updater that the
    setter was handed, the warning. *)
Theorem draft_update_merges updates st :
  let st' := Act.exec (handleDraftSettings updates) st in
  filter Api.is_remote (emitted st st') = [] ∧
  intervals st' = intervals st ∧
  (∀ current, settings (data st) = Some current →
     ∃ draft, settings (data st') = Some draft ∧
       (∀ k v, updates !! k = Some v → draft !! k = Some v) ∧
       (∀ k, updates !! k = None → draft !! k = current !! k) ∧
       project (data st') = project (data st) ∧
       chats (data st') = chats (data st) ∧
       documents (data st') = documents (data st) ∧
       emitted st st'
         = [Api.ConsoleLog "Update local state with draft settings";
            Api.StoreUpdate "data"]) ∧
  (settings (data st) = None →
     data st' = data st ∧ settings (data st') = None ∧
     emitted st st'
       = [Api.ConsoleLog "Update local state with draft settings";
          Api.StoreUpdate "data";
          Api.ConsoleWarn "No existing settings found to update"]).
Proof.
  intros st'. subst st'. unfold emitted. run_handler.
  destruct (settings (data st)) as [current|] eqn:E; cbn;
    rewrite <- ?app_assoc, drop_app_length; cbn.
  - do 2 (split; [done|]). split; [|done].
    intros ? [= <-]. unfold draftUpdater. rewrite E. cbn.
    exists (mergeSettings current updates). split; [done|].
    unfold mergeSettings. split; [|split; [|done]].
    + intros k v Hk. by apply lookup_union_Some_l.
    + intros k Hk. by apply lookup_union_r.
  - do 3 (split; [done|]). intros _.
    unfold draftUpdater. by rewrite E.
Qed.




(** C10. A [handlePublishSettings] call made from a render without settings,
    or without a user identifier, logs its console line and returns: no
    token is requested, no request is issued, no toast is shown, and the
    data, the page error and the timers are as before. *)
Theorem publish_without_settings_is_noop projectId cl net st :
  settings (renderedData cl) = None ∨ truthy (userId cl) = false →
  let st' := Act.exec (handlePublishSettings projectId cl net) st in
  emitted st st' = [Api.ConsoleLog "Make API call to publish settings"] ∧
  data st' = data st ∧ error st' = error st ∧ loading st' = loading st ∧
  intervals st' = intervals st ∧ pollCleanup st' = pollCleanup st.
Proof.
  intros H st'. subst st'. unfold emitted. run_handler.
  destruct (settings (renderedData cl)) as [draft|] eqn:E.
  - destruct H as [H|H]; [done|]. rewrite H. cbn.
    by rewrite drop_app_length.
  - cbn. by rewrite drop_app_length.
Qed.

(** C10, an instance: publishing before the project bundle has arrived. *)
Lemma publish_without_settings_is_noop_witness :
  let cl := mkClosure (Some "user_1") initialData in
  let st' := Act.exec
               (handlePublishSettings "p1" cl
                  (mkRoundTrip (Fulfilled (Some "jwt")) (Fulfilled ())))
               mount in
  emitted mount st' = [Api.ConsoleLog "Make API call to publish settings"] ∧
  data st' = data mount ∧ error st' = error mount.
Proof.
  cbv zeta.
  refine (let H := publish_without_settings_is_noop "p1"
                     (mkClosure (Some "user_1") initialData)
                     (mkRoundTrip (Fulfilled (Some "jwt")) (Fulfilled ()))
                     mount _ in
          conj (proj1 H) (conj (proj1 (proj2 H)) (proj1 (proj2 (proj2 H))))).
  left. reflexivity.
Defined.

End ProjectPageSpec.

(** * Properties of [apiClient] *)

Module ApiClientSpec.

Import Js.

Lemma withAuthorization_spec token headers name v :
  (name, v) ∈ ApiClient.withAuthorization token headers ↔
  (name, v) ∈ headers
  ∨ ∃ tok, token = Some tok ∧ tok ≠ "" ∧ name = "Authorization"
           ∧ v = "Bearer " +:+ tok.
Proof.
  unfold ApiClient.withAuthorization, truthy.
  destruct token as [tok|].
  - case_bool_decide as Htok.
    + rewrite elem_of_app, list_elem_of_singleton. split.
      * intros [?|[= -> ->]]; [by left|right]. by exists tok.
      * intros [?|(? & [= <-] & _ & -> & ->)]; [by left|by right].
    + split; [by left|]. intros [?|(? & [= <-] & ? & _)]; done.
  - split; [by left|]. by intros [?|(? & ? & _)].
Qed.

(** X1. Whatever the method, [apiClient] sends an [Authorization] header
    exactly when it was handed a token that is not empty, and its value is
    then [Bearer] followed by that token; [uploadToS3], which takes no
    token, never sends one to the presigned URL. *)
Theorem authorization_follows_token BASE_URL c v :
  ("Authorization", v) ∈ ApiClient.headers (Wire.request BASE_URL c) ↔
  ∃ tok, Wire.tokenOf c = Some tok ∧ tok ≠ "" ∧ v = "Bearer " +:+ tok.
Proof.
  destruct c as [e t|e d t|e d t|e t|u f]; cbn [Wire.request Wire.tokenOf];
    unfold ApiClient.get, ApiClient.post, ApiClient.put, ApiClient.delete,
      ApiClient.uploadToS3, ApiClient.jsonHeaders; cbn [ApiClient.headers];
    rewrite ?withAuthorization_spec.
  1-4: split;
    [ intros [H|(tok & ? & ? & _ & ?)]; [|by exists tok];
      by (apply elem_of_nil in H || apply list_elem_of_singleton in H)
    | intros (tok & ? & ? & ?); right; by exists tok ].
  split.
  - intros H%list_elem_of_singleton. discriminate.
  - by intros (? & ? & _).
Qed.

End ApiClientSpec.

(** * Properties of the rest of the project page *)

Module ProjectPageFullSpec.

Import Js ProjectPageFull.

(** Unfold a handler down to the record it builds; [truthy] stays folded. *)
Ltac run_page :=
  cbv [loadProjectData loadProjectData_begin loadProjectData_token
       loadProjectData_reply loadCatch loadFinally loadFailure
       handleCreateNewChat handleCreateNewChat_begin
       handleCreateNewChat_token handleCreateNewChat_reply createChatCatch
       createChatFinally createFailure
       handleDeleteChat handleDeleteChat_begin handleDeleteChat_token
       handleDeleteChat_reply deleteChatCatch tripFailure
       handleDocumentDelete handleDocumentDelete_begin
       handleDocumentDelete_token handleDocumentDelete_reply
       documentDeleteCatch
       handleUrlAdd handleUrlAdd_begin handleUrlAdd_token handleUrlAdd_reply
       urlAddCatch urlFailure
       handleDocumentUpload_begin handleDocumentUpload_token
       handleDocumentUpload_settled uploadCatch
       handleChatClick handleOpenDocument closeDocument
       onPage send setData setSelectedDocumentId setIsCreatingChat
       ProjectPage.setData ProjectPage.setLoading ProjectPage.setError
       ProjectPage.emit
       Act.bind Act.ret Act.exec Act.eval];
  cbn.

(** X2. Signed out, neither the loading effect nor any of the five
    handlers for chats and documents ([handleCreateNewChat],
    [handleDeleteChat], [handleDocumentDelete], [handleUrlAdd],
    [handleDocumentUpload]) asks for a token, calls the server, navigates,
    shows a toast or changes the page: the loading effect and the two
    chat handlers do nothing at all, the three document handlers only
    print their first console line.  (The handlers that never call the
    server, [handleChatClick], [handleOpenDocument] and
    [handleDraftSettings], have no such guard and are not meant here.) *)
Theorem signed_out_sends_nothing cl st :
  truthy (userId cl) = false →
  (∀ net, Act.exec (loadProjectData cl net) st = st) ∧
  (∀ net, Act.exec (handleCreateNewChat cl net) st = st) ∧
  (∀ chatId net, Act.exec (handleDeleteChat cl chatId net) st = st) ∧
  (∀ documentId net,
     let st' := Act.exec (handleDocumentDelete cl documentId net) st in
     page st' = page st ∧ sent st st' = [Wire.ConsoleLog "Document Deleted"])
  ∧ (∀ url net,
     let st' := Act.exec (handleUrlAdd cl url net) st in
     page st' = page st ∧ sent st st' = [Wire.ConsoleLog "Add URL"])
  ∧ (∀ jobs tok schedule,
     ∃ st', handleDocumentUpload cl jobs tok schedule st = Some st'
            ∧ page st' = page st
            ∧ sent st st' = [Wire.ConsoleLog "Upload files"]).
Proof.
  intros Hu. destruct st as [p sel creating out].
  repeat split; intros; unfold sent; run_page; rewrite ?Hu; cbn;
    rewrite ?drop_app_length; try done.
  unfold handleDocumentUpload. run_page. rewrite Hu. cbn.
  eexists. split; [done|]. split; [done|]. cbn. by rewrite drop_app_length.
Qed.

Lemma signed_out_sends_nothing_witness :
  Act.exec (handleCreateNewChat Fixture.signedOut
              (mkCreateChatTrip 1700000000000 (Fulfilled (Some "jwt"))
                 (Fulfilled (Wire.Present (Fixture.chatRow "c3")))))
    Fixture.shown
  = Fixture.shown.
Proof.
  exact (proj1 (proj2 (signed_out_sends_nothing Fixture.signedOut
                         Fixture.shown eq_refl)) _).
Defined.

Lemma view_error st message :
  ProjectPage.loading (page st) = false →
  ProjectPage.error (page st) = Some message →
  message ≠ "" →
  view st = NotFound message.
Proof.
  intros Hl He Hm. unfold view. rewrite Hl, He. unfold truthy.
  by rewrite bool_decide_true.
Qed.

(** X3. When the loading effect fails (no token, or the awaited
    [Promise.all] of the four requests rejects), nothing of what was
    fetched is used: the data, the timers and the store trace are as they
    were, loading is over, the message of the error (or
    "Failed to fetch data") is the page error and the one toast, and with
    a message that is not empty the page renders the error view. *)
Theorem load_failure_keeps_page cl net err st :
  truthy (userId cl) = true →
  loadFailure net = Some err →
  let st' := Act.exec (loadProjectData cl net) st in
  let message := messageOr err "Failed to fetch data" in
  ProjectPage.data (page st') = ProjectPage.data (page st) ∧
  ProjectPage.intervals (page st') = ProjectPage.intervals (page st) ∧
  ProjectPage.pollCleanup (page st') = ProjectPage.pollCleanup (page st) ∧
  ProjectPage.trace (page st') = ProjectPage.trace (page st) ∧
  ProjectPage.loading (page st') = false ∧
  ProjectPage.error (page st') = Some message ∧
  (∃ requests, sent st st'
               = Wire.GetToken :: requests ++ [Wire.ToastError message]
             ∧ Forall (λ e, Wire.is_call e = true) requests) ∧
  (message ≠ "" → view st' = NotFound message).
Proof.
  intros Hu Hfail st' message.
  assert (ProjectPage.loading (page st') = false
          ∧ ProjectPage.error (page st') = Some message
          ∧ ProjectPage.data (page st') = ProjectPage.data (page st)
          ∧ ProjectPage.intervals (page st')
            = ProjectPage.intervals (page st)
          ∧ ProjectPage.pollCleanup (page st')
            = ProjectPage.pollCleanup (page st)
          ∧ ProjectPage.trace (page st') = ProjectPage.trace (page st)
          ∧ ∃ requests, sent st st'
               = Wire.GetToken :: requests ++ [Wire.ToastError message]
             ∧ Forall (λ e, Wire.is_call e = true) requests)
    as (Hl & He & Hd & Hi & Hc & Ht & Hs).
  { subst st' message. destruct net as [tok reply].
    destruct st as [[d l e ivs next c at_ ar tr] sel creating out].
    unfold sent. revert Hfail. run_page. rewrite Hu. cbn.
    destruct tok as [tok|err']; cbn.
    - destruct reply as [b|err']; [done|]. intros [= ->]. cbn.
      repeat split; try done.
      eexists [_; _; _; _]. rewrite <- !app_assoc, drop_app_length. cbn.
      split; [done|]. by repeat constructor.
    - intros [= ->]. cbn. repeat split; try done.
      exists []. rewrite <- !app_assoc, drop_app_length. by split. }
  repeat split; try done. intros Hm. by apply view_error.
Qed.

Lemma load_failure_keeps_page_witness :
  view (Act.exec (loadProjectData Fixture.signedIn
                    (mkLoadTrip (Fulfilled (Some "jwt"))
                       (Rejected (Api.httpError 404))))
          Fixture.shown)
  = NotFound "HTTP error! status: 404".
Proof.
  refine (proj2 (proj2 (proj2 (proj2 (proj2 (proj2 (proj2
    (load_failure_keeps_page Fixture.signedIn
       (mkLoadTrip (Fulfilled (Some "jwt")) (Rejected (Api.httpError 404)))
       (Api.httpError 404) Fixture.shown eq_refl eq_refl))))))) _).
  vm_compute. discriminate.
Defined.

(** X4. A chat creation that succeeds navigates to the new chat's page
    before it updates the store, and only then shows its toast: what the
    handler does, in order, is the token request, one POST to
    [/api/chat/create] with the title and the project id, the navigation,
    the update of the data and the success toast.  The update puts the
    saved chat in front of the chats it finds; project, documents,
    settings, timers and the page error are as they were, and the
    creating flag is down again. *)
Theorem create_chat_navigates_then_prepends cl now tok savedChat st :
  truthy (userId cl) = true →
  let net := mkCreateChatTrip now (Fulfilled tok)
               (Fulfilled (Wire.Present savedChat)) in
  let st' := Act.exec (handleCreateNewChat cl net) st in
  ProjectPage.data (page st')
  = with_chats (savedChat :: ProjectPage.chats (ProjectPage.data (page st)))
      (ProjectPage.data (page st)) ∧
  ProjectPage.intervals (page st') = ProjectPage.intervals (page st) ∧
  ProjectPage.pollCleanup (page st') = ProjectPage.pollCleanup (page st) ∧
  ProjectPage.error (page st') = ProjectPage.error (page st) ∧
  ProjectPage.loading (page st') = ProjectPage.loading (page st) ∧
  isCreatingChat st' = false ∧
  sent st st'
  = [Wire.GetToken;
     Wire.ApiClient
       (Wire.Post "/api/chat/create"
          [("title", Json.Str (chatTitle now));
           ("project_id", Json.Str (projectId cl))] tok);
     Wire.RouterPush
       ("/projects/" +:+ projectId cl +:+ "/chats/" +:+ Chat.id savedChat);
     Wire.StoreUpdate "data";
     Wire.ToastSuccess "Chat Created successfully"] ∧
  ProjectPage.emitted (page st) (page st') = [Api.StoreUpdate "data"].
Proof.
  intros Hu net st'. subst net st'.
  destruct st as [[d l e ivs next c at_ ar tr] sel creating out].
  unfold sent, ProjectPage.emitted. run_page. rewrite Hu. cbn.
  repeat split; try done.
  - by rewrite <- !app_assoc, drop_app_length.
  - by rewrite drop_app_length.
Qed.

Lemma create_chat_navigates_then_prepends_witness :
  ProjectPage.chats
    (ProjectPage.data
       (page (Act.exec
                (handleCreateNewChat Fixture.signedIn
                   (mkCreateChatTrip 1700000012345 (Fulfilled (Some "jwt"))
                      (Fulfilled (Wire.Present (Fixture.chatRow "c3")))))
                Fixture.shown)))
  = [Fixture.chatRow "c3"; Fixture.chatRow "c1"; Fixture.chatRow "c2"].
Proof.
  exact (f_equal ProjectPage.chats
           (proj1 (create_chat_navigates_then_prepends Fixture.signedIn
                     1700000012345 (Some "jwt") (Fixture.chatRow "c3")
                     Fixture.shown eq_refl))).
Defined.

(** X5. A chat creation that fails (no token, a rejected request, or a
    response without [data], whose [id] cannot be read) never navigates
    and leaves the data and the timers as they were, but it makes its
    message the page error: with a message that is not empty, the whole
    project page is replaced by the error view once loading is over. The
    creating flag is down again. *)
Theorem create_chat_failure_replaces_page cl net err st :
  truthy (userId cl) = true →
  createFailure net = Some err →
  let st' := Act.exec (handleCreateNewChat cl net) st in
  let message := messageOr err "Failed to create chat" in
  ProjectPage.data (page st') = ProjectPage.data (page st) ∧
  ProjectPage.intervals (page st') = ProjectPage.intervals (page st) ∧
  ProjectPage.pollCleanup (page st') = ProjectPage.pollCleanup (page st) ∧
  ProjectPage.error (page st') = Some message ∧
  isCreatingChat st' = false ∧
  Forall (λ e, Wire.is_navigation e = false) (sent st st') ∧
  last (sent st st') = Some (Wire.ToastError message) ∧
  (ProjectPage.loading (page st) = false → message ≠ "" →
   view st' = NotFound message).
Proof.
  intros Hu Hfail st' message.
  assert (ProjectPage.loading (page st') = ProjectPage.loading (page st)
          ∧ ProjectPage.error (page st') = Some message
          ∧ ProjectPage.data (page st') = ProjectPage.data (page st)
          ∧ ProjectPage.intervals (page st')
            = ProjectPage.intervals (page st)
          ∧ ProjectPage.pollCleanup (page st')
            = ProjectPage.pollCleanup (page st)
          ∧ isCreatingChat st' = false
          ∧ Forall (λ e, Wire.is_navigation e = false) (sent st st')
          ∧ last (sent st st') = Some (Wire.ToastError message))
    as (Hl & He & Hd & Hi & Hc & Hcr & Hn & Hs).
  { subst st' message. destruct net as [now tok reply].
    destruct st as [[d l e ivs next c at_ ar tr] sel creating out].
    unfold sent. revert Hfail. run_page. rewrite Hu. cbn.
    destruct tok as [tok|err']; cbn.
    - destruct reply as [[saved|typeError]|err']; [done| |];
        intros [= <-]; cbn; rewrite <- !app_assoc, drop_app_length;
        repeat split; try done; by repeat constructor.
    - intros [= ->]. cbn. rewrite <- !app_assoc, drop_app_length.
      repeat split; try done; by repeat constructor. }
  repeat split; try done. intros Hload Hm.
  apply view_error; [congruence|done|done].
Qed.

Lemma create_chat_failure_replaces_page_witness :
  view (Act.exec
          (handleCreateNewChat Fixture.signedIn
             (mkCreateChatTrip 1700000012345 (Fulfilled (Some "jwt"))
                (Rejected (Api.httpError 500))))
          Fixture.shown)
  = NotFound "HTTP error! status: 500".
Proof.
  refine (proj2 (proj2 (proj2 (proj2 (proj2 (proj2 (proj2
    (create_chat_failure_replaces_page Fixture.signedIn
       (mkCreateChatTrip 1700000012345 (Fulfilled (Some "jwt"))
          (Rejected (Api.httpError 500)))
       (Api.httpError 500) Fixture.shown eq_refl eq_refl))))))) eq_refl _).
  vm_compute. discriminate.
Defined.

(** X6. The title given to a new chat depends on the clock only through
    its last four decimal digits: two creations get the same title exactly
    when their millisecond clock values agree modulo 10000. *)
Theorem chat_title_is_clock_modulo_10000 now1 now2 :
  chatTitle now1 = chatTitle now2 ↔ (now1 `mod` 10000 = now2 `mod` 10000)%N.
Proof.
  unfold chatTitle. split.
  - intros H. apply (inj (String.append "Chat #")) in H.
    by apply (inj pretty) in H.
  - by intros ->.
Qed.

(** X7. Deleting a chat touches nothing but the chats: on success
    exactly the chats with that id are gone and the others stay in order;
    on failure (no token or a rejected request) the data is as it was and
    the message is only toasted. In both cases the documents, the
    settings, the timers and the page error are as they were, so a failed
    deletion never replaces the page by the error view. *)
Theorem delete_chat_touches_only_chats cl chatId net st :
  truthy (userId cl) = true →
  let st' := Act.exec (handleDeleteChat cl chatId net) st in
  let before := ProjectPage.data (page st) in
  match tripFailure net with
  | None =>
      ProjectPage.data (page st')
      = with_chats
          (filter (λ chat, Chat.id chat ≠ chatId) (ProjectPage.chats before))
          before
      ∧ last (sent st st') = Some (Wire.ToastSuccess "Chat deleted successfully")
  | Some err =>
      ProjectPage.data (page st') = before
      ∧ last (sent st st')
        = Some (Wire.ToastError (messageOr err "Failed to delete chat"))
  end ∧
  ProjectPage.error (page st') = ProjectPage.error (page st) ∧
  ProjectPage.loading (page st') = ProjectPage.loading (page st) ∧
  ProjectPage.intervals (page st') = ProjectPage.intervals (page st) ∧
  ProjectPage.pollCleanup (page st') = ProjectPage.pollCleanup (page st) ∧
  view st' = match view st with
             | Workspace _ _ =>
                 Workspace (ProjectPage.data (page st')) (selectedDocument st)
             | other => other
             end.
Proof.
  intros Hu st' before. subst st' before. destruct net as [tok reply].
  destruct st as [[d l e ivs next c at_ ar tr] sel creating out].
  unfold sent, view, selectedDocument. run_page. rewrite Hu. cbn.
  destruct tok as [tok|err]; cbn; [destruct reply as [[]|err]; cbn|];
    rewrite <- ?app_assoc, drop_app_length; cbn;
    (repeat split; try done);
    destruct l; try done; destruct e as [m|]; try done;
    by destruct (bool_decide (m ≠ "")).
Qed.

Lemma delete_chat_touches_only_chats_witness :
  ProjectPage.chats
    (ProjectPage.data
       (page (Act.exec
                (handleDeleteChat Fixture.signedIn "c1"
                   (mkTrip (Fulfilled (Some "jwt")) (Fulfilled tt)))
                Fixture.shown)))
  = [Fixture.chatRow "c2"].
Proof.
  exact (f_equal ProjectPage.chats
           (proj1 (proj1 (delete_chat_touches_only_chats Fixture.signedIn
                            "c1"
                            (mkTrip (Fulfilled (Some "jwt")) (Fulfilled tt))
                            Fixture.shown eq_refl)))).
Defined.

(** X8. The status of a refused document deletion reaches the user: when
    the server answers the DELETE with a response that is not [ok],
    [apiClient.delete] throws and the handler toasts exactly
    "HTTP error! status: " followed by the status; the page (documents,
    timers, error) is as it was, and what left it is the console line,
    the token request, the one DELETE for that document of that project,
    and the toast. *)
Theorem document_delete_refusal_is_toasted cl documentId tok response st :
  truthy (userId cl) = true →
  ApiClient.ok response = false →
  let net := mkTrip (Fulfilled tok)
               (ApiClient.returned (Fulfilled response)) in
  let st' := Act.exec (handleDocumentDelete cl documentId net) st in
  page st' = page st ∧
  sent st st'
  = [Wire.ConsoleLog "Document Deleted"; Wire.GetToken;
     Wire.ApiClient
       (Wire.Delete
          ("/api/project/" +:+ projectId cl +:+ "/files/delete/"
             +:+ documentId) tok);
     Wire.ToastError
       ("HTTP error! status: " +:+ pretty (ApiClient.status response))].
Proof.
  intros Hu Hok net st'. subst net st'.
  destruct st as [p sel creating out].
  unfold sent, ApiClient.returned, ApiClient.settle. rewrite Hok.
  run_page. rewrite Hu. cbn.
  split; [done|]. by rewrite <- !app_assoc, drop_app_length.
Qed.

Lemma document_delete_refusal_is_toasted_witness :
  sent Fixture.shown
    (Act.exec
       (handleDocumentDelete Fixture.signedIn "d1"
          (mkTrip (Fulfilled (Some "jwt"))
             (ApiClient.returned (Fulfilled (Fixture.notOk 403)))))
       Fixture.shown)
  = [Wire.ConsoleLog "Document Deleted"; Wire.GetToken;
     Wire.ApiClient
       (Wire.Delete "/api/project/p1/files/delete/d1" (Some "jwt"));
     Wire.ToastError "HTTP error! status: 403"].
Proof.
  exact (proj2 (document_delete_refusal_is_toasted Fixture.signedIn "d1"
                  (Some "jwt") (Fixture.notOk 403) Fixture.shown
                  eq_refl eq_refl)).
Defined.

Lemma find_first {A} (pred : A → bool) (arr : list A) :
  match find pred arr with
  | Some a =>
      ∃ l1 l2, arr = l1 ++ a :: l2 ∧ pred a = true
               ∧ Forall (λ x, pred x = false) l1
  | None => Forall (λ x, pred x = false) arr
  end.
Proof.
  unfold find. induction arr as [|x arr IH]; [by constructor|].
  rewrite filter_cons. destruct (pred x) eqn:E.
  - rewrite decide_True by done. cbn. by exists [], arr.
  - rewrite decide_False by done.
    destruct (head (base.filter (λ a, pred a = true) arr)) as [a|].
    + destruct IH as (l1 & l2 & -> & Ha & Hl1).
      exists (x :: l1), l2. repeat split; [done|]. by constructor.
    + by constructor.
Qed.

(** X9. The document shown in the details modal is the first document of
    the collection whose id is the selected one, and there is a modal
    exactly when the selected id is not empty and some document bears it:
    a selected document that is no longer in the collection has no modal,
    although its id stays selected. *)
Theorem modal_shows_first_matching_document st :
  let docs := ProjectPage.documents (ProjectPage.data (page st)) in
  match selectedDocument st with
  | Some doc =>
      selectedDocumentId st = Some (ProjectDocument.id doc)
      ∧ ProjectDocument.id doc ≠ ""
      ∧ ∃ before after,
          docs = before ++ doc :: after
          ∧ Forall (λ other, ProjectDocument.id other ≠ ProjectDocument.id doc)
              before
  | None =>
      ∀ wanted, selectedDocumentId st = Some wanted → wanted ≠ "" →
                Forall (λ other, ProjectDocument.id other ≠ wanted) docs
  end.
Proof.
  intros docs. subst docs. unfold selectedDocument.
  destruct (selectedDocumentId st) as [wanted|]; [|by intros ? [=]].
  unfold truthy. case_bool_decide as Hw; [|by intros ? [= <-]].
  match goal with |- context [find ?p ?l] => pose proof (find_first p l) as H end.
  destruct (find _ _) as [doc|].
  - destruct H as (l1 & l2 & Hd & Hid%bool_decide_eq_true & Hl1).
    subst wanted. repeat split; [done|]. exists l1, l2. split; [done|].
    eapply Forall_impl; [exact Hl1|]. intros other Ho.
    by apply bool_decide_eq_false in Ho.
  - intros ? [= <-] _. eapply Forall_impl; [exact H|]. intros other Ho.
    by apply bool_decide_eq_false in Ho.
Qed.

Lemma onPage_exec {A} (m : Act.t ProjectPage.State A) st :
  page (Act.exec (onPage m) st) = Act.exec m (page st)
  ∧ selectedDocumentId (Act.exec (onPage m) st) = selectedDocumentId st
  ∧ isCreatingChat (Act.exec (onPage m) st) = isCreatingChat st
  ∧ outbox (Act.exec (onPage m) st) = outbox st.
Proof. unfold onPage, Act.exec. by destruct (m (page st)). Qed.

Lemma filter_processing documentId docs :
  ProjectPage.hasProcessingDocuments
    (filter (λ doc, ProjectDocument.id doc ≠ documentId) docs) = false
  ↔ Forall (λ doc, ProjectDocument.id doc = documentId
                   ∨ ProjectPage.isProcessing doc = false) docs.
Proof.
  unfold ProjectPage.hasProcessingDocuments.
  induction docs as [|doc docs IH]; [by split; [constructor|]|].
  rewrite filter_cons, Forall_cons. case_decide as Hid.
  - cbn. rewrite orb_false_iff, IH. split.
    + intros [? ?]. split; [by right|done].
    + intros [[?|?] ?]; done.
  - rewrite IH. split; [by split; [left|]|by intros [_ ?]].
Qed.

Lemma selected_after_delete documentId docs :
  find (λ doc, bool_decide (ProjectDocument.id doc = documentId))
    (filter (λ doc, ProjectDocument.id doc ≠ documentId) docs) = None.
Proof.
  match goal with |- find ?p ?l = _ => pose proof (find_first p l) as H end.
  destruct (find _ _) as [doc|]; [|done].
  destruct H as (l1 & l2 & Hd & Hid%bool_decide_eq_true & _).
  assert (doc ∈ filter (λ doc, ProjectDocument.id doc ≠ documentId) docs)
    as [Hne _]%list_elem_of_filter.
  { rewrite Hd. apply elem_of_app. right. apply list_elem_of_here. }
  done.
Qed.

(** A change of the documents in [ProjectPage]: the updater is
    applied, the poller invariant holds afterwards. *)
Lemma changed_spec (updater : ProjectPage.ProjectData → ProjectPage.ProjectData)
    (e : Api.Effect) p :
  ProjectPage.intervals p = option_list (ProjectPage.pollCleanup p) →
  let p' := Act.exec (Act.bind (ProjectPage.setData updater)
                        (λ _, Act.bind (ProjectPage.emit e)
                                (λ _, ProjectPage.documentsChanged))) p in
  ProjectPage.PollerInv p'
  ∧ ProjectPage.data p' = updater (ProjectPage.data p)
  ∧ ProjectPage.loading p' = ProjectPage.loading p
  ∧ ProjectPage.error p' = ProjectPage.error p
  ∧ ProjectPage.trace p'
    = ProjectPage.trace p ++ [Api.StoreUpdate "data"; e].
Proof.
  intros Hreg. destruct p as [d l er ivs next c at_ ar tr]. cbn in Hreg.
  unfold Act.exec, Act.bind, ProjectPage.setData, ProjectPage.emit. cbn.
  match goal with
  | |- context [ProjectPage.documentsChanged ?s] =>
      destruct (ProjectPageSpec.documentsChanged_spec s Hreg)
        as (Hinv & Hd & Ht & Hl & He & _)
  end.
  unfold Act.exec in *. cbn in *.
  rewrite Hd, Ht, Hl, He. repeat split; try done; [apply Hinv..|].
  by rewrite <- app_assoc.
Qed.

Lemma document_delete_success cl documentId tok st :
  truthy (userId cl) = true →
  Act.exec (handleDocumentDelete cl documentId
              (mkTrip (Fulfilled tok) (Fulfilled tt))) st
  = mkState (Act.exec (ProjectPage.documentDeleted documentId) (page st))
      (selectedDocumentId st) (isCreatingChat st)
      (outbox st
         ++ [Wire.ConsoleLog "Document Deleted"; Wire.GetToken;
             Wire.ApiClient
               (Wire.Delete
                  (projectEndpoint cl ("/files/delete/" +:+ documentId))
                  tok)]).
Proof.
  intros Hu. destruct st as [p sel creating out].
  cbv [handleDocumentDelete handleDocumentDelete_begin
       handleDocumentDelete_token handleDocumentDelete_reply onPage send
       Act.exec Act.bind Act.ret tripToken tripReply
       page selectedDocumentId isCreatingChat outbox].
  rewrite Hu.
  destruct (ProjectPage.documentDeleted documentId p). cbn.
  by rewrite <- !app_assoc.
Qed.

(** X10. A document deletion that succeeds removes exactly the documents
    with that id (chats, settings and project stay), runs the polling
    effect again so that the poller invariant still holds, leaves the
    poller idle exactly when no remaining document is being processed,
    and closes the details modal if it showed the deleted document. *)
Theorem document_delete_updates_poller_and_modal cl documentId tok st :
  truthy (userId cl) = true →
  ProjectPage.PollerInv (page st) →
  let net := mkTrip (Fulfilled tok) (Fulfilled tt) in
  let st' := Act.exec (handleDocumentDelete cl documentId net) st in
  let before := ProjectPage.data (page st) in
  ProjectPage.data (page st')
  = ProjectPage.with_documents
      (filter (λ doc, ProjectDocument.id doc ≠ documentId)
         (ProjectPage.documents before))
      before ∧
  ProjectPage.PollerInv (page st') ∧
  (ProjectPage.Idle (page st') ↔
   Forall (λ doc, ProjectDocument.id doc = documentId
                  ∨ ProjectPage.isProcessing doc = false)
     (ProjectPage.documents before)) ∧
  (selectedDocumentId st = Some documentId → selectedDocument st' = None).
Proof.
  intros Hu [Hreg _] net st' before. subst net st' before.
  rewrite (document_delete_success _ _ _ _ Hu).
  unfold selectedDocument. cbn [page selectedDocumentId].
  destruct (changed_spec
              (λ previousData,
                 ProjectPage.with_documents
                   (filter (λ doc, ProjectDocument.id doc ≠ documentId)
                      (ProjectPage.documents previousData))
                   previousData)
              (Api.ToastSuccess "Document deleted successfully")
              (page st) Hreg) as (Hinv & Hd & _).
  cbv zeta in Hinv, Hd. fold (ProjectPage.documentDeleted documentId) in Hinv, Hd.
  split; [done|]. split; [done|]. split.
  - rewrite (ProjectPageSpec.inv_Idle _ Hinv), Hd. cbn.
    apply filter_processing.
  - intros ->. unfold truthy. case_bool_decide; [|done].
    rewrite Hd. cbn. apply selected_after_delete.
Qed.

Lemma document_delete_updates_poller_and_modal_witness :
  ProjectPage.Idle
    (page (Act.exec
             (handleDocumentDelete Fixture.signedIn "d1"
                (mkTrip (Fulfilled (Some "jwt")) (Fulfilled tt)))
             Fixture.shown)).
Proof.
  apply (proj1 (proj2 (proj2
    (document_delete_updates_poller_and_modal Fixture.signedIn "d1"
       (Some "jwt") Fixture.shown eq_refl
       (conj eq_refl eq_refl))))).
  repeat constructor; by (left + right).
Defined.

Lemma url_add_success cl url tok doc st :
  truthy (userId cl) = true →
  Act.exec (handleUrlAdd cl url
              (mkUrlTrip (Fulfilled tok) (Fulfilled (Wire.Present doc)))) st
  = mkState (Act.exec (ProjectPage.urlAdded doc) (page st))
      (selectedDocumentId st) (isCreatingChat st)
      (outbox st
         ++ [Wire.ConsoleLog "Add URL"; Wire.GetToken;
             Wire.ApiClient
               (Wire.Post (projectEndpoint cl "/files/process-url")
                  [("url", Json.Str url);
                   ("project_id", Json.Str (projectId cl))] tok)]).
Proof.
  intros Hu. destruct st as [p sel creating out].
  cbv [handleUrlAdd handleUrlAdd_begin handleUrlAdd_token
       handleUrlAdd_reply onPage send Act.exec Act.bind Act.ret
       urlToken urlReply page selectedDocumentId isCreatingChat outbox].
  rewrite Hu.
  destruct (ProjectPage.urlAdded doc p). cbn. by rewrite <- !app_assoc.
Qed.

(** X11. Adding a URL, once the server has created the document, puts it
    in front of the documents and runs the polling effect again: the
    poller invariant holds, and a new document that is being processed
    leaves the page polling with one interval, whatever it did before.
    What left the page is the console line, the token request and one
    POST to the project's [files/process-url] with the URL and the
    project id. When the call fails instead (no token, a rejected request
    or a response without [data]) the page is as it was and the message
    is toasted. *)
Theorem url_add_starts_polling cl url net st :
  truthy (userId cl) = true →
  ProjectPage.PollerInv (page st) →
  let st' := Act.exec (handleUrlAdd cl url net) st in
  match urlToken net, urlReply net with
  | Fulfilled tok, Fulfilled (Wire.Present doc) =>
      ProjectPage.documents (ProjectPage.data (page st'))
      = doc :: ProjectPage.documents (ProjectPage.data (page st))
      ∧ ProjectPage.PollerInv (page st')
      ∧ (ProjectPage.isProcessing doc = true → ProjectPage.Polling (page st'))
      ∧ sent st st'
        = [Wire.ConsoleLog "Add URL"; Wire.GetToken;
           Wire.ApiClient
             (Wire.Post
                ("/api/project/" +:+ projectId cl +:+ "/files/process-url")
                [("url", Json.Str url);
                 ("project_id", Json.Str (projectId cl))] tok)]
  | _, _ =>
      page st' = page st
      ∧ ∃ err, urlFailure net = Some err
               ∧ last (sent st st')
                 = Some (Wire.ToastError
                           (messageOr err "Failed to process URL"))
  end.
Proof.
  intros Hu [Hreg _] st'. subst st'. destruct net as [tok reply].
  cbn [urlToken urlReply].
  destruct tok as [tok|err]; [destruct reply as [[doc|typeError]|err]|].
  - rewrite (url_add_success _ _ _ _ _ Hu). cbn [page].
    destruct (changed_spec
                (λ previousData,
                   ProjectPage.with_documents
                     (doc :: ProjectPage.documents previousData) previousData)
                (Api.ToastSuccess "Website is being processed...")
                (page st) Hreg) as (Hinv & Hd & _).
    cbv zeta in Hinv, Hd. fold (ProjectPage.urlAdded doc) in Hinv, Hd.
    split; [by rewrite Hd|]. split; [done|]. split.
    + intros Hp. apply (ProjectPageSpec.inv_Polling _ Hinv).
      rewrite Hd. cbn. by rewrite Hp.
    + unfold sent. cbn. by rewrite drop_app_length.
  - destruct st as [p sel creating out]. unfold sent. run_page.
    rewrite Hu. cbn. split; [done|]. eexists. split; [done|].
    by rewrite <- !app_assoc, drop_app_length.
  - destruct st as [p sel creating out]. unfold sent. run_page.
    rewrite Hu. cbn. split; [done|]. eexists. split; [done|].
    by rewrite <- !app_assoc, drop_app_length.
  - destruct st as [p sel creating out]. unfold sent. run_page.
    rewrite Hu. cbn. split; [done|]. eexists. split; [done|].
    by rewrite <- !app_assoc, drop_app_length.
Qed.

Lemma url_add_starts_polling_witness :
  ProjectPage.Polling
    (page (Act.exec
             (handleUrlAdd Fixture.signedIn "https://example.com"
                (mkUrlTrip (Fulfilled (Some "jwt"))
                   (Fulfilled
                      (Wire.Present (Sample.doc "d3" (Some "queued"))))))
             (mkState Sample.editing None false []))).
Proof.
  exact (proj1 (proj2 (proj2
    (url_add_starts_polling Fixture.signedIn "https://example.com"
       (mkUrlTrip (Fulfilled (Some "jwt"))
          (Fulfilled (Wire.Present (Sample.doc "d3" (Some "queued")))))
       (mkState Sample.editing None false []) eq_refl
       (conj eq_refl eq_refl)))) eq_refl).
Defined.

(** *** The whole page *)

Lemma sendAll_spec es st :
  Act.exec (sendAll es) st
  = mkState (page st) (selectedDocumentId st) (isCreatingChat st)
      (outbox st ++ es).
Proof.
  revert st. induction es as [|e es IH]; intros [p sel creating out].
  - cbn. by rewrite app_nil_r.
  - cbn [sendAll]. unfold Act.exec, Act.bind, send in *. cbn.
    rewrite IH. cbn. by rewrite <- app_assoc.
Qed.

(** On what the poller depends on (the timers and the documents), an
    event of the whole page is an event of [ProjectPage] or changes
    nothing. *)
Lemma step_poller projectId ev st :
  (∃ ev', page (step projectId ev st)
          = ProjectPage.step projectId ev' (page st))
  ∨ (ProjectPage.intervals (page (step projectId ev st))
     = ProjectPage.intervals (page st)
     ∧ ProjectPage.pollCleanup (page (step projectId ev st))
       = ProjectPage.pollCleanup (page st)
     ∧ ProjectPage.documents (ProjectPage.data (page (step projectId ev st)))
       = ProjectPage.documents (ProjectPage.data (page st))).
Proof.
  destruct ev; cbn [step].
  - left. exists ev. by destruct st.
  - right. destruct st as [[]]. run_page. by destruct (truthy _).
  - right. destruct st as [[]]. run_page. by destruct token.
  - destruct reply as [bundle|err].
    + left. exists (ProjectPage.ProjectLoaded bundle).
      cbn [loadProjectData_reply ProjectPage.step].
      by destruct (onPage_exec (ProjectPage.projectLoaded bundle) st) as [-> _].
    + right. destruct st as [[]]. by run_page.
  - right. destruct st as [[]]. run_page. by destruct (truthy _).
  - right. destruct st as [[]]. run_page. by destruct token.
  - right. destruct st as [[]]. run_page. by destruct reply as [[]|].
  - right. destruct st as [[]]. run_page. by destruct (truthy _).
  - right. destruct st as [[]]. run_page. by destruct token.
  - right. destruct st as [[]]. run_page. by destruct reply.
  - right. destruct st as [[]]. run_page. by destruct (truthy _).
  - right. destruct st as [[]]. run_page. by destruct token.
  - destruct reply as [[]|err].
    + left. exists (ProjectPage.DocumentDeleted documentId).
      cbn [handleDocumentDelete_reply ProjectPage.step].
      by destruct (onPage_exec (ProjectPage.documentDeleted documentId) st)
        as [-> _].
    + right. destruct st as [[]]. by run_page.
  - right. destruct st as [[]]. run_page. by destruct (truthy _).
  - right. destruct st as [[]]. run_page. by destruct token.
  - destruct reply as [[doc|typeError]|err].
    + left. exists (ProjectPage.UrlAdded doc).
      cbn [handleUrlAdd_reply ProjectPage.step].
      by destruct (onPage_exec (ProjectPage.urlAdded doc) st) as [-> _].
    + right. destruct st as [[]]. by run_page.
    + right. destruct st as [[]]. by run_page.
  - right. destruct st as [[]]. run_page. by destruct (truthy _).
  - right. destruct token as [tok|err].
    + unfold handleDocumentUpload_token, Act.exec, Act.bind, Act.ret.
      match goal with
      | |- context [sendAll ?es st] =>
          pose proof (sendAll_spec es st) as H; unfold Act.exec in H;
          destruct (sendAll es st) as [[] s]; cbn in H; subst s
      end.
      done.
    + destruct st as [[]]. by run_page.
  - right. by rewrite sendAll_spec.
  - destruct docs as [|doc docs].
    + right. by destruct st.
    + left. exists (ProjectPage.DocumentsUploaded (doc :: docs)).
      cbn [handleDocumentUpload_settled ProjectPage.step].
      by destruct (onPage_exec
                     (ProjectPage.documentsUploaded (doc :: docs)) st)
        as [-> _].
  - right. destruct st as [[]]. cbn [page].
    unfold onPage, Act.exec, ProjectPage.handlePublishSettings_begin,
      ProjectPage.emit, Act.bind, Act.ret. cbn.
    destruct (ProjectPage.settings _); [|done].
    by destruct (truthy _).
  - right. destruct st as [[]].
    unfold onPage, Act.exec, ProjectPage.handlePublishSettings_token,
      ProjectPage.publishCatch, ProjectPage.setError,
      ProjectPage.emit, Act.bind, Act.ret. cbn.
    by destruct token.
  - right. destruct st as [[]].
    unfold onPage, Act.exec, ProjectPage.handlePublishSettings_reply,
      ProjectPage.publishCatch, ProjectPage.setError,
      ProjectPage.emit, Act.bind, Act.ret. cbn.
    by destruct reply.
  - right. destruct st as [[]]. by run_page.
  - right. destruct st as [[]]. by run_page.
  - right. destruct st as [[]]. by run_page.
Qed.

Lemma full_step_inv projectId ev st :
  ProjectPage.PollerInv (page st) →
  ProjectPage.PollerInv (page (step projectId ev st)).
Proof.
  intros Hinv. destruct (step_poller projectId ev st) as [[ev' ->]|(Hi & Hc & Hd)].
  - by apply ProjectPageSpec.step_inv.
  - destruct Hinv as [Hreg Hdocs]. unfold ProjectPage.PollerInv.
    by rewrite Hi, Hc, Hd.
Qed.

Lemma full_run_inv projectId evs st :
  ProjectPage.PollerInv (page st) →
  ProjectPage.PollerInv (page (run projectId evs st)).
Proof.
  unfold run. revert st.
  induction evs as [|ev evs IH]; intros st H; [done|].
  cbn [foldl]. by apply IH, full_step_inv.
Qed.

(** X12. Whatever the handlers of the page do and in whatever order their
    segments run, from the first commit on the browser holds exactly the
    interval the polling effect registered for cleanup, at most one, and
    it holds one exactly when some document is being processed: no
    handler leaks a timer, starts a second one, or leaves the page
    polling for nothing. *)
Theorem whole_page_keeps_one_poller projectId evs :
  let st := page (run projectId evs mount) in
  let docs := ProjectPage.documents (ProjectPage.data st) in
  ProjectPage.PollerInv st ∧
  length (ProjectPage.intervals st) ≤ 1 ∧
  (ProjectPage.Idle st ↔ ProjectPage.hasProcessingDocuments docs = false) ∧
  (ProjectPage.Polling st ↔ ProjectPage.hasProcessingDocuments docs = true).
Proof.
  intros st docs.
  assert (ProjectPage.PollerInv st) as Hinv.
  { apply full_run_inv. exact ProjectPageSpec.mount_inv. }
  split; [done|]. split.
  - destruct Hinv as [-> _]. destruct (ProjectPage.pollCleanup st); cbn; lia.
  - split; [by apply ProjectPageSpec.inv_Idle|by apply ProjectPageSpec.inv_Polling].
Qed.

Lemma documentsChanged_frame p :
  let p' := Act.exec ProjectPage.documentsChanged p in
  ProjectPage.data p' = ProjectPage.data p
  ∧ ProjectPage.trace p' = ProjectPage.trace p
  ∧ ProjectPage.loading p' = ProjectPage.loading p
  ∧ ProjectPage.error p' = ProjectPage.error p.
Proof.
  destruct p as [d l e ivs next [h|] at_ ar tr];
    unfold ProjectPage.documentsChanged, ProjectPage.runCleanup,
      ProjectPage.pollingEffect, Act.exec, Act.bind; cbn;
    by destruct (ProjectPage.hasProcessingDocuments _).
Qed.

Lemma documentsChanged_error p :
  ProjectPage.error (Act.exec ProjectPage.documentsChanged p)
  = ProjectPage.error p.
Proof. apply documentsChanged_frame. Qed.

Lemma poller_step_error projectId ev p :
  ProjectPage.error (ProjectPage.step projectId ev p) = ProjectPage.error p.
Proof.
  destruct ev as [h|tok|reply|bundle|docs|documentId|doc|updates];
    cbn [ProjectPage.step].
  - destruct (bool_decide _); [|done]. by destruct p.
  - destruct (ProjectPage.awaitingToken p); [done|].
    destruct p. by destruct tok.
  - destruct (ProjectPage.awaitingReply p); [done|].
    destruct reply; [|by destruct p].
    unfold ProjectPage.pollCallback_reply, Act.exec, Act.bind.
    destruct p. cbn. apply documentsChanged_error.
  - unfold ProjectPage.projectLoaded, Act.exec, Act.bind. destruct p. cbn.
    apply documentsChanged_error.
  - destruct docs; [done|].
    unfold ProjectPage.documentsUploaded, Act.exec, Act.bind. destruct p. cbn.
    apply documentsChanged_error.
  - unfold ProjectPage.documentDeleted, Act.exec, Act.bind. destruct p. cbn.
    apply documentsChanged_error.
  - unfold ProjectPage.urlAdded, Act.exec, Act.bind. destruct p. cbn.
    apply documentsChanged_error.
  - unfold ProjectPage.handleDraftSettings, Act.exec, Act.bind. destruct p. cbn.
    by destruct (ProjectPage.settings _).
Qed.

(** Only a load that starts takes the page error away. *)
Lemma step_keeps_error projectId ev st :
  startsLoad ev = false →
  is_Some (ProjectPage.error (page st)) →
  is_Some (ProjectPage.error (page (step projectId ev st))).
Proof.
  intros Hs He. destruct ev; try discriminate Hs; cbn [step].
  - destruct (onPage_exec (λ p, (tt, ProjectPage.step projectId ev p)) st) as [-> _].
    unfold Act.exec. cbn. by rewrite poller_step_error.
  - destruct st as [[]]. run_page. by destruct token.
  - destruct reply as [bundle|err].
    + cbn [loadProjectData_reply].
      destruct (onPage_exec (ProjectPage.projectLoaded bundle) st) as [-> _].
      change (Act.exec (ProjectPage.projectLoaded bundle) (page st))
        with (ProjectPage.step projectId (ProjectPage.ProjectLoaded bundle)
                (page st)).
      by rewrite poller_step_error.
    + destruct st as [[]]. by run_page.
  - destruct st as [[]]. run_page. by destruct (truthy _).
  - destruct st as [[]]. run_page. by destruct token.
  - destruct st as [[]]. run_page. by destruct reply as [[]|].
  - destruct st as [[]]. run_page. by destruct (truthy _).
  - destruct st as [[]]. run_page. by destruct token.
  - destruct st as [[]]. run_page. by destruct reply.
  - destruct st as [[]]. run_page. by destruct (truthy _).
  - destruct st as [[]]. run_page. by destruct token.
  - destruct reply as [[]|err].
    + cbn [handleDocumentDelete_reply].
      destruct (onPage_exec (ProjectPage.documentDeleted documentId) st)
        as [-> _].
      change (Act.exec (ProjectPage.documentDeleted documentId) (page st))
        with (ProjectPage.step projectId
                (ProjectPage.DocumentDeleted documentId) (page st)).
      by rewrite poller_step_error.
    + destruct st as [[]]. by run_page.
  - destruct st as [[]]. run_page. by destruct (truthy _).
  - destruct st as [[]]. run_page. by destruct token.
  - destruct reply as [[doc|typeError]|err].
    + cbn [handleUrlAdd_reply].
      destruct (onPage_exec (ProjectPage.urlAdded doc) st) as [-> _].
      change (Act.exec (ProjectPage.urlAdded doc) (page st))
        with (ProjectPage.step projectId (ProjectPage.UrlAdded doc) (page st)).
      by rewrite poller_step_error.
    + destruct st as [[]]. by run_page.
    + destruct st as [[]]. by run_page.
  - destruct st as [[]]. run_page. by destruct (truthy _).
  - destruct token as [tok|err].
    + unfold handleDocumentUpload_token, Act.exec, Act.bind, Act.ret.
      match goal with
      | |- context [sendAll ?es st] =>
          pose proof (sendAll_spec es st) as H; unfold Act.exec in H;
          destruct (sendAll es st) as [[] s]; cbn in H; subst s
      end.
      done.
    + destruct st as [[]]. by run_page.
  - by rewrite sendAll_spec.
  - destruct docs as [|doc docs]; [by destruct st|].
    cbn [handleDocumentUpload_settled].
    destruct (onPage_exec (ProjectPage.documentsUploaded (doc :: docs)) st)
      as [-> _].
    change (Act.exec (ProjectPage.documentsUploaded (doc :: docs)) (page st))
      with (ProjectPage.step projectId
              (ProjectPage.DocumentsUploaded (doc :: docs)) (page st)).
    by rewrite poller_step_error.
  - destruct st as [[]]. cbn [page] in *.
    unfold onPage, Act.exec, ProjectPage.handlePublishSettings_begin,
      ProjectPage.emit, Act.bind, Act.ret. cbn.
    destruct (ProjectPage.settings _); [|done].
    by destruct (truthy _).
  - destruct st as [[]].
    unfold onPage, Act.exec, ProjectPage.handlePublishSettings_token,
      ProjectPage.publishCatch, ProjectPage.setError,
      ProjectPage.emit, Act.bind, Act.ret. cbn.
    by destruct token.
  - destruct st as [[]].
    unfold onPage, Act.exec, ProjectPage.handlePublishSettings_reply,
      ProjectPage.publishCatch, ProjectPage.setError,
      ProjectPage.emit, Act.bind, Act.ret. cbn.
    by destruct reply.
  - destruct st as [[]]. by run_page.
  - destruct st as [[]]. by run_page.
  - destruct st as [[]]. by run_page.
Qed.

(** X13. Once a handler has set the page error (a failed load, a failed
    chat creation or a failed publication of the settings), no handler
    takes it away again: whatever happens on the page afterwards, short
    of a new run of the loading effect, an error is set, and with a
    message that is not empty the page renders the error view in place of
    the project whenever it is not loading. *)
Theorem page_error_outlives_handlers projectId evs st :
  is_Some (ProjectPage.error (page st)) →
  forallb (λ ev, negb (startsLoad ev)) evs = true →
  let st' := run projectId evs st in
  ∃ message, ProjectPage.error (page st') = Some message
             ∧ (ProjectPage.loading (page st') = false → message ≠ "" →
                view st' = NotFound message).
Proof.
  intros He Hevs st'.
  assert (is_Some (ProjectPage.error (page st'))) as [message Hm].
  { subst st'. unfold run. revert st He Hevs.
    induction evs as [|ev evs IH]; intros st He Hevs; [done|].
    cbn in Hevs. apply andb_prop in Hevs as [Hev Hevs].
    cbn [foldl]. apply IH; [|done].
    apply step_keeps_error; [|done]. by apply negb_true_iff. }
  exists message. split; [done|]. intros. by apply view_error.
Qed.

Lemma page_error_outlives_handlers_witness :
  view (run "p1"
          [DocumentOpened "d1";
           DeleteChatBegins Fixture.signedIn;
           DeleteChatTokenSettles "c1" (Fulfilled (Some "jwt"));
           DeleteChatReplySettles "c1" (Fulfilled tt)]
          (Act.exec
             (handleCreateNewChat Fixture.signedIn
                (mkCreateChatTrip 1700000012345 (Fulfilled (Some "jwt"))
                   (Rejected (Api.httpError 500))))
             Fixture.shown))
  = NotFound "HTTP error! status: 500".
Proof.
  destruct (page_error_outlives_handlers "p1"
              [DocumentOpened "d1";
               DeleteChatBegins Fixture.signedIn;
               DeleteChatTokenSettles "c1" (Fulfilled (Some "jwt"));
               DeleteChatReplySettles "c1" (Fulfilled tt)]
              (Act.exec
                 (handleCreateNewChat Fixture.signedIn
                    (mkCreateChatTrip 1700000012345 (Fulfilled (Some "jwt"))
                       (Rejected (Api.httpError 500))))
                 Fixture.shown)
              (ex_intro _ _ eq_refl) eq_refl) as (message & Hm & Hv).
  cbv zeta in Hm, Hv. vm_compute in Hm. injection Hm as <-.
  apply Hv; [reflexivity|discriminate].
Defined.

Lemma load_success cl tok bundle st :
  truthy (userId cl) = true →
  Act.exec (loadProjectData cl
              (mkLoadTrip (Fulfilled tok) (Fulfilled bundle))) st
  = mkState
      (Act.exec (ProjectPage.projectLoaded bundle)
         (Act.exec (Act.bind (ProjectPage.setLoading true)
                      (λ _, ProjectPage.setError None)) (page st)))
      (selectedDocumentId st) (isCreatingChat st)
      (outbox st
         ++ [Wire.GetToken;
             Wire.ApiClient (Wire.Get (projectEndpoint cl "") tok);
             Wire.ApiClient (Wire.Get (projectEndpoint cl "/chats") tok);
             Wire.ApiClient (Wire.Get (projectEndpoint cl "/files") tok);
             Wire.ApiClient (Wire.Get (projectEndpoint cl "/settings") tok)]).
Proof.
  intros Hu. destruct st as [p sel creating out].
  cbv [loadProjectData loadProjectData_begin loadProjectData_token
       loadProjectData_reply onPage send Act.exec Act.bind Act.ret
       loadToken loadReply page selectedDocumentId isCreatingChat outbox
       ProjectPage.setLoading ProjectPage.setError fst snd].
  rewrite Hu.
  destruct (ProjectPage.projectLoaded bundle _). cbn.
  by rewrite <- !app_assoc.
Qed.

(** X14. A load that succeeds takes the page out of the loading state
    with no error set and shows the project: the data is the fetched
    bundle as a whole, the polling effect has run on its documents, so
    that the poller invariant holds whatever was shown before, and what
    left the page is the token request followed by four GETs, for the
    project, its chats, its files and its settings, in this order and all
    with the same token. *)
Theorem load_success_shows_project cl tok bundle st :
  truthy (userId cl) = true →
  ProjectPage.PollerInv (page st) →
  let net := mkLoadTrip (Fulfilled tok) (Fulfilled bundle) in
  let st' := Act.exec (loadProjectData cl net) st in
  ProjectPage.data (page st') = bundle ∧
  ProjectPage.PollerInv (page st') ∧
  view st' = Workspace bundle (selectedDocument st') ∧
  sent st st'
  = [Wire.GetToken;
     Wire.ApiClient (Wire.Get ("/api/project/" +:+ projectId cl +:+ "") tok);
     Wire.ApiClient
       (Wire.Get ("/api/project/" +:+ projectId cl +:+ "/chats") tok);
     Wire.ApiClient
       (Wire.Get ("/api/project/" +:+ projectId cl +:+ "/files") tok);
     Wire.ApiClient
       (Wire.Get ("/api/project/" +:+ projectId cl +:+ "/settings") tok)].
Proof.
  intros Hu [Hreg _] net st'. subst net st'.
  rewrite (load_success _ _ _ _ Hu).
  assert (∀ p, ProjectPage.intervals p
               = option_list (ProjectPage.pollCleanup p) →
               let p' := Act.exec (ProjectPage.projectLoaded bundle)
                           (Act.exec (Act.bind (ProjectPage.setLoading true)
                                        (λ _, ProjectPage.setError None)) p) in
               ProjectPage.PollerInv p' ∧ ProjectPage.data p' = bundle
               ∧ ProjectPage.loading p' = false
               ∧ ProjectPage.error p' = None) as Hp.
  { intros [d l e ivs next c at_ ar tr] Hr. cbn in Hr.
    unfold ProjectPage.projectLoaded, Act.exec, Act.bind,
      ProjectPage.setData, ProjectPage.setLoading, ProjectPage.setError.
    cbn.
    match goal with
    | |- context [ProjectPage.documentsChanged ?s] =>
        destruct (ProjectPageSpec.documentsChanged_spec s Hr)
          as (Hinv & Hd & _ & Hl & He & _)
    end.
    unfold Act.exec in *. cbn in *.
    exact (conj Hinv (conj Hd (conj Hl He))). }
  destruct (Hp (page st) Hreg) as (Hinv & Hd & Hl & He). cbv zeta in *.
  unfold view, sent, selectedDocument, projectEndpoint.
  cbn [page outbox selectedDocumentId].
  rewrite Hd, Hl, He, drop_app_length.
  split; [done|]. split; [exact Hinv|]. by split.
Qed.

Lemma load_success_shows_project_witness :
  view (Act.exec
          (loadProjectData Fixture.signedIn
             (mkLoadTrip (Fulfilled (Some "jwt")) (Fulfilled Fixture.bundle)))
          mount)
  = Workspace Fixture.bundle None.
Proof.
  exact (proj1 (proj2 (proj2
    (load_success_shows_project Fixture.signedIn (Some "jwt") Fixture.bundle
       mount eq_refl (conj eq_refl eq_refl))))).
Defined.

(** *** Uploads *)

Lemma uploaded_ok {J} (fetched : Settled (ApiClient.Response J)) r :
  ApiClient.uploaded fetched = Fulfilled r →
  fetched = Fulfilled r ∧ ApiClient.ok r = true.
Proof.
  unfold ApiClient.uploaded. destruct fetched as [response|err]; [|done].
  destruct (ApiClient.ok response) eqn:E; [|done]. by intros [= <-].
Qed.

(** X15. Between the presigned URL and the confirmation stands the upload
    itself: the confirmation of a file, with the key its presigned URL
    came with, is requested only when S3 answered the upload with an [ok]
    response. A refused upload is already thrown by [apiClient.uploadToS3]
    as "S3 Upload Error: " and the status, so it fails the file with that
    error and the page's own check of the response never fires. *)
Theorem upload_confirms_only_stored_files cl authToken selectedFile trip key :
  fileStep cl authToken selectedFile trip (Storing key)
  = match s3Fetched trip with
    | Fulfilled response =>
        if ApiClient.ok response then
          (Confirming,
           [Wire.ApiClient
              (Wire.Post
                 ("/api/project/" +:+ projectId cl
                    +:+ "/files/confirm-upload-to-s3")
                 [("s3_key", Json.Str key)] authToken)],
           None)
        else
          (Failed
             (ErrorObject
                ("S3 Upload Error: " +:+ pretty (ApiClient.status response))),
           [], None)
    | Rejected err => (Failed err, [], None)
    end.
Proof.
  unfold fileStep, ApiClient.uploaded.
  destruct (s3Fetched trip) as [response|err]; [|done].
  destruct (ApiClient.ok response) eqn:E; [|done]. by rewrite E.
Qed.

Lemma fileStep_reachable cl authToken selectedFile trip stage :
  reachableStage trip stage →
  reachableStage trip (fileStep cl authToken selectedFile trip stage).1.1.
Proof.
  destruct stage as [|key| | |reason]; cbn [fileStep]; intros H.
  - unfold reachableStage, fileOutcome.
    destruct (presignReply trip) as [[p|typeError]|err]; cbn; eauto.
  - destruct (ApiClient.uploaded (s3Fetched trip)) as [r|err] eqn:E.
    + apply uploaded_ok in E as [E Hok]. rewrite Hok. cbn. split; [done|].
      exists r. unfold ApiClient.uploaded. by rewrite E, Hok.
    + cbn. unfold fileOutcome. destruct H as [p ->]. by rewrite E.
  - destruct H as ([p Hp] & [r Hr]). unfold reachableStage, fileOutcome.
    rewrite Hp, Hr.
    destruct (confirmReply trip) as [[doc|typeError]|err]; cbn; eauto.
  - done.
  - done.
Qed.

Lemma fileStep_pushed cl authToken selectedFile trip stage :
  reachableStage trip stage →
  let r := fileStep cl authToken selectedFile trip stage in
  (pushedAt trip stage = None ∧ pushedAt trip r.1.1 = r.2)
  ∨ (r.1.1 = stage ∧ r.2 = None).
Proof.
  destruct stage as [|key| | |reason]; cbn [fileStep]; intros H.
  - left. by destruct (presignReply trip) as [[p|typeError]|err].
  - left. destruct (ApiClient.uploaded (s3Fetched trip)) as [r|err]; [|done].
    by destruct (ApiClient.ok r).
  - left. destruct H as ([p Hp] & [r Hr]).
    destruct (confirmReply trip) as [[doc|typeError]|err] eqn:E; cbn;
      try done.
    split; [done|]. unfold fileOutcome. by rewrite Hp, Hr, E.
  - by right.
  - by right.
Qed.

Lemma fileStep_quiet cl authToken selectedFile trip stage :
  Forall (λ e, Wire.is_toast e = false)
    (fileStep cl authToken selectedFile trip stage).1.2.
Proof.
  destruct stage as [|key| | |reason]; cbn [fileStep].
  - destruct (presignReply trip) as [[p|typeError]|err]; cbn;
      by repeat constructor.
  - destruct (ApiClient.uploaded (s3Fetched trip)) as [r|err]; [|done].
    destruct (ApiClient.ok r); cbn; by repeat constructor.
  - by destruct (confirmReply trip) as [[doc|typeError]|err].
  - done.
  - done.
Qed.

Lemma fileStep_progress cl authToken selectedFile trip stage :
  3 `min` S (progress stage)
  ≤ progress (fileStep cl authToken selectedFile trip stage).1.1.
Proof.
  destruct stage as [|key| | |reason]; cbn [fileStep].
  - destruct (presignReply trip) as [[p|typeError]|err]; cbn; lia.
  - destruct (ApiClient.uploaded (s3Fetched trip)) as [r|err]; [|cbn; lia].
    destruct (ApiClient.ok r); cbn; lia.
  - destruct (confirmReply trip) as [[doc|typeError]|err]; cbn; lia.
  - cbn; lia.
  - cbn; lia.
Qed.

Lemma omap_id_insert {A} (zs : list (option A)) i y :
  zs !! i = Some None →
  omap id (<[i:=y]> zs) ≡ₚ option_list y ++ omap id zs.
Proof.
  intros Hi. rewrite insert_take_drop by (by eapply lookup_lt_Some).
  rewrite <- (take_drop_middle zs i None) at 3 by done.
  rewrite !omap_app. cbn [omap]. destruct y as [a|]; cbn; [|done].
  by rewrite Permutation_middle.
Qed.

Lemma Forall2_insert_right {A B} (P : A → B → Prop) l k i x y :
  l !! i = Some x → Forall2 P l k → P x y → Forall2 P l (<[i:=y]> k).
Proof.
  intros Hl Hk Hxy. rewrite <- (list_insert_id l i x) by done.
  by apply Forall2_insert.
Qed.

(** The invariant of an upload in progress is kept by every settlement,
    which leaves the page as it is and shows no toast. *)
Lemma fileSettles_inv cl authToken jobs i u :
  Forall2 reachableStage (jobs.*2) (stages u) →
  newlyUploadedDocuments u
  ≡ₚ omap id (zip_with pushedAt (jobs.*2) (stages u)) →
  let u' := fileSettles cl authToken jobs i u in
  Forall2 reachableStage (jobs.*2) (stages u')
  ∧ newlyUploadedDocuments u'
    ≡ₚ omap id (zip_with pushedAt (jobs.*2) (stages u'))
  ∧ page (host u') = page (host u)
  ∧ ∃ es, outbox (host u') = outbox (host u) ++ es
          ∧ Forall (λ e, Wire.is_toast e = false) es.
Proof.
  intros Hreach Hdocs. unfold fileSettles.
  destruct (jobs !! i) as [[selectedFile trip]|] eqn:Hj;
    [destruct (stages u !! i) as [stage|] eqn:Hs|].
  2,3: repeat split; try done; exists []; by rewrite app_nil_r.
  assert ((jobs.*2) !! i = Some trip) as Ht.
  { by rewrite list_lookup_fmap, Hj. }
  assert (reachableStage trip stage) as Hstage.
  { by eapply Forall2_lookup_lr. }
  pose proof (fileStep_reachable cl authToken selectedFile _ _ Hstage) as Hr.
  pose proof (fileStep_pushed cl authToken selectedFile _ _ Hstage) as Hp.
  pose proof (fileStep_quiet cl authToken selectedFile trip stage) as Hq.
  destruct (fileStep cl authToken selectedFile trip stage)
    as [[stage' effects] pushed].
  cbn [fst snd] in *. cbn [stages newlyUploadedDocuments host].
  rewrite sendAll_spec. cbn [page outbox].
  split; [by eapply Forall2_insert_right|].
  split; [|split; [done|by exists effects]].
  rewrite <- (list_insert_id (jobs.*2) i trip) at 1 by done.
  rewrite <- insert_zip_with.
  destruct Hp as [[Hnone Hpushed]|[-> ->]].
  - rewrite omap_id_insert, Hpushed.
    + by rewrite Hdocs, (comm (++)).
    + by rewrite lookup_zip_with, Ht, Hs, <- Hnone.
  - rewrite list_insert_id.
    + by rewrite app_nil_r.
    + by rewrite lookup_zip_with, Ht, Hs.
Qed.

Lemma uploadPlay_inv cl authToken jobs schedule u :
  Forall2 reachableStage (jobs.*2) (stages u) →
  newlyUploadedDocuments u
  ≡ₚ omap id (zip_with pushedAt (jobs.*2) (stages u)) →
  let u' := uploadPlay cl authToken jobs schedule u in
  Forall2 reachableStage (jobs.*2) (stages u')
  ∧ newlyUploadedDocuments u'
    ≡ₚ omap id (zip_with pushedAt (jobs.*2) (stages u'))
  ∧ page (host u') = page (host u)
  ∧ ∃ es, outbox (host u') = outbox (host u) ++ es
          ∧ Forall (λ e, Wire.is_toast e = false) es.
Proof.
  unfold uploadPlay. revert u.
  induction schedule as [|i schedule IH]; intros u Hreach Hdocs.
  - repeat split; try done. exists []. by rewrite app_nil_r.
  - cbn [foldl].
    destruct (fileSettles_inv cl authToken jobs i u Hreach Hdocs)
      as (Hreach' & Hdocs' & Hpage & es & Hout & Hes).
    destruct (IH _ Hreach' Hdocs') as (? & ? & Hpage' & es' & Hout' & Hes').
    repeat split; try done; [congruence|].
    exists (es ++ es'). split.
    + by rewrite Hout', Hout, <- app_assoc.
    + by apply Forall_app.
Qed.

Lemma uploadStarted_inv st (jobs : list (ApiClient.File * FileTrip)) :
  let u := uploadStarted st (jobs.*1) in
  Forall2 reachableStage (jobs.*2) (stages u)
  ∧ omap id (zip_with pushedAt (jobs.*2) (stages u)) = [].
Proof.
  cbn. rewrite length_fmap.
  induction jobs as [|job jobs [IH1 IH2]]; [by split; [constructor|]|].
  cbn. split; [by constructor|done].
Qed.

Lemma settled_pushed trips stgs :
  Forall2 reachableStage trips stgs →
  forallb settled stgs = true →
  omap id (zip_with pushedAt trips stgs) = omap fileOutcome trips.
Proof.
  induction 1 as [|trip stage trips stgs Hr _ IH]; [done|].
  cbn [forallb]. intros [Hs Hall]%andb_prop. specialize (IH Hall).
  destruct stage; try discriminate Hs; csimpl; rewrite IH.
  - by destruct (fileOutcome trip).
  - cbn in Hr. by rewrite Hr.
Qed.

(** The stages only advance: a file's function that has been served [n]
    times is past [n] of its three requests. *)
Lemma uploadPlay_progress cl authToken jobs schedule u (served : nat → nat) :
  length (stages u) = length jobs →
  (∀ i stage, stages u !! i = Some stage →
              3 `min` served i ≤ progress stage) →
  let u' := uploadPlay cl authToken jobs schedule u in
  ∀ i stage, stages u' !! i = Some stage →
    3 `min` (served i + length (filter (λ j, j = i) schedule))
    ≤ progress stage.
Proof.
  unfold uploadPlay. revert u served.
  induction schedule as [|j schedule IH]; intros u served Hlen Hserved.
  - intros i stage Hs. cbn. rewrite Nat.add_0_r. by apply Hserved.
  - cbn [foldl]. intros i stage Hs.
    specialize (IH (fileSettles cl authToken jobs j u)
                  (λ i, served i + if decide (j = i) then 1 else 0)).
    cbv beta in IH. rewrite filter_cons.
    assert (length (if decide (j = i)
                    then j :: filter (λ j, j = i) schedule
                    else filter (λ j, j = i) schedule)
            = (if decide (j = i) then 1 else 0)
              + length (filter (λ j, j = i) schedule)) as ->.
    { by case_decide. }
    rewrite Nat.add_assoc. apply IH; [| |done].
    + unfold fileSettles.
      destruct (jobs !! j) as [[selectedFile trip]|]; [|done].
      destruct (stages u !! j); [|done].
      destruct (fileStep _ _ _ _ _) as [[? ?] ?]. cbn.
      by rewrite length_insert.
    + clear i stage Hs IH. intros i stage. unfold fileSettles.
      destruct (jobs !! j) as [[selectedFile trip]|] eqn:Hj.
      * destruct (stages u !! j) as [old|] eqn:Hold.
        -- pose proof (fileStep_progress cl authToken selectedFile trip old)
             as Hp.
           destruct (fileStep _ _ _ _ _) as [[stage' ?] ?]. cbn [stages fst] in *.
           case_decide as Hji.
           ++ subst i. rewrite list_lookup_insert_eq by (by eapply lookup_lt_Some).
              intros [= <-]. specialize (Hserved _ _ Hold). lia.
           ++ rewrite list_lookup_insert_ne by done. intros Hs.
              specialize (Hserved _ _ Hs). lia.
        -- apply lookup_lt_Some in Hj. apply lookup_ge_None in Hold. lia.
      * case_decide as Hji; [subst i|].
        -- intros Hs%lookup_lt_Some. apply lookup_ge_None in Hj. lia.
        -- intros Hs. specialize (Hserved _ _ Hs). lia.
Qed.

Lemma documentsUploaded_frame docs p :
  let p' := Act.exec (ProjectPage.documentsUploaded docs) p in
  ProjectPage.data p'
  = ProjectPage.with_documents
      (ProjectPage.documents (ProjectPage.data p) ++ docs)
      (ProjectPage.data p)
  ∧ ProjectPage.trace p'
    = ProjectPage.trace p
        ++ [Api.StoreUpdate "data";
            Api.ToastSuccess
              ("Successfully uploaded " +:+ pretty (length docs)
                 +:+ " file(s)")].
Proof.
  destruct p as [d l e ivs next c at_ ar tr].
  unfold ProjectPage.documentsUploaded, Act.exec, Act.bind,
    ProjectPage.setData, ProjectPage.emit. cbn.
  match goal with
  | |- context [ProjectPage.documentsChanged ?s] =>
      destruct (documentsChanged_frame s) as (Hd & Ht & _)
  end.
  unfold Act.exec in *. cbn in *. rewrite Hd, Ht.
  by rewrite <- app_assoc.
Qed.

Lemma upload_begin cl jobs tok schedule st :
  truthy (userId cl) = true →
  handleDocumentUpload cl jobs tok schedule st
  = let st2 :=
      mkState (page st) (selectedDocumentId st) (isCreatingChat st)
        (outbox st
           ++ [Wire.ConsoleLog "Upload files";
               Wire.ConsoleLog "Uploading files"; Wire.GetToken]
           ++ map (λ selectedFile,
                     Wire.ApiClient
                       (Wire.Post (presignEndpoint cl)
                          (presignedUrlPayload selectedFile) tok))
                (jobs.*1)) in
    let u := uploadPlay cl tok jobs schedule (uploadStarted st2 (jobs.*1)) in
    if allSettled u then
      Some (Act.exec
              (handleDocumentUpload_settled (newlyUploadedDocuments u))
              (host u))
    else None.
Proof.
  intros Hu. destruct st as [p sel creating out].
  unfold handleDocumentUpload, handleDocumentUpload_begin,
    handleDocumentUpload_token.
  cbv [Act.bind Act.ret send page selectedDocumentId isCreatingChat outbox].
  rewrite Hu.
  match goal with
  | |- context [Act.exec (λ s, let (_, s') := sendAll ?es s in _) ?s0] =>
      replace (Act.exec (λ s, let (_, s') := sendAll es s in (true, s')) s0)
        with (Act.exec (sendAll es) s0)
        by (unfold Act.exec; by destruct (sendAll es s0))
  end.
  rewrite sendAll_spec. cbn [page selectedDocumentId isCreatingChat outbox].
  by rewrite <- !app_assoc.
Qed.

(** X16. An upload appends exactly the documents of the files that were
    served at all three steps (presigned URL, upload to S3, confirmation),
    whatever the order in which the network serves the files; only the
    order among them is the network's. The handler returns once every
    file has settled, which it has when each file's function has been
    served three times; it then appends those documents behind the
    documents it finds, announces their number in one toast, and shows no
    toast for a file that failed; when no file got through, the page is
    as it was and nothing is shown at all. *)
Theorem upload_appends_confirmed_files cl jobs tok schedule st :
  truthy (userId cl) = true →
  ((∀ i, i < length jobs → 3 ≤ length (filter (λ j, j = i) schedule)) →
   is_Some (handleDocumentUpload cl jobs tok schedule st))
  ∧ ∀ st', handleDocumentUpload cl jobs tok schedule st = Some st' →
    ∃ docs,
      docs ≡ₚ omap fileOutcome (jobs.*2)
      ∧ ProjectPage.documents (ProjectPage.data (page st'))
        = ProjectPage.documents (ProjectPage.data (page st)) ++ docs
      ∧ (docs = [] → page st' = page st)
      ∧ (docs ≠ [] →
         ProjectPage.trace (page st')
         = ProjectPage.trace (page st)
             ++ [Api.StoreUpdate "data";
                 Api.ToastSuccess
                   ("Successfully uploaded " +:+ pretty (length docs)
                      +:+ " file(s)")])
      ∧ Forall (λ e, Wire.is_toast e = false) (sent st st').
Proof.
  intros Hu. rewrite (upload_begin _ _ _ _ _ Hu). cbv zeta.
  set (st2 := mkState _ _ _ _).
  set (u := uploadPlay cl tok jobs schedule (uploadStarted st2 (jobs.*1))).
  destruct (uploadStarted_inv st2 jobs) as [Hreach0 Hdocs0].
  cbv zeta in Hreach0, Hdocs0.
  destruct (uploadPlay_inv cl tok jobs schedule (uploadStarted st2 (jobs.*1))
              Hreach0) as (Hreach & Hdocs & Hpage & es & Hout & Hes).
  { by rewrite Hdocs0. }
  fold u in Hreach, Hdocs, Hpage, Hout. split.
  - intros Hserved.
    assert (allSettled u = true) as ->; [|by eexists].
    unfold allSettled. apply Is_true_true, forallb_True, Forall_lookup.
    intros i stage Hs.
    pose proof (uploadPlay_progress cl tok jobs schedule
                  (uploadStarted st2 (jobs.*1)) (λ _, 0)) as Hp.
    cbv zeta in Hp. fold u in Hp.
    assert (i < length jobs) as Hi.
    { apply lookup_lt_Some in Hs.
      by rewrite <- (Forall2_length _ _ _ Hreach), length_fmap in Hs. }
    specialize (Hp ltac:(cbn; by rewrite length_replicate, length_fmap)
                   ltac:(intros; cbn; lia) i stage Hs).
    specialize (Hserved i Hi). cbv beta in Hp.
    apply Is_true_true. destruct stage; try done; cbn [progress] in Hp; lia.
  - intros st'. destruct (allSettled u) eqn:Hall; [|done]. intros [= <-].
    exists (newlyUploadedDocuments u).
    unfold allSettled in Hall.
    rewrite (settled_pushed _ _ Hreach Hall) in Hdocs.
    split; [done|].
    assert (sent st (host u)
            = [Wire.ConsoleLog "Upload files";
               Wire.ConsoleLog "Uploading files"; Wire.GetToken]
              ++ map (λ selectedFile,
                        Wire.ApiClient
                          (Wire.Post (presignEndpoint cl)
                             (presignedUrlPayload selectedFile) tok))
                   (jobs.*1) ++ es) as Hsent.
    { unfold sent. rewrite Hout. cbn [uploadStarted host st2 outbox].
      by rewrite <- !app_assoc, drop_app_length. }
    assert (Forall (λ e, Wire.is_toast e = false) (sent st (host u))) as Hq.
    { rewrite Hsent. repeat (apply Forall_cons; split; [done|]).
      apply Forall_app. split; [|done].
      apply Forall_forall. by intros e (f & -> & _)%list_elem_of_fmap. }
    cbn [uploadStarted host st2 page] in Hpage.
    destruct (newlyUploadedDocuments u) as [|doc docs] eqn:Hnew.
    + cbn [handleDocumentUpload_settled]. unfold Act.exec, Act.ret. cbn [snd].
      rewrite Hpage, app_nil_r. by repeat split.
    + cbn [handleDocumentUpload_settled].
      destruct (onPage_exec (ProjectPage.documentsUploaded (doc :: docs))
                  (host u)) as (Hp & _ & _ & Ho).
      destruct (documentsUploaded_frame (doc :: docs) (page (host u)))
        as [Hd Ht].
      cbv zeta in Hd, Ht. rewrite <- Hp in Hd, Ht. rewrite Hpage in Hd, Ht.
      repeat split; try done.
      * by rewrite Hd.
      * unfold sent. rewrite Ho. exact Hq.
Qed.

Lemma upload_appends_confirmed_files_witness :
  is_Some
    (handleDocumentUpload Fixture.signedIn
       [(Fixture.pdf "a.pdf", Fixture.served "d5");
        (Fixture.pdf "b.pdf", Fixture.refused "d6")]
       (Some "jwt") [1; 0; 0; 1; 0; 1] Fixture.shown).
Proof.
  apply (proj1 (upload_appends_confirmed_files Fixture.signedIn
                  [(Fixture.pdf "a.pdf", Fixture.served "d5");
                   (Fixture.pdf "b.pdf", Fixture.refused "d6")]
                  (Some "jwt") [1; 0; 0; 1; 0; 1] Fixture.shown eq_refl)).
  intros [|[|i]] Hi; [vm_compute; lia..|cbn in Hi; lia].
Defined.

(** *** Publishing through [apiClient.put] *)

(** X24. The status of a refused publication reaches the user as the
    page itself: when the server answers the PUT of the settings with a
    response that is not [ok], [apiClient.put] throws
    "API Error: " followed by the status, and [handlePublishSettings]
    makes exactly this message the page error and the toast; the data,
    the draft included, is as it was, and once loading is over the
    project page is replaced by the error view with that message. *)
Theorem publish_refusal_replaces_page projectId cl draft tok response st :
  truthy (ProjectPage.userId cl) = true →
  ProjectPage.settings (ProjectPage.renderedData cl) = Some draft →
  ApiClient.ok response = false →
  let net := ProjectPage.mkRoundTrip (Fulfilled tok)
               (ApiClient.returnedByPut (Fulfilled response)) in
  let st' := Act.exec
               (onPage (ProjectPage.handlePublishSettings projectId cl net))
               st in
  let message := "API Error: " +:+ pretty (ApiClient.status response) in
  ProjectPage.data (page st') = ProjectPage.data (page st) ∧
  ProjectPage.error (page st') = Some message ∧
  ProjectPage.emitted (page st) (page st')
  = [Api.ConsoleLog "Make API call to publish settings"; Api.GetToken;
     Api.ApiClient
       (Api.Put ("/api/project/" +:+ projectId +:+ "/settings/update")
          (Api.SettingsBody draft) tok);
     Api.ToastError message] ∧
  (ProjectPage.loading (page st) = false → view st' = NotFound message).
Proof.
  intros Hu Hs Hok net st' message. subst net st' message.
  destruct (onPage_exec
              (ProjectPage.handlePublishSettings projectId cl
                 (ProjectPage.mkRoundTrip (Fulfilled tok)
                    (ApiClient.returnedByPut (Fulfilled response)))) st)
    as (Hp & Hsel & _).
  assert (∀ p, Act.exec
                 (ProjectPage.handlePublishSettings projectId cl
                    (ProjectPage.mkRoundTrip (Fulfilled tok)
                       (ApiClient.returnedByPut (Fulfilled response)))) p
               = ProjectPage.mkState (ProjectPage.data p)
                   (ProjectPage.loading p)
                   (Some ("API Error: "
                            +:+ pretty (ApiClient.status response)))
                   (ProjectPage.intervals p) (ProjectPage.nextIntervalId p)
                   (ProjectPage.pollCleanup p) (ProjectPage.awaitingToken p)
                   (ProjectPage.awaitingReply p)
                   (ProjectPage.trace p
                      ++ [Api.ConsoleLog "Make API call to publish settings";
                          Api.GetToken;
                          Api.ApiClient
                            (Api.Put (ProjectPage.settingsEndpoint projectId)
                               (Api.SettingsBody draft) tok);
                          Api.ToastError
                            ("API Error: "
                               +:+ pretty (ApiClient.status response))]))
    as Hrun.
  { intros [d l e ivs next c at_ ar tr].
    unfold ApiClient.returnedByPut, ApiClient.settle. rewrite Hok.
    cbv [ProjectPage.handlePublishSettings
         ProjectPage.handlePublishSettings_begin
         ProjectPage.handlePublishSettings_token
         ProjectPage.handlePublishSettings_reply ProjectPage.publishCatch
         ProjectPage.emit ProjectPage.setError Act.exec Act.bind Act.ret
         ProjectPage.tokenResult ProjectPage.replyResult Api.apiError
         messageOr].
    rewrite Hs, Hu. cbn. by rewrite <- !app_assoc. }
  rewrite Hp, Hrun. cbn [ProjectPage.data ProjectPage.error].
  split; [done|]. split; [done|]. split.
  - unfold ProjectPage.emitted. cbn [ProjectPage.trace].
    by rewrite drop_app_length.
  - intros Hl. apply view_error.
    + by rewrite Hp, Hrun.
    + by rewrite Hp, Hrun.
    + intros H. lazy [String.append] in H. discriminate H.
Qed.

Lemma publish_refusal_replaces_page_witness :
  view (Act.exec
          (onPage
             (ProjectPage.handlePublishSettings "p1"
                (ProjectPage.mkClosure (Some "user_1") Fixture.bundle)
                (ProjectPage.mkRoundTrip (Fulfilled (Some "jwt"))
                   (ApiClient.returnedByPut
                      (Fulfilled (Fixture.notOk 500))))))
          Fixture.shown)
  = NotFound "API Error: 500".
Proof.
  exact (proj2 (proj2 (proj2
    (publish_refusal_replaces_page "p1"
       (ProjectPage.mkClosure (Some "user_1") Fixture.bundle)
       Sample.settings (Some "jwt") (Fixture.notOk 500) Fixture.shown
       eq_refl eq_refl eq_refl))) eq_refl).
Defined.

End ProjectPageFullSpec.

(** * Properties of the rest of the chat page *)

Module ChatPageFullSpec.

Import Js ChatPageFull.

Ltac run_chat :=
  cbv [handleFeedbackSubmit handleFeedbackSubmit_begin
       handleFeedbackSubmit_token handleFeedbackSubmit_reply feedbackCatch
       feedbackFinally handleFeedbackOpen cancelFeedback
       loadChat loadChat_begin loadChat_token loadChat_reply loadChatCatch
       loadChatFinally delivered
       onChat send setIsLoadingChatData setFeedbackModal
       ChatPage.setCurrentChatData
       Act.bind Act.ret Act.exec Act.eval];
  cbn.

(** X17. A feedback submission that passes its guard always closes the
    modal, whether the feedback reached the server or not, and never
    touches the chat. It asks for a token and sends at most one request,
    a POST to [/api/feedback] that names the message of the modal the
    handler was rendered with, and it ends with one of two fixed toasts:
    what the server or the token request failed with is never shown. *)
Theorem feedback_submit_always_closes_modal cl feedback net st modal :
  truthy (userId cl) = true →
  renderedFeedbackModal cl = Some modal →
  let st' := Act.exec (handleFeedbackSubmit cl feedback net) st in
  feedbackModal st' = None ∧
  chat st' = chat st ∧
  isLoadingChatData st' = isLoadingChatData st ∧
  sent st st'
  = Wire.GetToken ::
    match tripToken net with
    | Fulfilled tok =>
        [Wire.ApiClient
           (Wire.Post "/api/feedback"
              [("message_id", Json.Str (messageId modal));
               ("rating", Json.Str (ratingName (rating feedback)));
               ("comment", optionalField (comment feedback));
               ("category", optionalField (category feedback))] tok);
         match tripReply net with
         | Fulfilled _ => Wire.ToastSuccess "Thanks for your feedback!"
         | Rejected _ =>
             Wire.ToastError "Failed to submit feedback. Please try again."
         end]
    | Rejected _ =>
        [Wire.ToastError "Failed to submit feedback. Please try again."]
    end.
Proof.
  intros Hu Hm st'. subst st'. destruct net as [tok reply].
  destruct st as [c loading fm out]. unfold sent. run_chat.
  rewrite Hm, Hu. cbn.
  destruct tok as [tok|err]; cbn; [destruct reply as [[]|err]; cbn|];
    by rewrite <- ?app_assoc, drop_app_length.
Qed.

Lemma feedback_submit_always_closes_modal_witness :
  feedbackModal
    (Act.exec
       (handleFeedbackSubmit Fixture.rating
          (mkFeedback dislike (Some "wrong citation") None)
          (mkTrip (Fulfilled (Some "jwt")) (Rejected (Api.httpError 500))))
       Fixture.chatting)
  = None.
Proof.
  exact (proj1 (feedback_submit_always_closes_modal Fixture.rating
                  (mkFeedback dislike (Some "wrong citation") None)
                  (mkTrip (Fulfilled (Some "jwt"))
                     (Rejected (Api.httpError 500)))
                  Fixture.chatting (mkModal "m1" dislike)
                  eq_refl eq_refl)).
Defined.

(** X18. Signed out, [loadChat] returns at its guard: nothing is sent and
    the state is as it was, the loading state included (the spinner of
    the first render stays).  Signed in, it ends the loading state in
    every outcome.  When it fails (no token, a rejected request, or no
    result to read) the chat that was shown stays and one fixed error
    toast is shown.  When it delivers, what was delivered replaces the
    chat and "Chat loaded" is toasted, also when the result carried no
    [data]: the page then renders "Chat not found".  The feedback modal
    and the state of the message form are as they were. *)
Theorem load_chat_outcomes cl net st :
  let st' := Act.exec (loadChat cl net) st in
  if truthy (userId cl) then
    isLoadingChatData st' = false ∧
    feedbackModal st' = feedbackModal st ∧
    ChatPage.sendMessageError (chat st')
    = ChatPage.sendMessageError (chat st) ∧
    ChatPage.isMessageSending (chat st')
    = ChatPage.isMessageSending (chat st) ∧
    match delivered net with
    | Some chatData =>
        ChatPage.currentChatData (chat st') = chatData
        ∧ last (sent st st') = Some (Wire.ToastSuccess "Chat loaded")
        ∧ (chatData = None → view st' = NotFound "Chat not found")
    | None =>
        ChatPage.currentChatData (chat st')
        = ChatPage.currentChatData (chat st)
        ∧ last (sent st st')
          = Some (Wire.ToastError "Failed to load chat. Please try again.")
    end
  else
    st' = st ∧ sent st st' = [] ∧
    (isLoadingChatData st = true →
     view st' = LoadingSpinner "Loading chat...").
Proof.
  intros st'. subst st'. destruct net as [tok reply].
  destruct st as [[c e sending tr] loading fm out]. unfold sent, view.
  run_chat. destruct (truthy (userId cl)); cbn.
  - destruct tok as [tok|err]; cbn;
      [destruct reply as [[chatData|typeError]|err]; cbn|];
      rewrite <- ?app_assoc, drop_app_length; repeat split; try done.
    by intros ->.
  - rewrite drop_all. repeat split; try done. by intros ->.
Qed.

Lemma load_chat_outcomes_witness :
  view (Act.exec
          (loadChat Fixture.rating
             (mkLoadTrip (Fulfilled (Some "jwt"))
                (Fulfilled (Wire.Present None))))
          Fixture.chatting)
  = NotFound "Chat not found".
Proof.
  exact (proj2 (proj2 (proj2 (proj2 (proj2 (proj2
    (load_chat_outcomes Fixture.rating
       (mkLoadTrip (Fulfilled (Some "jwt")) (Fulfilled (Wire.Present None)))
       Fixture.chatting)))))) eq_refl).
Defined.

End ChatPageFullSpec.

(** * Properties of the dashboard *)

Module DashboardPageSpec.

Import Js DashboardPage.

Ltac run_dashboard :=
  cbv [loadUserProjects loadUserProjects_begin loadUserProjects_token
       loadUserProjects_reply loadCatch loadFinally loaded loadEffect
       createNewProject createNewProject_begin createNewProject_token
       createNewProject_reply createCatch createFinally created
       removeProject removeProject_begin removeProject_token
       removeProject_reply removeCatch removed
       navigateToProject openCreateModal closeCreateModal
       send setUserProjectsList setIsLoadingProjects setErrorMessage
       setSearchQuery setShowCreateModal setIsCreatingProject
       Act.bind Act.ret Act.exec Act.eval];
  cbn.

Lemma orElse_truthy x fallback :
  orElse x fallback = match x with
                      | Some s => if decide (s = "") then fallback else s
                      | None => fallback
                      end.
Proof.
  unfold orElse, truthy. destruct x as [s|]; [|done].
  case_bool_decide; by case_decide.
Qed.

Lemma orElse_filled s fallback : s ≠ "" → orElse (Some s) fallback = s.
Proof. intros. rewrite orElse_truthy. by rewrite decide_False. Qed.

(** X19. The list built from the server's answer has one project per
    element received, in the same order, and none of them has an empty
    name; a project that arrives with its name, its creation date and its
    owner filled in is taken over field by field, whoever is signed in
    and whatever the clock says. *)
Theorem valid_projects_fill_gaps userId clock :
  (∀ projectsData,
     length (validProjects userId clock projectsData) = length projectsData
     ∧ Forall (λ p, Project.name p ≠ "")
         (validProjects userId clock projectsData))
  ∧ ∀ projects,
      Forall (λ p, Project.name p ≠ "" ∧ Project.created_at p ≠ ""
                   ∧ Project.clerk_id p ≠ "") projects →
      validProjects userId clock (sentBy <$> projects) = projects.
Proof.
  unfold validProjects. split.
  - intros projectsData. split; [apply length_imap|].
    apply Forall_lookup. intros i p.
    rewrite list_lookup_imap. destruct (projectsData !! i) as [raw|]; [|done].
    intros [= <-]. cbn. rewrite orElse_truthy.
    destruct (raw_name raw) as [s|]; [|done]. by case_decide.
  - intros projects Hall. apply list_eq. intros i.
    rewrite list_lookup_imap, list_lookup_fmap.
    destruct (projects !! i) as [p|] eqn:Hp; [|done]. cbn -[orElse].
    destruct (proj1 (Forall_lookup _ _) Hall i p Hp) as (Hn & Hc & Ho).
    destruct p as [id name description clerk created]. cbn in Hn, Hc, Ho.
    unfold validProject. cbn -[orElse].
    rewrite (orElse_filled name), (orElse_filled clerk),
      (orElse_filled created) by done.
    rewrite !orElse_truthy. by repeat case_decide; subst.
Qed.

Lemma valid_projects_fill_gaps_witness :
  validProjects (Some "user_1") (λ _, "2025-01-02T00:00:00.000Z")
    (sentBy <$> [Fixture.projectRow "p1" "Alpha"; Fixture.projectRow "" "Beta"])
  = [Fixture.projectRow "p1" "Alpha"; Fixture.projectRow "" "Beta"].
Proof.
  apply (proj2 (valid_projects_fill_gaps (Some "user_1")
                  (λ _, "2025-01-02T00:00:00.000Z"))).
  by repeat constructor.
Defined.

Lemma sent_of st st' es : outbox st' = outbox st ++ es → sent st st' = es.
Proof. unfold sent. intros ->. by rewrite drop_app_length. Qed.

(** What one [loadUserProjects] call does, by outcome. *)
Lemma loadUserProjects_spec userId net st :
  let st' := Act.exec (loadUserProjects userId net) st in
  isLoadingProjects st' = false
  ∧ searchQuery st' = searchQuery st
  ∧ showCreateModal st' = showCreateModal st
  ∧ isCreatingProject st' = isCreatingProject st
  ∧ (∃ es, outbox st' = outbox st ++ Wire.GetToken :: es
           ∧ Wire.toasts es
             = (if loaded net then []
                else [Wire.ToastError loadFailed])
           ∧ Wire.calls es
             = match loadToken net with
               | Fulfilled tok =>
                   [Wire.ApiClient (Wire.Get "/api/project/list" tok)]
               | Rejected _ => []
               end)
  ∧ errorMessage st' = (if loaded net then None else Some loadFailed)
  ∧ userProjectsList st'
    = match loadToken net, loadReply net with
      | Fulfilled _, Fulfilled (Wire.Present (Some projectsData)) =>
          validProjects userId (loadClock net) projectsData
      | Fulfilled _, Fulfilled (Wire.Present None) => []
      | _, _ => userProjectsList st
      end.
Proof.
  destruct net as [clock tok reply].
  destruct st as [list loading e query modal creating out].
  run_dashboard.
  destruct tok as [tok|err]; cbn;
    [destruct reply as [[[projectsData|]|typeError]|err]; cbn|];
    repeat split; try done; eexists; rewrite <- ?app_assoc;
    (split; [reflexivity|done]).
Qed.

(** X20. Loading the project list replaces the list only when the server
    answered: with one project per element received when the answer is an
    array, with the empty list when it is anything else. When the load
    fails (no token, a rejected request, or no answer to read) the list
    that was shown stays, and the fixed message
    "Failed to load projects. Please try again." is both toasted and
    stored as the page's error. In every outcome the loading state is
    over, one token was requested and at most one GET of
    [/api/project/list] was sent. *)
Theorem load_projects_outcomes userId net st :
  let st' := Act.exec (loadUserProjects userId net) st in
  isLoadingProjects st' = false ∧
  userProjectsList st'
  = match loadToken net, loadReply net with
    | Fulfilled _, Fulfilled (Wire.Present (Some projectsData)) =>
        validProjects userId (loadClock net) projectsData
    | Fulfilled _, Fulfilled (Wire.Present None) => []
    | _, _ => userProjectsList st
    end ∧
  errorMessage st' = (if loaded net then None else Some loadFailed) ∧
  Wire.toasts (sent st st')
  = (if loaded net then [] else [Wire.ToastError loadFailed]) ∧
  Wire.calls (sent st st')
  = match loadToken net with
    | Fulfilled tok => [Wire.ApiClient (Wire.Get "/api/project/list" tok)]
    | Rejected _ => []
    end.
Proof.
  intros st'.
  destruct (loadUserProjects_spec userId net st)
    as (Hl & _ & _ & _ & (es & Hout & Ht & Hc) & He & Hlist).
  fold st' in Hl, Hout, He, Hlist.
  rewrite (sent_of _ _ _ Hout). by repeat split.
Qed.

(** X21. When the server creates the project but the reload of the list
    that follows fails, the user is told both: the error toast of the
    load and then "Project created successfully". The modal is closed,
    the list is the one that was shown (without the new project), the
    page's error is the load's message, and both busy flags are down. *)
Theorem create_project_reports_failed_reload userId name description net st :
  created net = true →
  loaded (reload net) = false →
  let st' := Act.exec (createNewProject userId name description net) st in
  userProjectsList st' = userProjectsList st ∧
  showCreateModal st' = false ∧
  errorMessage st' = Some loadFailed ∧
  isCreatingProject st' = false ∧
  isLoadingProjects st' = false ∧
  Wire.toasts (sent st st')
  = [Wire.ToastError loadFailed;
     Wire.ToastSuccess "Project created successfully"].
Proof.
  intros Hc Hl st'. subst st'.
  destruct net as [tok reply [clock ltok lreply]].
  destruct st as [list loading e query modal creating out].
  unfold sent. revert Hc Hl. run_dashboard.
  destruct tok as [tok|err]; [|done]. destruct reply as [[]|err]; [|done].
  intros _. cbn.
  destruct ltok as [ltok|err]; cbn;
    [destruct lreply as [[raw|typeError]|err]; cbn; [done| |]|];
    intros _; rewrite <- ?app_assoc, drop_app_length; by repeat split.
Qed.

Lemma create_project_reports_failed_reload_witness :
  Wire.toasts
    (sent Fixture.listed
       (Act.exec
          (createNewProject (Some "user_1") "Gamma" ""
             (mkCreateTrip (Fulfilled (Some "jwt")) (Fulfilled tt)
                Fixture.failedLoad))
          Fixture.listed))
  = [Wire.ToastError "Failed to load projects. Please try again.";
     Wire.ToastSuccess "Project created successfully"].
Proof.
  exact (proj2 (proj2 (proj2 (proj2 (proj2
    (create_project_reports_failed_reload (Some "user_1") "Gamma" ""
       (mkCreateTrip (Fulfilled (Some "jwt")) (Fulfilled tt)
          Fixture.failedLoad)
       Fixture.listed eq_refl eq_refl)))))).
Defined.

(** X22. When the creation itself fails (no token or a rejected request)
    the list is not reloaded: no GET is sent, the list and the modal are
    as they were (the form stays open), the fixed message
    "Failed to create project. Please try again." is the page's error and
    the only toast, and the creating flag is down again. *)
Theorem create_project_failure_keeps_form userId name description net st :
  created net = false →
  let st' := Act.exec (createNewProject userId name description net) st in
  userProjectsList st' = userProjectsList st ∧
  showCreateModal st' = showCreateModal st ∧
  isLoadingProjects st' = isLoadingProjects st ∧
  errorMessage st' = Some createFailed ∧
  isCreatingProject st' = false ∧
  Wire.toasts (sent st st') = [Wire.ToastError createFailed] ∧
  Wire.calls (sent st st')
  = match createToken net with
    | Fulfilled tok =>
        [Wire.ApiClient
           (Wire.Post "/api/project/create"
              [("name", Json.Str name);
               ("description", Json.Str description)] tok)]
    | Rejected _ => []
    end.
Proof.
  intros Hc st'. subst st'.
  destruct net as [tok reply [clock ltok lreply]].
  destruct st as [list loading e query modal creating out].
  unfold sent. revert Hc. run_dashboard.
  destruct tok as [tok|err]; [destruct reply as [[]|err]; [done|]|];
    intros _; cbn; rewrite <- ?app_assoc, drop_app_length; by repeat split.
Qed.

Lemma create_project_failure_keeps_form_witness :
  showCreateModal
    (Act.exec
       (createNewProject (Some "user_1") "Gamma" ""
          (mkCreateTrip (Fulfilled (Some "jwt"))
             (Rejected (Api.httpError 409)) Fixture.failedLoad))
       Fixture.listed)
  = true.
Proof.
  exact (proj1 (proj2
    (create_project_failure_keeps_form (Some "user_1") "Gamma" ""
       (mkCreateTrip (Fulfilled (Some "jwt"))
          (Rejected (Api.httpError 409)) Fixture.failedLoad)
       Fixture.listed eq_refl))).
Defined.

(** X23. Removing a project needs no signed-in user. On success exactly
    the projects with that id leave the list, the others stay in order,
    and no error is set; on failure (no token or a rejected request) the
    list is as it was and the fixed message
    "Failed to remove project. Please try again." is the page's error
    and the toast. The modal, the search box and the loading state are
    never touched. *)
Theorem remove_project_outcomes _projectId net st :
  let st' := Act.exec (removeProject _projectId net) st in
  (if removed net then
     userProjectsList st'
     = filter (λ project, Project.id project ≠ _projectId)
         (userProjectsList st)
     ∧ errorMessage st' = None
     ∧ Wire.toasts (sent st st')
       = [Wire.ToastSuccess "Project removed successfully"]
   else
     userProjectsList st' = userProjectsList st
     ∧ errorMessage st' = Some removeFailed
     ∧ Wire.toasts (sent st st') = [Wire.ToastError removeFailed]) ∧
  showCreateModal st' = showCreateModal st ∧
  searchQuery st' = searchQuery st ∧
  isLoadingProjects st' = isLoadingProjects st ∧
  Wire.calls (sent st st')
  = match tripToken net with
    | Fulfilled tok =>
        [Wire.ApiClient
           (Wire.Delete ("/api/project/delete/" +:+ _projectId) tok)]
    | Rejected _ => []
    end.
Proof.
  intros st'. subst st'. destruct net as [tok reply].
  destruct st as [list loading e query modal creating out].
  unfold sent. run_dashboard.
  destruct tok as [tok|err]; [destruct reply as [[]|err]|];
    cbn; rewrite <- ?app_assoc, drop_app_length; by repeat split.
Qed.

End DashboardPageSpec.
